(** * A model of the video-generation service

    The development follows the Python sources of the repository:

    - [services/script_generator/gemini_script.py]
    - [services/code_generator/manim_code_generator.py]
    - [services/tts/elevenlabs_tts.py]
    - [services/renderer/manim_renderer.py]
    - [services/composer/video_composer.py]
    - [app/main.py]
    - [utils/file_utils.py] (the helpers that need no directory listing)
    - [client.py] (the polling loop)

    Python code is embedded as functions in a state-and-exception monad.
    Everything the code obtains from outside the process (the generative
    endpoint, the speech endpoint, child processes, refusals of the
    operating system) is read from an [Env] record of oracles, so that a
    statement quantified over [Env] covers every behaviour of these
    collaborators.  The log lines of the services are left out, except
    where evaluating the text of a line can raise. *)

From Stdlib Require Import ZArith QArith String Ascii List Lia.
From stdpp Require Import gmap strings list pretty.

Set Default Proof Using "Type".
Set Warnings "-register-all".

(** ** Exceptions and the monad *)

(** Instances of Python's [Exception]: an ordinary exception carries its
    class name and the text that [str(e)] gives; FastAPI's [HTTPException]
    carries a status code and a detail.  [BaseException]s that are not
    [Exception]s (cancellation, keyboard interrupt) are outside the model. *)
Inductive exn : Type :=
| PyExc (cls : string) (msg : string)
| HTTPException (status_code : Z) (detail : string).

Definition exn_class (e : exn) : string :=
  match e with
  | PyExc cls _ => cls
  | HTTPException _ _ => "HTTPException"
  end.

(** [str(e)] *)
Definition str_exn (e : exn) : string :=
  match e with
  | PyExc _ msg => msg
  | HTTPException _ detail => detail
  end.

(** [KeyError(key)]: its text is the [repr] of the key. *)
Definition KeyError (key : string) : exn := PyExc "KeyError" ("'" +:+ key +:+ "'").

Inductive result (A : Type) : Type :=
| Ok (a : A)
| Raise (e : exn).
Arguments Ok {A} a.
Arguments Raise {A} e.

(** A computation over a store [S]: it ends with a value or with a raised
    exception, and in both cases leaves a store behind (what was written
    before an exception stays written). *)
Definition M (S A : Type) : Type := S -> result A * S.

Definition ret {S A} (a : A) : M S A := fun s => (Ok a, s).

Definition raise {S A} (e : exn) : M S A := fun s => (Raise e, s).

Definition bind {S A B} (m : M S A) (k : A -> M S B) : M S B :=
  fun s =>
    match m s with
    | (Ok a, s') => k a s'
    | (Raise e, s') => (Raise e, s')
    end.

Declare Scope py_scope.
Delimit Scope py_scope with py.
Notation "x <- m ;; k" := (bind m (fun x => k))
  (at level 100, m at next level, right associativity) : py_scope.
Notation "m ;;; k" := (bind m (fun _ => k))
  (at level 100, right associativity) : py_scope.
Local Open Scope py_scope.

(** [try: body  except Exception as e: handler e] *)
Definition try_except {S A} (body : M S A) (handler : exn -> M S A) : M S A :=
  fun s =>
    match body s with
    | (Ok a, s') => (Ok a, s')
    | (Raise e, s') => handler e s'
    end.

(** [try: body  finally: cleanup].  The value (or exception) of [body] is
    kept unless [cleanup] itself raises. *)
Definition try_finally {S A} (body : M S A) (cleanup : M S unit) : M S A :=
  fun s =>
    match body s with
    | (r, s') =>
        match cleanup s' with
        | (Ok _, s'') => (r, s'')
        | (Raise e, s'') => (Raise e, s'')
        end
    end.

(** A pure fallible step. *)
Definition lift_result {S A} (r : result A) : M S A := fun s => (r, s).

Definition get_store {S} : M S S := fun s => (Ok s, s).

Definition modify {S} (f : S -> S) : M S unit := fun s => (Ok tt, f s).

(** Running a computation on a component of a larger store. *)
Definition zoom {S T A} (proj : T -> S) (upd : S -> T -> T) (m : M S A) : M T A :=
  fun t => match m (proj t) with (r, s') => (r, upd s' t) end.

(** [for x in xs: body x], collecting what the bodies return. *)
Fixpoint for_each {S A B} (body : A -> M S B) (xs : list A) : M S (list B) :=
  match xs with
  | [] => ret []
  | x :: xs' => y <- body x ;; ys <- for_each body xs' ;; ret (y :: ys)
  end.

(** ** Text *)

Definition dq : string := String (ascii_of_nat 34) "".
Definition nl : string := String (ascii_of_nat 10) "".
Definition backticks : string := "```".

(** [\s] and [\w] of Python's [re] on ASCII text.  A text of the model is
    a sequence of 8-bit characters.  On a text that holds other characters
    than ASCII ones Python's classes are Unicode classes, which the model
    does not have: statements about arbitrary text that depend on the two
    classes are made for ASCII text ([is_ascii]). *)
Definition is_space (c : ascii) : bool :=
  let n := nat_of_ascii c in
  ((9 <=? n) && (n <=? 13)) || ((28 <=? n) && (n <=? 32)).

Definition is_word (c : ascii) : bool :=
  let n := nat_of_ascii c in
  ((48 <=? n) && (n <=? 57)) || ((65 <=? n) && (n <=? 90))
  || ((97 <=? n) && (n <=? 122)) || (n =? 95).

(** Every character of [s] satisfies [f]. *)
Fixpoint all_chars (f : ascii -> bool) (s : string) : bool :=
  match s with
  | EmptyString => true
  | String c s' => f c && all_chars f s'
  end.


(** [s] with the prefix [p] removed, when [s] starts with [p]. *)
Fixpoint strip_prefix (p s : string) : option string :=
  match p with
  | EmptyString => Some s
  | String a p' =>
      match s with
      | EmptyString => None
      | String b s' => if Ascii.eqb a b then strip_prefix p' s' else None
      end
  end.

(** The text before and after the leftmost occurrence of [p] in [s]. *)
Fixpoint split_at_first (p s : string) : option (string * string) :=
  match strip_prefix p s with
  | Some rest => Some (EmptyString, rest)
  | None =>
      match s with
      | EmptyString => None
      | String c s' =>
          match split_at_first p s' with
          | Some (before, after) => Some (String c before, after)
          | None => None
          end
      end
  end.

(** [sub in s] on strings. *)
Definition contains (sub s : string) : bool :=
  match split_at_first sub s with Some _ => true | None => false end.

(** The longest prefix of characters satisfying [f], and the rest. *)
Fixpoint span (f : ascii -> bool) (s : string) : string * string :=
  match s with
  | EmptyString => (EmptyString, EmptyString)
  | String c s' =>
      if f c then let '(a, b) := span f s' in (String c a, b)
      else (EmptyString, s)
  end.

(** [s.replace(old, new)] for a non-empty [old]: every occurrence, left to
    right, without overlap.  [skip] counts the characters of the current
    occurrence still to be passed over. *)
Fixpoint replace_go (old new : string) (skip : nat) (s : string) : string :=
  match s with
  | EmptyString => EmptyString
  | String c s' =>
      match skip with
      | S k => replace_go old new k s'
      | O =>
          match strip_prefix old s with
          | Some _ => new +:+ replace_go old new (String.length old - 1) s'
          | None => String c (replace_go old new 0 s')
          end
      end
  end.

Definition str_replace (old new s : string) : string := replace_go old new 0 s.

(** [s.endswith(suffix)] *)
Definition endswith (suffix s : string) : bool :=
  match strip_prefix (String.rev suffix) (String.rev s) with
  | Some _ => true
  | None => false
  end.

(** *** Paths ([posixpath]) *)

Definition is_slash (c : ascii) : bool := Ascii.eqb c "/".

(** [p[:p.rfind('/') + 1]] *)
Definition head_through_last_slash (p : string) : string :=
  String.rev (snd (span (fun c => negb (is_slash c)) (String.rev p))).

(** [os.path.basename]: [p[p.rfind('/') + 1:]] *)
Definition basename (p : string) : string :=
  String.rev (fst (span (fun c => negb (is_slash c)) (String.rev p))).

(** [os.path.dirname]: the head, with trailing slashes removed unless it
    consists of slashes only. *)
Definition dirname (p : string) : string :=
  let head := head_through_last_slash p in
  let stripped := String.rev (snd (span is_slash (String.rev head))) in
  match stripped with
  | EmptyString => head
  | _ => stripped
  end.

(** [os.path.join(a, b)] *)
Definition path_join (a b : string) : string :=
  match strip_prefix "/" b with
  | Some _ => b
  | None =>
      if bool_decide (a = "") || endswith "/" a then a +:+ b
      else a +:+ "/" +:+ b
  end.

(** ** Regular expressions of the sources *)

(** [re.search(r'class\s+(\w+)\s*\(\s*Scene\s*\)', code)], group 1.  The
    character classes are disjoint from each other and from the literals
    that follow them, so every quantifier takes the longest run and no
    backtracking changes the outcome. *)
Definition match_class_here (s : string) : option string :=
  s1 ← strip_prefix "class" s;
  let '(ws, s2) := span is_space s1 in
  if bool_decide (ws = "") then None else
  let '(name, s3) := span is_word s2 in
  if bool_decide (name = "") then None else
  s4 ← strip_prefix "(" (snd (span is_space s3));
  s5 ← strip_prefix "Scene" (snd (span is_space s4));
  _ ← strip_prefix ")" (snd (span is_space s5));
  Some name.

Fixpoint search_class (s : string) : option string :=
  match match_class_here s with
  | Some name => Some name
  | None =>
      match s with
      | EmptyString => None
      | String _ s' => search_class s'
      end
  end.

(** [re.search(opener + r'([\s\S]*?)\n```', text)], group 1, for a literal
    [opener]: the leftmost opener and, lazily, the first closing fence after
    it.  When the leftmost opener has no closing fence after it, no later
    opener has one either. *)
Definition search_fenced (opener text : string) : option string :=
  '(_, rest) ← split_at_first opener text;
  '(content, _) ← split_at_first (nl +:+ backticks) rest;
  Some content.

(** The common extraction step of [generate_script] (label [json]) and
    [generate_manim_code] (label [python]):
    [re.search(labelled, text) or re.search(label_free, text)], then group 1
    of the match, or the whole text when neither matched. *)
Definition extract_payload (label text : string) : string :=
  match search_fenced (backticks +:+ label +:+ nl) text with
  | Some content => content
  | None =>
      match search_fenced (backticks +:+ nl) text with
      | Some content => content
      | None => text
      end
  end.

(** ** Parsed JSON and Python values built from it *)

(** What [json.loads] returns.  A number keeps its literal text.  An object
    is the list of its bindings; [lookup_key] reads the first binding of a
    key. *)
Inductive json : Type :=
| JNull
| JBool (b : bool)
| JNum (literal : string)
| JStr (s : string)
| JList (items : list json)
| JObj (bindings : list (string * json)).

Fixpoint lookup_key (key : string) (bindings : list (string * json)) : option json :=
  match bindings with
  | [] => None
  | (k, v) :: rest => if bool_decide (k = key) then Some v else lookup_key key rest
  end.

Definition has_key (key : string) (bindings : list (string * json)) : bool :=
  match lookup_key key bindings with Some _ => true | None => false end.

Definition is_json_str (key : string) (v : json) : bool :=
  match v with JStr s => bool_decide (s = key) | _ => false end.

(** [type(v).__name__]: a number written without fraction and exponent is
    parsed as an [int], every other number as a [float]. *)
Definition is_int_literal (literal : string) : bool :=
  all_chars (fun c => let n := nat_of_ascii c in ((48 <=? n) && (n <=? 57)) || (n =? 45))
    literal.

Definition py_type_name (v : json) : string :=
  match v with
  | JNull => "NoneType"
  | JBool _ => "bool"
  | JNum literal => if is_int_literal literal then "int" else "float"
  | JStr _ => "str"
  | JList _ => "list"
  | JObj _ => "dict"
  end.

(** The [TypeError]s of the interpreter, with the texts of CPython 3.11 to
    3.13. *)
Definition not_iterable_argument (v : json) : exn :=
  PyExc "TypeError" ("argument of type '" +:+ py_type_name v +:+ "' is not iterable").

Definition not_subscriptable (v : json) : exn :=
  PyExc "TypeError" ("'" +:+ py_type_name v +:+ "' object is not subscriptable").

Definition not_iterable (v : json) : exn :=
  PyExc "TypeError" ("'" +:+ py_type_name v +:+ "' object is not iterable").

(** [key in v] for a string [key]: membership in a dict, substring of a
    string, element of a list; the other values are not containers. *)
Definition py_in (key : string) (v : json) : result bool :=
  match v with
  | JObj bindings => Ok (has_key key bindings)
  | JStr s => Ok (contains key s)
  | JList items => Ok (existsb (is_json_str key) items)
  | _ => Raise (not_iterable_argument v)
  end.

(** [v[key]] for a string [key]. *)
Definition py_getitem (v : json) (key : string) : result json :=
  match v with
  | JObj bindings =>
      match lookup_key key bindings with
      | Some x => Ok x
      | None => Raise (KeyError key)
      end
  | JStr _ => Raise (PyExc "TypeError" "string indices must be integers, not 'str'")
  | JList _ => Raise (PyExc "TypeError" "list indices must be integers or slices, not str")
  | _ => Raise (not_subscriptable v)
  end.

(** [all(key in v for key in keys)]: stops at the first key that is
    missing. *)
Fixpoint all_keys_in (keys : list string) (v : json) : result bool :=
  match keys with
  | [] => Ok true
  | key :: rest =>
      match py_in key v with
      | Ok true => all_keys_in rest v
      | Ok false => Ok false
      | Raise e => Raise e
      end
  end.

(** ** [gemini_script.py] *)

Definition required_keys : list string := ["title"; "description"; "scenes"].

Definition scene_keys : list string :=
  ["startTime"; "endTime"; "narration"; "visualDescription"].

(** The loop [for scene in script['scenes']] of [validate_script]. *)
Fixpoint validate_scenes (scenes : list json) : result bool :=
  match scenes with
  | [] => Ok true
  | scene :: rest =>
      match all_keys_in scene_keys scene with
      | Ok true => validate_scenes rest
      | Ok false => Ok false
      | Raise e => Raise e
      end
  end.

Definition validate_script (script : json) : result bool :=
  match script with
  | JObj bindings =>
      if negb (forallb (fun key => has_key key bindings) required_keys) then Ok false
      else
        match lookup_key "scenes" bindings with
        | Some (JList []) => Ok false
        | Some (JList scenes) => validate_scenes scenes
        | _ => Ok false
        end
  | _ => Ok false
  end.

Definition mock_scene (startTime endTime narration visualDescription : string) : json :=
  JObj [("startTime", JStr startTime); ("endTime", JStr endTime);
        ("narration", JStr narration); ("visualDescription", JStr visualDescription)].

Definition generate_mock_script (prompt : string) : json :=
  JObj
    [("title", JStr ("Understanding " +:+ prompt));
     ("description",
      JStr ("An educational video explaining " +:+ prompt +:+ " with visual animations."));
     ("scenes",
      JList
        [mock_scene "00:00" "00:10"
           ("Welcome to this video about " +:+ prompt
            +:+ ". We'll explore this concept with visual examples.")
           "Show a title text with the prompt. Then animate it to move to the top of the screen. Create a circle in the center that pulses to draw attention.";
         mock_scene "00:10" "00:25"
           ("Let's start by understanding the basic principles of " +:+ prompt
            +:+ ". This concept is fundamental in mathematics.")
           "Display a mathematical equation related to the topic. For example, if it's about circles, show the equation of a circle (x-h)² + (y-k)² = r². Animate each part of the equation appearing one by one, highlighting each term as it's mentioned.";
         mock_scene "00:25" "00:40"
           ("Now, let's see how " +:+ prompt
            +:+ " works in practice with a visual example.")
           "Create a coordinate system. Plot a function or shape related to the topic. If it's about the Pythagorean theorem, show a right triangle and label the sides a, b, and c. Then show a² + b² = c² with squares growing from each side of the triangle.";
         mock_scene "00:40" "00:55"
           ("To summarize what we've learned about " +:+ prompt
            +:+ ", let's review the key points.")
           "Create a bulleted list with 3 key points about the topic. Have each point appear one by one with a small animation. End with a final animation that brings back the main equation or diagram from earlier, but now with additional annotations or highlighting."])].

(** The instruction sent to the generative endpoint by [generate_script]. *)
Definition script_prompt (prompt : string) : string :=
  "Create an educational video script with precise timestamps for a video about: " +:+ dq +:+ prompt +:+ dq +:+ ".
        Format the script as JSON with the following structure:
        {
          " +:+ dq +:+ "title" +:+ dq +:+ ": " +:+ dq +:+ "Video Title" +:+ dq +:+ ",
          " +:+ dq +:+ "description" +:+ dq +:+ ": " +:+ dq +:+ "Brief description of the video" +:+ dq +:+ ",
          " +:+ dq +:+ "scenes" +:+ dq +:+ ": [
            {
              " +:+ dq +:+ "startTime" +:+ dq +:+ ": " +:+ dq +:+ "00:00" +:+ dq +:+ ",
              " +:+ dq +:+ "endTime" +:+ dq +:+ ": " +:+ dq +:+ "00:XX" +:+ dq +:+ ",
              " +:+ dq +:+ "narration" +:+ dq +:+ ": " +:+ dq +:+ "What should be spoken during this scene" +:+ dq +:+ ",
              " +:+ dq +:+ "visualDescription" +:+ dq +:+ ": " +:+ dq +:+ "Detailed description of what should be shown visually, suitable for generating Manim code" +:+ dq +:+ "
            }
          ]
        }
        Make sure each scene has detailed visual descriptions that can be used to generate mathematical animations with Manim.
        Keep scenes between 5-20 seconds each.
        The visual descriptions should be very specific about what mathematical elements to show and how they should be animated.
        Include at least 3 scenes but no more than 6 scenes.
        ".

(** Truth value of an optional string read from the environment
    ([os.getenv]): unset and empty are both false. *)
Definition truthy (v : option string) : bool :=
  match v with
  | Some s => negb (bool_decide (s = ""))
  | None => false
  end.

(** ** The file system and the outside world *)

Definition bytes : Type := list Byte.byte.

(** The content of a file that has been created and not written to. *)
Definition empty_file : bytes := [].

(** Regular files with their contents, directories, and the number of
    temporary directories handed out so far.  Paths are compared as
    written; a directory is recorded under its own path only. *)
Record fs : Type := mkFs {
  files : gmap string bytes;
  dirs : gset string;
  tmp_count : nat
}.

Definition set_files (f : gmap string bytes -> gmap string bytes) (w : fs) : fs :=
  mkFs (f (files w)) (dirs w) (tmp_count w).

Definition set_dirs (f : gset string -> gset string) (w : fs) : fs :=
  mkFs (files w) (f (dirs w)) (tmp_count w).

(** The system calls behind the library functions the sources use.
    [OpWrite p] and [OpCopy src p] stand for storing the content of [p],
    from opening the file to closing it; when one of them is refused,
    [OpOpen p] says whether the refusal came when [p] was opened (and [p]
    is as before) or later (and [p] has been created or emptied). *)
Inductive os_op : Type :=
| OpMkdir (d : string)
| OpOpen (p : string)
| OpWrite (p : string)
| OpCopy (src dst : string)
| OpRmtree (d : string)
| OpRemove (p : string)
| OpMkdtemp.

(** What [process.communicate()] leaves: the exit code, and whether the
    captured error output decodes as text. *)
Record process : Type := mkProcess {
  returncode : Z;
  stderr_decodes : bool
}.

(** [requests.Response]: the fields the sources read. *)
Record response : Type := mkResponse {
  resp_status_code : Z;
  resp_content : bytes
}.

Record Env : Type := mkEnv {
  (** [os.getenv] at import time *)
  GEMINI_API_KEY : option string;
  ELEVENLABS_API_KEY : option string;
  (** [genai.GenerativeModel('gemini-pro')], [generate_content_async] and
      [response.text], from the instruction to the text or an exception *)
  generate_content : string -> result string;
  json_loads : string -> result json;
  (** the text [json.dump(v, f, indent=2)] writes *)
  json_dumps : json -> string;
  (** [str(v)] for a parsed value that is not a string *)
  py_str : json -> string;
  (** [requests.post(url, json=data, headers=headers)], from the url and
      the text to speak *)
  requests_post : string -> json -> result response;
  (** [import manim] and [manim.__version__] *)
  import_manim : result unit;
  sys_executable : string;
  (** [asyncio.create_subprocess_exec] followed by [communicate]: the child
      may change the file system, and starting it may raise *)
  subprocess_exec : list string -> M fs process;
  (** refusals of the operating system that do not follow from the
      recorded files and directories: permissions, quota, a full disk, an
      ancestor that is not a directory *)
  os_refuses : os_op -> bool;
  os_path_abspath : string -> string
}.

(** Errors of the operating system.  The text of such an error is
    represented by the path it is about. *)
Definition OSError (msg : string) : exn := PyExc "OSError" msg.
Definition FileNotFoundError (p : string) : exn := PyExc "FileNotFoundError" p.
Definition FileExistsError (p : string) : exn := PyExc "FileExistsError" p.
Definition NotADirectoryError (p : string) : exn := PyExc "NotADirectoryError" p.
Definition IsADirectoryError (p : string) : exn := PyExc "IsADirectoryError" p.

Definition is_dir (p : string) (w : fs) : bool := bool_decide (p ∈ dirs w).

Definition is_file (p : string) (w : fs) : bool :=
  match files w !! p with Some _ => true | None => false end.

(** [os.path.exists] / [Path.exists] *)
Definition path_exists (p : string) (w : fs) : bool := is_dir p w || is_file p w.

(** The directory a new entry [p] goes into is there: the working
    directory and the root always are. *)
Definition parent_exists (p : string) (w : fs) : bool :=
  let d := dirname p in
  bool_decide (d = "") || bool_decide (d = "/") || is_dir d w.

(** [os.path.split(p)], taken once more on the head when the last component
    is empty (a path that ends with a slash): the directory an entry [p]
    goes into, and the name of the entry. *)
Definition split_entry (p : string) : string * string :=
  if bool_decide (basename p = "") then (dirname (dirname p), basename (dirname p))
  else (dirname p, basename p).

(** What opening [p] for writing leaves when the refusal comes later: the
    file is there and empty, unless it could not be opened at all. *)
Definition opened_for_writing (refused_on_opening : bool) (p : string) (w : fs) : fs :=
  if refused_on_opening || is_dir p w || negb (parent_exists p w) then w
  else set_files (fun fm => <[p := empty_file]> fm) w.

(** The path [p] starts with [q]: the ancestors of a path are among the
    texts it starts with. *)
Definition starts_with (q p : string) : Prop := exists rest, p = q +:+ rest.

(** [p] is [d] or lies below [d]. *)
Definition under (d p : string) : bool :=
  bool_decide (p = d) ||
  match strip_prefix (d +:+ "/") p with Some _ => true | None => false end.

Section Services.

Context (E : Env).

(** *** Library calls on the file system *)

(** [os.mkdir(d)]: the directory [d] goes into has to be there, and
    nothing may be at [d]. *)
Definition os_mkdir (d : string) : M fs unit :=
  fun w =>
    let head := fst (split_entry d) in
    if bool_decide (d = "") then (Raise (FileNotFoundError d), w)
    else if os_refuses E (OpMkdir d) then (Raise (OSError d), w)
    else if path_exists d w then (Raise (FileExistsError d), w)
    else if is_file head w then (Raise (NotADirectoryError d), w)
    else if negb (bool_decide (head = "") || bool_decide (head = "/") || is_dir head w)
    then (Raise (FileNotFoundError d), w)
    else (Ok tt, set_dirs (fun ds => {[d]} ∪ ds) w).

(** The last statement of [os.makedirs(name, exist_ok=True)]: [mkdir(name)],
    whose [OSError] is dropped when [name] is a directory. *)
Definition mkdir_exist_ok (name : string) : M fs unit :=
  try_except (os_mkdir name)
    (fun e w => if is_dir name w then (Ok tt, w) else (Raise e, w)).

(** The test [head and tail and not path.exists(head)] of [os.makedirs];
    the root is always there. *)
Definition head_missing (name : string) (w : fs) : bool :=
  let '(head, tail) := split_entry name in
  negb (bool_decide (head = "")) && negb (bool_decide (tail = ""))
  && negb (bool_decide (head = "/") || path_exists head w).

(** [except FileExistsError: pass] around the recursive call. *)
Definition pass_file_exists (e : exn) : M fs unit :=
  if bool_decide (exn_class e = "FileExistsError") then ret tt else raise e.

(** [os.makedirs(name, exist_ok=True)] as the library has it: when the
    head of [name] does not exist it is created first, by the same
    function, and what was created stays when a later [mkdir] raises.
    [fuel] bounds the depth of the recursion; the length of [name] is
    enough, each head being shorter than its path.  A path
    [xxx/newdir/.] is there once [xxx/newdir] is; paths being compared
    as written, it is recorded as well. *)
Fixpoint makedirs_from (fuel : nat) (name : string) : M fs unit :=
  match fuel with
  | S fuel' =>
      fun w =>
        if head_missing name w then
          (try_except (makedirs_from fuel' (fst (split_entry name))) pass_file_exists ;;;
           if bool_decide (snd (split_entry name) = ".") then
             modify (set_dirs (fun ds => {[name]} ∪ ds))
           else mkdir_exist_ok name) w
        else mkdir_exist_ok name w
  | O => mkdir_exist_ok name
  end.

(** [os.makedirs(d, exist_ok=True)]; there is no directory of the empty
    name. *)
Definition os_makedirs (d : string) : M fs unit :=
  fun w =>
    if bool_decide (d = "") then (Raise (FileNotFoundError d), w)
    else makedirs_from (String.length d) d w.

(** [Path(d).mkdir(exist_ok=True)]: the parent has to be there. *)
Definition path_mkdir (d : string) : M fs unit :=
  fun w =>
    if os_refuses E (OpMkdir d) then (Raise (OSError d), w)
    else if negb (parent_exists d w) then (Raise (FileNotFoundError d), w)
    else if is_file d w then (Raise (FileExistsError d), w)
    else (Ok tt, set_dirs (fun ds => {[d]} ∪ ds) w).

(** [with open(p, mode) as f: f.write(content)] for the modes [w] and
    [wb].  Opening creates the file or empties it; a refusal that comes
    after that (a full disk, a quota) leaves the file there, empty. *)
Definition write_file (p : string) (content : bytes) : M fs unit :=
  fun w =>
    if os_refuses E (OpWrite p) then
      (Raise (OSError p), opened_for_writing (os_refuses E (OpOpen p)) p w)
    else if is_dir p w then (Raise (IsADirectoryError p), w)
    else if negb (parent_exists p w) then (Raise (FileNotFoundError p), w)
    else (Ok tt, set_files (fun fm => <[p := content]> fm) w).

(** [shutil.copy2(src, dst)]: into [dst] when it is a directory.  The
    destination is opened for writing before the bytes are copied, so a
    copy refused after that leaves it there, empty. *)
Definition shutil_copy2 (src dst : string) : M fs unit :=
  fun w =>
    match files w !! src with
    | None => (Raise (FileNotFoundError src), w)
    | Some content =>
        let target := if is_dir dst w then path_join dst (basename src) else dst in
        if bool_decide (src = target) then (Raise (PyExc "SameFileError" src), w)
        else if os_refuses E (OpCopy src target) then
          (Raise (OSError target), opened_for_writing (os_refuses E (OpOpen target)) target w)
        else if is_dir target w then (Raise (IsADirectoryError target), w)
        else if negb (parent_exists target w) then (Raise (FileNotFoundError target), w)
        else (Ok tt, set_files (fun fm => <[target := content]> fm) w)
    end.

(** [shutil.rmtree(d)]: the directory and everything below it.  A refusal
    is modelled as leaving the tree as it was. *)
Definition shutil_rmtree (d : string) : M fs unit :=
  fun w =>
    if negb (is_dir d w) then (Raise (FileNotFoundError d), w)
    else if os_refuses E (OpRmtree d) then (Raise (OSError d), w)
    else (Ok tt,
          mkFs (filter (fun kv => negb (under d kv.1) = true) (files w))
               (filter (fun p => negb (under d p) = true) (dirs w))
               (tmp_count w)).

(** [os.remove(p)] *)
Definition os_remove (p : string) : M fs unit :=
  fun w =>
    if negb (is_file p w) then (Raise (FileNotFoundError p), w)
    else if os_refuses E (OpRemove p) then (Raise (OSError p), w)
    else (Ok tt, set_files (fun fm => delete p fm) w).

Definition has_entries (d : string) (w : fs) : bool :=
  bool_decide (filter (fun kv => strip_prefix (d +:+ "/") kv.1 <> None) (files w) <> ∅)
  || bool_decide (filter (fun p => strip_prefix (d +:+ "/") p <> None) (dirs w) <> ∅).

(** [os.rmdir(d)]: only an empty directory. *)
Definition os_rmdir (d : string) : M fs unit :=
  fun w =>
    if negb (is_dir d w) then (Raise (FileNotFoundError d), w)
    else if has_entries d w then (Raise (OSError d), w)
    else if os_refuses E (OpRemove d) then (Raise (OSError d), w)
    else (Ok tt, set_dirs (fun ds => ds ∖ {[d]}) w).

(** [tempfile.mkdtemp()] *)
Definition tempfile_mkdtemp : M fs string :=
  fun w =>
    let d := "/tmp/tmp" +:+ pretty (tmp_count w) in
    if os_refuses E OpMkdtemp then (Raise (OSError d), w)
    else if path_exists d w then (Raise (FileExistsError d), w)
    else (Ok d, mkFs (files w) ({[d]} ∪ dirs w) (S (tmp_count w))).

(** *** [generate_script] *)

Definition generate_script (prompt : string) : M fs json :=
  try_except
    (if negb (truthy (GEMINI_API_KEY E)) then ret (generate_mock_script prompt)
     else
       text_response <- lift_result (generate_content E (script_prompt prompt)) ;;
       let json_str := extract_payload "json" text_response in
       script <- lift_result (json_loads E json_str) ;;
       valid <- lift_result (validate_script script) ;;
       if negb valid then
         raise (PyExc "ValueError" "Generated script does not have the expected structure")
       else ret script)
    (fun _ => ret (generate_mock_script prompt)).

(** *** [manim_code_generator.py] *)

(** A value inside an f-string. *)
Definition format_value (v : json) : string :=
  match v with
  | JStr s => s
  | _ => py_str E v
  end.

(** The instruction sent to the generative endpoint by
    [generate_manim_code]. *)
Definition code_prompt (visualDescription startTime endTime narration : string)
    (index : Z) : string :=
  "Generate Manim Python code for the following scene description: " +:+ dq +:+ visualDescription +:+ dq +:+ "
        
        This should be scene #" +:+ pretty (index + 1)%Z +:+ " running from " +:+ startTime +:+ " to " +:+ endTime +:+ ".
        
        Generate a complete, executable Manim Python class that extends Scene. The code should:
        1. Create appropriate mathematical visualizations based on the description
        2. Use appropriate animations with proper timing
        3. Include any necessary text elements that match the narration: " +:+ dq +:+ narration +:+ dq +:+ "
        4. Be fully self-contained and runable as a single file
        5. Use best practices for clean, efficient Manim code
        
        Return ONLY the Python code without any explanations or markdown.
        
        Make sure the class name is unique and includes the scene number, like 'Scene" +:+ pretty (index + 1)%Z +:+ "' or similar.
        
        The code should work with Manim Community Edition.
        ".

(** The program [ensure_proper_class_name] substitutes when it finds no
    class declaration. *)
Definition fallback_program (index : Z) : string :=
  "from manim import *

class Scene" +:+ pretty (index + 1)%Z +:+ "(Scene):
    def construct(self):
        # Fallback implementation
        title = Text(" +:+ dq +:+ "Scene " +:+ pretty (index + 1)%Z +:+ dq +:+ ")
        self.play(Write(title))
        self.wait(2)
        self.play(FadeOut(title))
".

Definition ensure_proper_class_name (code : string) (index : Z) : string :=
  match search_class code with
  | Some current_class_name =>
      let desired_class_name := "Scene" +:+ pretty (index + 1)%Z in
      if negb (contains ("Scene" +:+ pretty (index + 1)%Z) current_class_name) then
        str_replace ("class " +:+ current_class_name +:+ "(Scene)")
                    ("class " +:+ desired_class_name +:+ "(Scene)") code
      else code
  | None => fallback_program index
  end.

Definition mock_title (narration : string) (index : Z) : string :=
  "from manim import *

class Scene" +:+ pretty (index + 1)%Z +:+ "(Scene):
    def construct(self):
        # Title scene
        title = Text(" +:+ dq +:+ narration +:+ dq +:+ ")
        self.play(Write(title))
        self.wait(1)
        self.play(title.animate.to_edge(UP))
        
        # Create a circle that pulses
        circle = Circle(radius=2, color=BLUE)
        self.play(Create(circle))
        
        # Pulse animation
        self.play(circle.animate.scale(1.2), rate_func=there_and_back)
        self.play(circle.animate.scale(1.2), rate_func=there_and_back)
        
        self.wait(1)
".

Definition mock_equation (narration : string) (index : Z) : string :=
  "from manim import *

class Scene" +:+ pretty (index + 1)%Z +:+ "(Scene):
    def construct(self):
        # Equation scene
        title = Text(" +:+ dq +:+ narration +:+ dq +:+ ", font_size=24)
        title.to_edge(UP)
        self.add(title)
        
        # Create an equation
        equation = MathTex(" +:+ dq +:+ "x^2 + y^2 = r^2" +:+ dq +:+ ")
        
        # Animate each part
        self.play(Write(equation))
        
        # Highlight parts of the equation
        self.play(equation.animate.set_color_by_tex(" +:+ dq +:+ "x^2" +:+ dq +:+ ", YELLOW))
        self.wait(0.5)
        self.play(equation.animate.set_color_by_tex(" +:+ dq +:+ "y^2" +:+ dq +:+ ", GREEN))
        self.wait(0.5)
        self.play(equation.animate.set_color_by_tex(" +:+ dq +:+ "r^2" +:+ dq +:+ ", RED))
        
        self.wait(1)
".

Definition mock_visual (narration : string) (index : Z) : string :=
  "from manim import *

class Scene" +:+ pretty (index + 1)%Z +:+ "(Scene):
    def construct(self):
        # Visual example scene
        title = Text(" +:+ dq +:+ narration +:+ dq +:+ ", font_size=24)
        title.to_edge(UP)
        self.add(title)
        
        # Create a coordinate system
        axes = Axes(
            x_range=[-3, 3, 1],
            y_range=[-3, 3, 1],
            axis_config={" +:+ dq +:+ "color" +:+ dq +:+ ": BLUE}
        )
        
        # Add labels
        x_label = axes.get_x_axis_label(" +:+ dq +:+ "x" +:+ dq +:+ ")
        y_label = axes.get_y_axis_label(" +:+ dq +:+ "y" +:+ dq +:+ ")
        
        self.play(Create(axes), Write(x_label), Write(y_label))
        
        # Create a function graph
        graph = axes.plot(lambda x: x**2, color=RED)
        graph_label = MathTex(" +:+ dq +:+ "f(x) = x^2" +:+ dq +:+ ").next_to(graph, UP)
        
        self.play(Create(graph), Write(graph_label))
        
        # Show a point moving along the graph
        dot = Dot(color=YELLOW)
        dot.move_to(axes.c2p(-2, 4))
        
        self.play(FadeIn(dot))
        
        self.play(
            dot.animate.move_to(axes.c2p(2, 4)),
            rate_func=lambda t: t,
            run_time=3
        )
        
        self.wait(1)
".

Definition mock_summary (narration : string) (index : Z) : string :=
  "from manim import *

class Scene" +:+ pretty (index + 1)%Z +:+ "(Scene):
    def construct(self):
        # Summary scene
        title = Text(" +:+ dq +:+ narration +:+ dq +:+ ", font_size=24)
        title.to_edge(UP)
        self.add(title)
        
        # Create bullet points
        points = [
            " +:+ dq +:+ "Key point 1 about the topic" +:+ dq +:+ ",
            " +:+ dq +:+ "Key point 2 about the topic" +:+ dq +:+ ",
            " +:+ dq +:+ "Key point 3 about the topic" +:+ dq +:+ "
        ]
        
        bullets = VGroup()
        for i, point in enumerate(points):
            bullet = Text(" +:+ dq +:+ "• " +:+ dq +:+ " + point, font_size=24)
            bullets.add(bullet)
        
        bullets.arrange(DOWN, aligned_edge=LEFT, buff=0.5)
        bullets.next_to(title, DOWN, buff=1)
        
        # Animate each bullet point
        for bullet in bullets:
            self.play(Write(bullet))
            self.wait(0.5)
        
        # Final animation
        final_equation = MathTex(" +:+ dq +:+ "E = mc^2" +:+ dq +:+ ")
        final_equation.next_to(bullets, DOWN, buff=1)
        
        self.play(Write(final_equation))
        self.play(final_equation.animate.scale(1.5).set_color(YELLOW))
        
        self.wait(1)
".

Definition generate_mock_code (scene : json) (index : Z) : M fs string :=
  narration <- lift_result (py_getitem scene "narration") ;;
  visual_desc <- lift_result (py_getitem scene "visualDescription") ;;
  let narration := format_value narration in
  if (index =? 0)%Z then ret (mock_title narration index)
  else if (index =? 1)%Z then ret (mock_equation narration index)
  else if (index =? 2)%Z then ret (mock_visual narration index)
  else ret (mock_summary narration index).

Definition generate_manim_code (scene : json) (index : Z) : M fs string :=
  try_except
    (if negb (truthy (GEMINI_API_KEY E)) then generate_mock_code scene index
     else
       visualDescription <- lift_result (py_getitem scene "visualDescription") ;;
       startTime <- lift_result (py_getitem scene "startTime") ;;
       endTime <- lift_result (py_getitem scene "endTime") ;;
       narration <- lift_result (py_getitem scene "narration") ;;
       text_response <-
         lift_result
           (generate_content E
              (code_prompt (format_value visualDescription) (format_value startTime)
                 (format_value endTime) (format_value narration) index)) ;;
       let code := extract_payload "python" text_response in
       ret (ensure_proper_class_name code index))
    (fun _ => generate_mock_code scene index).

(** *** [elevenlabs_tts.py] *)

(** [b"\xFF\xFB\x90\x44" + 12 zero bytes] *)
Definition mock_mp3 : bytes :=
  [Byte.xff; Byte.xfb; Byte.x90; Byte.x44] ++ replicate 12 Byte.x00.

Definition generate_mock_audio (output_path : string) : M fs string :=
  try_except
    (os_makedirs (dirname output_path) ;;;
     write_file output_path mock_mp3 ;;;
     ret output_path)
    (fun _ => ret output_path).

(** [text[:50]], evaluated for the first log line: strings and lists can
    be sliced; a dict takes the slice for a key, which it cannot hash. *)
Definition py_slice_check (text : json) : result unit :=
  match text with
  | JStr _ | JList _ => Ok tt
  | JObj _ => Raise (PyExc "TypeError" "unhashable type: 'slice'")
  | _ => Raise (not_subscriptable text)
  end.

Definition generate_speech (text : json) (output_path : string) (voice_id : option string)
    : M fs string :=
  try_except
    (lift_result (py_slice_check text) ;;;
     if negb (truthy (ELEVENLABS_API_KEY E)) then generate_mock_audio output_path
     else
       let url :=
         "https://api.elevenlabs.io/v1/text-to-speech/" +:+ default "None" voice_id in
       response <- lift_result (requests_post E url text) ;;
       if (resp_status_code response =? 200)%Z then
         os_makedirs (dirname output_path) ;;;
         write_file output_path (resp_content response) ;;;
         ret output_path
       else generate_mock_audio output_path)
    (fun _ => generate_mock_audio output_path).

(** *** [manim_renderer.py] *)

Definition extract_class_name (code : string) : option string := search_class code.

(** The 24 bytes written when no media tool produced the placeholder. *)
Definition mock_mp4 : bytes :=
  [Byte.x00; Byte.x00; Byte.x00; Byte.x18; Byte.x66; Byte.x74; Byte.x79; Byte.x70;
   Byte.x6d; Byte.x70; Byte.x34; Byte.x32; Byte.x00; Byte.x00; Byte.x00; Byte.x00;
   Byte.x6d; Byte.x70; Byte.x34; Byte.x32; Byte.x69; Byte.x73; Byte.x6f; Byte.x6d].

Definition mock_video_cmd (output_path : string) : list string :=
  ["ffmpeg"; "-y"; "-f"; "lavfi"; "-i"; "color=c=black:s=1280x720:d=5";
   "-c:v"; "libx264"; "-pix_fmt"; "yuv420p"; output_path].

Definition generate_mock_video (output_path : string) : M fs string :=
  try_except
    (os_makedirs (dirname output_path) ;;;
     returned <-
       try_except
         (process <- subprocess_exec E (mock_video_cmd output_path) ;;
          if (returncode process =? 0)%Z then ret (Some output_path) else ret None)
         (fun _ => ret None) ;;
     match returned with
     | Some p => ret p
     | None => write_file output_path mock_mp4 ;;; ret output_path
     end)
    (fun _ => ret output_path).

(** [stderr.decode()] inside a log line. *)
Definition decode_stderr {S} (process0 : process) : M S unit :=
  if stderr_decodes process0 then ret tt
  else raise (PyExc "UnicodeDecodeError" "invalid start byte").

(** The local names of [render_scene] whose binding changes while it runs.
    [shutil] is not imported by the module; the statement [import shutil]
    in the [finally] clause makes it a local name of the function, unbound
    until that statement has run. *)
Record frame : Type := mkFrame { shutil_bound : bool }.

Definition in_fs {A} (m : M fs A) : M (frame * fs) A :=
  zoom snd (fun w s => (s.1, w)) m.

(** Reading the local name [shutil]. *)
Definition load_shutil : M (frame * fs) unit :=
  fun s =>
    if shutil_bound s.1 then (Ok tt, s)
    else (Raise (PyExc "UnboundLocalError"
                   "cannot access local variable 'shutil' where it is not associated with a value"),
          s).

(** [import shutil] inside the function. *)
Definition import_shutil : M (frame * fs) unit :=
  modify (fun s => (mkFrame true, s.2)).

(** A function body run with its local names unbound at entry. *)
Definition with_frame {A} (m : M (frame * fs) A) : M fs A :=
  fun w => match m (mkFrame false, w) with (r, s) => (r, s.2) end.

Definition quality_flag (quality : string) : string :=
  if bool_decide (quality = "low") then "-ql"
  else if bool_decide (quality = "high") then "-qh"
  else "-qm".

Definition manim_cmd (temp_file_path class_name quality output_path temp_dir : string)
    : list string :=
  [sys_executable E; "-m"; "manim"; temp_file_path; class_name; quality_flag quality;
   "-o"; str_replace ".mp4" "" (basename output_path); "--media_dir"; temp_dir].

Definition is_import_error (e : exn) : bool :=
  bool_decide (exn_class e = "ImportError")
  || bool_decide (exn_class e = "ModuleNotFoundError").

Definition below (d p : string) : bool :=
  match strip_prefix (d +:+ "/") p with Some _ => true | None => false end.

(** The first file below [d] whose name ends in [.mp4], as the loop over
    [os.walk(d)] finds it; the order of the walk is the order of
    [map_to_list] here. *)
Definition find_mp4 (d : string) (w : fs) : option string :=
  head (filter (fun p => below d p && endswith ".mp4" p = true)
               (map_to_list (files w)).*1).

(** The statements of [render_scene] from [temp_dir = tempfile.mkdtemp()]
    on, once [import manim] has succeeded. *)
Definition render_with_manim (scene_code output_path quality : string)
    : M (frame * fs) string :=
  temp_dir <- in_fs tempfile_mkdtemp ;;
  let temp_file_path := path_join temp_dir "scene.py" in
  let class_name := extract_class_name scene_code in
  match class_name with
  | None => in_fs (generate_mock_video output_path)
  | Some class_name =>
      if bool_decide (class_name = "") then in_fs (generate_mock_video output_path)
      else
        in_fs (write_file temp_file_path (list_byte_of_string scene_code)) ;;;
        in_fs (os_makedirs (dirname output_path)) ;;;
        try_finally
          (try_except
             (process <-
                in_fs (subprocess_exec E
                         (manim_cmd temp_file_path class_name quality output_path temp_dir)) ;;
              if negb (returncode process =? 0)%Z then
                decode_stderr process ;;;
                in_fs (generate_mock_video output_path)
              else
                let video_dir := path_join temp_dir "videos" in
                s <- get_store ;;
                match find_mp4 video_dir s.2 with
                | None => in_fs (generate_mock_video output_path)
                | Some scene_video =>
                    load_shutil ;;;
                    in_fs (shutil_copy2 scene_video output_path) ;;;
                    ret output_path
                end)
             (fun _ => in_fs (generate_mock_video output_path)))
          (try_except
             (import_shutil ;;;
              load_shutil ;;;
              in_fs (shutil_rmtree temp_dir))
             (fun _ => ret tt))
  end.

Definition render_scene (scene_code output_path quality : string) : M fs string :=
  try_except
    (match import_manim E with
     | Raise e =>
         if is_import_error e then generate_mock_video output_path else raise e
     | Ok _ => with_frame (render_with_manim scene_code output_path quality)
     end)
    (fun _ => generate_mock_video output_path).

(** *** [video_composer.py] *)

Definition fallback_copy (source_path dest_path : string) : M fs string :=
  try_except
    (os_makedirs (dirname dest_path) ;;;
     shutil_copy2 source_path dest_path ;;;
     ret dest_path)
    (fun _ => ret "").

Definition combine_cmd (video_path audio_path output_path : string) : list string :=
  ["ffmpeg"; "-y"; "-i"; video_path; "-i"; audio_path; "-c:v"; "copy"; "-c:a"; "aac";
   "-map"; "0:v:0"; "-map"; "1:a:0"; "-shortest"; output_path].

Definition combine_audio_video (video_path audio_path output_path : string) : M fs string :=
  try_except
    (os_makedirs (dirname output_path) ;;;
     try_except
       (process <- subprocess_exec E (combine_cmd video_path audio_path output_path) ;;
        if (returncode process =? 0)%Z then ret output_path
        else
          decode_stderr process ;;;
          fallback_copy video_path output_path)
       (fun _ => fallback_copy video_path output_path))
    (fun _ => fallback_copy video_path output_path).

Definition concat_cmd (list_file_path output_path : string) : list string :=
  ["ffmpeg"; "-y"; "-f"; "concat"; "-safe"; "0"; "-i"; list_file_path; "-c"; "copy";
   output_path].

(** The lines written to [video_list.txt]. *)
Definition concat_manifest (video_paths : list string) : string :=
  foldr (fun video_path acc =>
           "file '" +:+ os_path_abspath E video_path +:+ "'" +:+ nl +:+ acc)
        "" video_paths.

Definition concat_videos (video_paths : list string) (output_path : string) : M fs string :=
  try_except
    (match video_paths with
     | [] => ret ""
     | first :: others =>
         os_makedirs (dirname output_path) ;;;
         if (length video_paths =? 1)%nat then fallback_copy first output_path
         else
           try_except
             (temp_dir <- tempfile_mkdtemp ;;
              let list_file_path := path_join temp_dir "video_list.txt" in
              write_file list_file_path (list_byte_of_string (concat_manifest video_paths)) ;;;
              process <- subprocess_exec E (concat_cmd list_file_path output_path) ;;
              try_except
                (os_remove list_file_path ;;; os_rmdir temp_dir)
                (fun _ => ret tt) ;;;
              if (returncode process =? 0)%Z then ret output_path
              else
                decode_stderr process ;;;
                fallback_copy first output_path)
             (fun _ => fallback_copy first output_path)
     end)
    (fun _ =>
       match video_paths with
       | [] => ret ""
       | first :: _ => fallback_copy first output_path
       end).

(** *** [main.py] *)

(** The dictionary stored per job in [job_statuses]. *)
Record JobStatus : Type := mkJobStatus {
  job_id : string;
  status : string;
  progress : Q;
  message : string;
  script : option json;
  video_url : option string;
  error : option string
}.

Definition with_status (v : string) (j : JobStatus) : JobStatus :=
  mkJobStatus (job_id j) v (progress j) (message j) (script j) (video_url j) (error j).
Definition with_progress (v : Q) (j : JobStatus) : JobStatus :=
  mkJobStatus (job_id j) (status j) v (message j) (script j) (video_url j) (error j).
Definition with_message (v : string) (j : JobStatus) : JobStatus :=
  mkJobStatus (job_id j) (status j) (progress j) v (script j) (video_url j) (error j).
Definition with_script (v : option json) (j : JobStatus) : JobStatus :=
  mkJobStatus (job_id j) (status j) (progress j) (message j) v (video_url j) (error j).
Definition with_video_url (v : option string) (j : JobStatus) : JobStatus :=
  mkJobStatus (job_id j) (status j) (progress j) (message j) (script j) v (error j).
Definition with_error (v : option string) (j : JobStatus) : JobStatus :=
  mkJobStatus (job_id j) (status j) (progress j) (message j) (script j) (video_url j) v.

(** [voice_id] is optional in the request; an absent one is [None], which
    an f-string renders as the text [None]. *)
Record VideoRequest : Type := mkVideoRequest {
  prompt : string;
  voice_id : option string;
  quality : string
}.

(** The process: the file system, the module-level dictionary
    [job_statuses], and what [logger.exception] of [main.py] wrote.
    [history] is not a variable of the program: it lists, oldest first,
    every value a job's dictionary has held, one entry per assignment. *)
Record server : Type := mkServer {
  fsys : fs;
  job_statuses : gmap string JobStatus;
  history : list JobStatus;
  logged : list string
}.

Definition on_fs {A} (m : M fs A) : M server A :=
  zoom fsys (fun w a => mkServer w (job_statuses a) (history a) (logged a)) m.

(** [job_statuses[id] = j] *)
Definition set_job (id : string) (j : JobStatus) : M server unit :=
  modify (fun a => mkServer (fsys a) (<[id := j]> (job_statuses a)) (history a ++ [j]) (logged a)).

(** [job_statuses[id][field] = v], with [f] the change of that field. *)
Definition update_job (id : string) (f : JobStatus -> JobStatus) : M server unit :=
  fun a =>
    match job_statuses a !! id with
    | Some j =>
        (Ok tt,
         mkServer (fsys a) (<[id := f j]> (job_statuses a)) (history a ++ [f j]) (logged a))
    | None => (Raise (KeyError id), a)
    end.

Definition logger_exception (line : string) : M server unit :=
  modify (fun a => mkServer (fsys a) (job_statuses a) (history a) (logged a ++ [line])).

(** [JOBS_DIR / name] and [dir / name] as strings; job ids are the
    hexadecimal-and-dash texts of [uuid.uuid4()]. *)
Definition JOBS_DIR : string := "jobs".
Definition path_div (d name : string) : string := d +:+ "/" +:+ name.

(** [enumerate(xs)] *)
Definition enumerate {A} (xs : list A) : list (Z * A) :=
  imap (fun i x => (Z.of_nat i, x)) xs.

(** Iterating over a parsed value. *)
Definition py_iter (v : json) : result (list json) :=
  match v with
  | JList items => Ok items
  | JObj bindings => Ok (JStr <$> bindings.*1)
  | JStr s => Ok ((fun c => JStr (String c "")) <$> list_ascii_of_string s)
  | _ => Raise (not_iterable v)
  end.

(** [len(v)] *)
Definition py_len (v : json) : result nat :=
  match v with
  | JList items => Ok (length items)
  | JObj bindings => Ok (length bindings)
  | JStr s => Ok (String.length s)
  | _ => Raise (PyExc "TypeError" ("object of type '" +:+ py_type_name v +:+ "' has no len()"))
  end.

(** [xs[i]] on a list *)
Definition list_getitem {S A} (xs : list A) (i : nat) : M S A :=
  match xs !! i with
  | Some x => ret x
  | None => raise (PyExc "IndexError" "list index out of range")
  end.

Definition scene_file (i : Z) (ext : string) : string :=
  "scene_" +:+ pretty (i + 1)%Z +:+ ext.

(** The statements of [generate_video_task] inside [try]. *)
Definition pipeline (id : string) (request : VideoRequest)
    (script_dir audio_dir video_dir output_dir : string) : M server unit :=
  set_job id (mkJobStatus id "processing" 0.05 "Generating script..." None None None) ;;;
  script0 <- on_fs (generate_script (prompt request)) ;;
  on_fs (write_file (path_div script_dir "script.json")
           (list_byte_of_string (json_dumps E script0))) ;;;
  update_job id (with_progress 0.2) ;;;
  update_job id (with_message "Generating Manim code...") ;;;
  update_job id (with_script (Some script0)) ;;;
  scenes <- lift_result (match py_getitem script0 "scenes" with
                         | Ok v => py_iter v
                         | Raise e => Raise e
                         end) ;;
  scene_codes <-
    for_each (fun '(i, scene) =>
                code <- on_fs (generate_manim_code scene i) ;;
                on_fs (write_file (path_div script_dir (scene_file i ".py"))
                         (list_byte_of_string code)) ;;;
                ret code)
             (enumerate scenes) ;;
  update_job id (with_progress 0.4) ;;;
  update_job id (with_message "Generating audio...") ;;;
  audio_paths <-
    for_each (fun '(i, scene) =>
                let audio_path := path_div audio_dir (scene_file i ".mp3") in
                narration <- lift_result (py_getitem scene "narration") ;;
                on_fs (generate_speech narration audio_path (voice_id request)) ;;;
                ret audio_path)
             (enumerate scenes) ;;
  update_job id (with_progress 0.6) ;;;
  update_job id (with_message "Rendering animations...") ;;;
  video_paths <-
    for_each (fun '(i, code) =>
                let video_path := path_div video_dir (scene_file i ".mp4") in
                on_fs (render_scene code video_path (quality request)) ;;;
                ret video_path)
             (enumerate scene_codes) ;;
  update_job id (with_progress 0.8) ;;;
  update_job id (with_message "Composing final video...") ;;;
  combined_paths <-
    for_each (fun i =>
                let combined_path :=
                  path_div output_dir ("combined_" +:+ scene_file (Z.of_nat i) ".mp4") in
                video_path <- list_getitem video_paths i ;;
                audio_path <- list_getitem audio_paths i ;;
                on_fs (combine_audio_video video_path audio_path combined_path) ;;;
                ret combined_path)
             (seq 0 (length scenes)) ;;
  let final_path := path_div output_dir "final_video.mp4" in
  on_fs (concat_videos combined_paths final_path) ;;;
  update_job id (with_status "completed") ;;;
  update_job id (with_progress 1.0) ;;;
  update_job id (with_message "Video generation completed") ;;;
  update_job id (with_video_url (Some ("/jobs/" +:+ id +:+ "/output/final_video.mp4"))).

(** The [except Exception as e] clause of [generate_video_task]. *)
Definition on_failure (id : string) (e : exn) : M server unit :=
  logger_exception ("Error generating video: " +:+ str_exn e) ;;;
  update_job id (with_status "failed") ;;;
  update_job id (with_message "Video generation failed") ;;;
  update_job id (with_error (Some (str_exn e))).

Definition generate_video_task (id : string) (request : VideoRequest) : M server unit :=
  let job_dir := path_div JOBS_DIR id in
  let script_dir := path_div job_dir "script" in
  let audio_dir := path_div job_dir "audio" in
  let video_dir := path_div job_dir "video" in
  let output_dir := path_div job_dir "output" in
  for_each (fun dir_path => on_fs (path_mkdir dir_path))
           [script_dir; audio_dir; video_dir; output_dir] ;;;
  try_except
    (pipeline id request script_dir audio_dir video_dir output_dir)
    (on_failure id).

(** What [generate_video] answers. *)
Record Accepted : Type := mkAccepted {
  acc_job_id : string;
  acc_status : string;
  acc_message : string
}.

(** [generate_video], with [id] the text of the identifier drawn by
    [uuid.uuid4()].  The task it hands to [background_tasks] is
    [generate_video_task id request], run after the answer is sent. *)
Definition generate_video (id : string) (request : VideoRequest) : M server Accepted :=
  on_fs (path_mkdir (path_div JOBS_DIR id)) ;;;
  set_job id (mkJobStatus id "queued" 0.0 "Job queued" None None None) ;;;
  ret (mkAccepted id "queued" "Video generation job has been queued").

Definition not_found (id : string) : exn :=
  HTTPException 404 ("Job with ID " +:+ id +:+ " not found").

Definition get_job_status (id : string) : M server JobStatus :=
  fun a =>
    match job_statuses a !! id with
    | None => (Raise (not_found id), a)
    | Some j => (Ok j, a)
    end.

(** [del job_statuses[id]] *)
Definition del_job (id : string) : M server unit :=
  fun a =>
    match job_statuses a !! id with
    | Some _ => (Ok tt, mkServer (fsys a) (delete id (job_statuses a)) (history a) (logged a))
    | None => (Raise (KeyError id), a)
    end.

Definition delete_job (id : string) : M server string :=
  a <- get_store ;;
  match job_statuses a !! id with
  | None => raise (not_found id)
  | Some _ =>
      let job_dir := path_div JOBS_DIR id in
      if path_exists job_dir (fsys a) then
        try_except
          (on_fs (shutil_rmtree job_dir) ;;;
           del_job id ;;;
           ret ("Job " +:+ id +:+ " deleted successfully"))
          (fun e => raise (HTTPException 500 ("Error deleting job: " +:+ str_exn e)))
      else
        del_job id ;;;
        ret ("Job " +:+ id +:+ " deleted (files not found)")
  end.

End Services.

(** ** Definitions used to state the properties *)

(** The extraction step as the specification words it: the label-free
    delimiter form is attempted before the language-labelled form. *)
Definition extract_payload_as_specified (label text : string) : string :=
  match search_fenced (backticks +:+ nl) text with
  | Some content => content
  | None =>
      match search_fenced (backticks +:+ label +:+ nl) text with
      | Some content => content
      | None => text
      end
  end.

(** The closing fence of the two patterns: a line break and three
    backticks. *)
Definition closing_fence : string := nl +:+ backticks.

(** [content] is the first block of [text] in the form [opener]: it stands
    between the leftmost occurrence of [opener] and the first closing
    fence after it. *)
Definition first_block (opener text content : string) : Prop :=
  exists before after,
    text = before +:+ opener +:+ content +:+ closing_fence +:+ after
    /\ (forall before' after', text = before' +:+ opener +:+ after' ->
        String.length before <= String.length before')
    /\ (forall content' after',
        content +:+ closing_fence +:+ after = content' +:+ closing_fence +:+ after' ->
        String.length content <= String.length content').

(** A response with a label-free block followed by a labelled block. *)
Definition two_blocks : string :=
  "Here is a draft:" +:+ nl +:+
  backticks +:+ nl +:+ "[1]" +:+ nl +:+ backticks +:+ nl +:+
  "and the final answer:" +:+ nl +:+
  backticks +:+ "json" +:+ nl +:+ "[2]" +:+ nl +:+ backticks.

(** The scenes of a script. *)
Definition scenes_of (script0 : json) : list json :=
  match script0 with
  | JObj bindings =>
      match lookup_key "scenes" bindings with
      | Some (JList scenes) => scenes
      | _ => []
      end
  | _ => []
  end.

(** The defects structural validation is to reject: a value that is not an
    object, a missing [title], [description] or [scenes], scenes that are
    not a list or an empty list, and a scene that does not carry one of
    its four fields, which is a scene object without one of the keys or a
    scene that is no object. *)
Inductive structurally_defective : json -> Prop :=
| defect_not_object script0 :
    (forall bindings, script0 <> JObj bindings) -> structurally_defective script0
| defect_missing_key bindings key :
    key ∈ required_keys -> lookup_key key bindings = None ->
    structurally_defective (JObj bindings)
| defect_scenes_not_list bindings v :
    lookup_key "scenes" bindings = Some v -> (forall scenes, v <> JList scenes) ->
    structurally_defective (JObj bindings)
| defect_no_scene bindings :
    lookup_key "scenes" bindings = Some (JList []) ->
    structurally_defective (JObj bindings)
| defect_scene_key bindings scenes fields key :
    lookup_key "scenes" bindings = Some (JList scenes) ->
    JObj fields ∈ scenes -> key ∈ scene_keys -> lookup_key key fields = None ->
    structurally_defective (JObj bindings)
| defect_scene_not_object bindings scenes scene :
    lookup_key "scenes" bindings = Some (JList scenes) ->
    scene ∈ scenes -> (forall fields, scene <> JObj fields) ->
    structurally_defective (JObj bindings).

(** A program whose class declaration has a space before the
    parenthesis. *)
Definition spaced_class_program : string :=
  "from manim import *" +:+ nl +:+ nl +:+
  "class Intro (Scene):" +:+ nl +:+
  "    def construct(self):" +:+ nl +:+
  "        self.wait(1)" +:+ nl.

(** A program whose class is named for scene 10. *)
Definition scene10_program : string :=
  "from manim import *" +:+ nl +:+ nl +:+
  "class Scene10(Scene):" +:+ nl +:+
  "    def construct(self):" +:+ nl +:+
  "        self.wait(1)" +:+ nl.

(** A program for scene 1 in the form the generator asks for. *)
Definition scene1_program : string :=
  "from manim import *" +:+ nl +:+ nl +:+
  "class Scene1(Scene):" +:+ nl +:+
  "    def construct(self):" +:+ nl +:+
  "        self.play(Write(Text('Pythagoras')))" +:+ nl.

(** A text without a class declaration. *)
Definition no_class_program : string :=
  "from manim import *" +:+ nl +:+ "print('nothing to render')" +:+ nl.

(** *** Environments of the examples *)

(** The bytes of a clip the rendering engine produced. *)
Definition rendered_clip : bytes :=
  [Byte.x00; Byte.x00; Byte.x00; Byte.x20; Byte.x66; Byte.x74; Byte.x79; Byte.x70;
   Byte.x69; Byte.x73; Byte.x6f; Byte.x6d].

(** A child process on a machine with the rendering engine and without
    the media tool: a [manim] command writes a clip below the media
    directory it is given and exits with code zero; starting [ffmpeg]
    fails. *)
Definition engine_only (cmd : list string) : M fs process :=
  fun w =>
    if bool_decide (cmd !! 2%nat = Some "manim") then
      let name := default "" (cmd !! 7%nat) in
      let media_dir := default "" (cmd !! 9%nat) in
      (Ok (mkProcess 0 true),
       set_files
         (fun fm => <[media_dir +:+ "/videos/scene/480p15/" +:+ name +:+ ".mp4" := rendered_clip]> fm)
         w)
    else (Raise (FileNotFoundError "ffmpeg"), w).

(** A machine with the rendering engine installed, no credentials, no
    media tool, and an operating system that refuses nothing. *)
Definition studio_env : Env :=
  mkEnv None None
    (fun _ => Raise (PyExc "ValueError" "no API key"))
    (fun _ => Raise (PyExc "JSONDecodeError" "Expecting value"))
    (fun _ => "{}")
    (fun _ => "None")
    (fun _ _ => Raise (PyExc "ConnectionError" "unreachable"))
    (Ok tt)
    "python3"
    engine_only
    (fun _ => false)
    (fun p => "/srv/app/" +:+ p).

(** A machine with nothing installed and no credentials. *)
Definition bare_env : Env :=
  mkEnv None None
    (fun _ => Raise (PyExc "ValueError" "no API key"))
    (fun _ => Raise (PyExc "JSONDecodeError" "Expecting value"))
    (fun _ => "{}")
    (fun _ => "None")
    (fun _ _ => Raise (PyExc "ConnectionError" "unreachable"))
    (Raise (PyExc "ModuleNotFoundError" "No module named 'manim'"))
    "python3"
    (fun _ w => (Raise (FileNotFoundError "ffmpeg"), w))
    (fun _ => false)
    (fun p => "/srv/app/" +:+ p).

(** The service directory right after start-up: [jobs] exists. *)
Definition fresh_fs : fs := mkFs ∅ {["jobs"]} 0.

Definition fresh_server : server := mkServer fresh_fs ∅ [] [].

(** A machine with nothing installed whose disk is full: writing and
    copying files is refused. *)
Definition full_disk_env : Env :=
  mkEnv None None
    (fun _ => Raise (PyExc "ValueError" "no API key"))
    (fun _ => Raise (PyExc "JSONDecodeError" "Expecting value"))
    (fun _ => "{}")
    (fun _ => "None")
    (fun _ _ => Raise (PyExc "ConnectionError" "unreachable"))
    (Raise (PyExc "ModuleNotFoundError" "No module named 'manim'"))
    "python3"
    (fun _ w => (Raise (FileNotFoundError "ffmpeg"), w))
    (fun op => match op with OpWrite _ | OpCopy _ _ => true | _ => false end)
    (fun p => "/srv/app/" +:+ p).

(** A machine with nothing installed on which job directories cannot be
    removed. *)
Definition protected_env : Env :=
  mkEnv None None
    (fun _ => Raise (PyExc "ValueError" "no API key"))
    (fun _ => Raise (PyExc "JSONDecodeError" "Expecting value"))
    (fun _ => "{}")
    (fun _ => "None")
    (fun _ _ => Raise (PyExc "ConnectionError" "unreachable"))
    (Raise (PyExc "ModuleNotFoundError" "No module named 'manim'"))
    "python3"
    (fun _ w => (Raise (FileNotFoundError "ffmpeg"), w))
    (fun op => match op with OpRmtree _ => true | _ => false end)
    (fun p => "/srv/app/" +:+ p).



Definition example_request : VideoRequest :=
  mkVideoRequest "Pythagorean theorem" (Some "pNInz6obpgDQGcFmaJgB") "low".

(** The registry after job [j1] has been accepted. *)
Definition queued_server : server :=
  mkServer (mkFs ∅ {["jobs"; "jobs/j1"]} 0)
        {["j1" := mkJobStatus "j1" "queued" 0.0 "Job queued" None None None]}
        [mkJobStatus "j1" "queued" 0.0 "Job queued" None None None] [].

(** The registry after job [j1] has been accepted, on a machine where the
    directory of the job has been removed since. *)
Definition orphaned_server : server :=
  mkServer fresh_fs
        {["j1" := mkJobStatus "j1" "queued" 0.0 "Job queued" None None None]}
        [mkJobStatus "j1" "queued" 0.0 "Job queued" None None None] [].

(** *** The values a job's dictionary takes *)

(** The dictionary [generate_video_task] stores when it starts. *)
Definition processing_record (id : string) : JobStatus :=
  mkJobStatus id "processing" 0.05 "Generating script..." None None None.

(** The dictionary's successive values while the statements inside [try]
    run to their end, one per assignment, for the script [script0] that
    [generate_script] returned. *)
Definition pipeline_trace (id : string) (script0 : json) : list JobStatus :=
  let j0 := processing_record id in
  let j1 := with_progress 0.2 j0 in
  let j2 := with_message "Generating Manim code..." j1 in
  let j3 := with_script (Some script0) j2 in
  let j4 := with_progress 0.4 j3 in
  let j5 := with_message "Generating audio..." j4 in
  let j6 := with_progress 0.6 j5 in
  let j7 := with_message "Rendering animations..." j6 in
  let j8 := with_progress 0.8 j7 in
  let j9 := with_message "Composing final video..." j8 in
  let j10 := with_status "completed" j9 in
  let j11 := with_progress 1.0 j10 in
  let j12 := with_message "Video generation completed" j11 in
  let j13 := with_video_url (Some ("/jobs/" +:+ id +:+ "/output/final_video.mp4")) j12 in
  [j0; j1; j2; j3; j4; j5; j6; j7; j8; j9; j10; j11; j12; j13].

(** The three values the handler adds after the value [j]. *)
Definition failure_trace (e : exn) (j : JobStatus) : list JobStatus :=
  let f1 := with_status "failed" j in
  let f2 := with_message "Video generation failed" f1 in
  let f3 := with_error (Some (str_exn e)) f2 in
  [f1; f2; f3].

(** What the handler leaves of the value [j]. *)
Definition failed_record (e : exn) (j : JobStatus) : JobStatus :=
  mkJobStatus (job_id j) "failed" (progress j) "Video generation failed"
    (script j) (video_url j) (Some (str_exn e)).

(** [a'] differs from [a] in the file system at most. *)
Definition same_registry (a a' : server) : Prop :=
  job_statuses a' = job_statuses a /\ history a' = history a /\ logged a' = logged a.

(** The registry of [a] is that of [a0] with the values [trace] assigned to
    job [id] one after the other, [j] being the last. *)
Definition assigned (id : string) (a0 : server) (trace : list JobStatus) (j : JobStatus)
    (a : server) : Prop :=
  job_statuses a = <[id := j]> (job_statuses a0)
  /\ history a = history a0 ++ trace
  /\ logged a = logged a0
  /\ last trace = Some j.

(** Progress never decreases along a list of values. *)
Definition progress_monotone (trace : list JobStatus) : Prop :=
  forall i k x y,
    (i <= k)%nat -> trace !! i = Some x -> trace !! k = Some y ->
    (progress x <= progress y)%Q.

(** The four directories [generate_video_task] creates. *)
Definition workspace_dirs (id : string) : list string :=
  [path_div (path_div JOBS_DIR id) "script"; path_div (path_div JOBS_DIR id) "audio";
   path_div (path_div JOBS_DIR id) "video"; path_div (path_div JOBS_DIR id) "output"].

(** A machine with nothing installed that refuses to create the [script]
    directory of job [j1] (quota reached). *)
Definition quota_env : Env :=
  mkEnv None None
    (fun _ => Raise (PyExc "ValueError" "no API key"))
    (fun _ => Raise (PyExc "JSONDecodeError" "Expecting value"))
    (fun _ => "{}")
    (fun _ => "None")
    (fun _ _ => Raise (PyExc "ConnectionError" "unreachable"))
    (Raise (PyExc "ModuleNotFoundError" "No module named 'manim'"))
    "python3"
    (fun _ w => (Raise (FileNotFoundError "ffmpeg"), w))
    (fun op => match op with
               | OpMkdir d => bool_decide (d = "jobs/j1/script")
               | _ => false
               end)
    (fun p => "/srv/app/" +:+ p).

(** A list of progress values never decreases. *)
Fixpoint ascending (values : list Q) : bool :=
  match values with
  | [] => true
  | x :: rest => forallb (Qle_bool x) rest && ascending rest
  end.

(** Every value lies between [lo] and [hi]. *)
Definition all_between (lo hi : Q) (values : list Q) : bool :=
  forallb (fun x => Qle_bool lo x && Qle_bool x hi) values.

(** The progress values of the dictionary while [generate_video_task] runs
    to its end. *)
Definition success_progress : list Q :=
  [0.05; 0.2; 0.2; 0.2; 0.4; 0.4; 0.6; 0.6; 0.8; 0.8; 0.8; 1.0; 1.0; 1.0]%Q.

(** A machine whose media tool starts and exits with code 1 on every
    command, with nothing else installed. *)
Definition broken_ffmpeg_env : Env :=
  mkEnv None None
    (fun _ => Raise (PyExc "ValueError" "no API key"))
    (fun _ => Raise (PyExc "JSONDecodeError" "Expecting value"))
    (fun _ => "{}")
    (fun _ => "None")
    (fun _ _ => Raise (PyExc "ConnectionError" "unreachable"))
    (Raise (PyExc "ModuleNotFoundError" "No module named 'manim'"))
    "python3"
    (fun _ w => (Ok (mkProcess 1 true), w))
    (fun _ => false)
    (fun p => "/srv/app/" +:+ p).

(** A job directory holding the rendered clip and the narration of scene
    1. *)
Definition scene1_rendered_fs : fs :=
  mkFs {["jobs/j1/video/scene_1.mp4" := rendered_clip;
         "jobs/j1/audio/scene_1.mp3" := mock_mp3]}
       {["jobs"; "jobs/j1"; "jobs/j1/video"; "jobs/j1/audio"; "jobs/j1/output"]} 0.



(** A scene given as the list of the four field names instead of an object
    with these fields, and a script made of it. *)
Definition listed_scene : json :=
  JList [JStr "startTime"; JStr "endTime"; JStr "narration"; JStr "visualDescription"].

Definition listed_scene_script : json :=
  JObj [("title", JStr "Circles"); ("description", JStr "Area of a circle");
        ("scenes", JList [listed_scene])].

(** [s] between double quotes. *)
Definition quoted (s : string) : string := dq +:+ s +:+ dq.

(** The JSON text of [listed_scene_script]. *)
Definition listed_scene_text : string :=
  "{" +:+ quoted "title" +:+ ": " +:+ quoted "Circles" +:+ ", "
  +:+ quoted "description" +:+ ": " +:+ quoted "Area of a circle" +:+ ", "
  +:+ quoted "scenes" +:+ ": [[" +:+ quoted "startTime" +:+ ", " +:+ quoted "endTime"
  +:+ ", " +:+ quoted "narration" +:+ ", " +:+ quoted "visualDescription" +:+ "]]}".

(** A machine with the credential for the generative endpoint, which
    answers every instruction with [listed_scene_text] in a fenced
    block. *)
Definition listing_env : Env :=
  mkEnv (Some "secret") None
    (fun _ => Ok (backticks +:+ "json" +:+ nl +:+ listed_scene_text +:+ nl +:+ backticks))
    (fun text =>
       if bool_decide (text = listed_scene_text) then Ok listed_scene_script
       else Raise (PyExc "JSONDecodeError" "Expecting value"))
    (fun _ => listed_scene_text)
    (fun _ => "None")
    (fun _ _ => Raise (PyExc "ConnectionError" "unreachable"))
    (Raise (PyExc "ModuleNotFoundError" "No module named 'manim'"))
    "python3"
    (fun _ w => (Raise (FileNotFoundError "ffmpeg"), w))
    (fun _ => false)
    (fun p => "/srv/app/" +:+ p).

(** *** Definitions for the further properties *)

(** A scene that is an object holding every key of [keys]. *)
Definition object_with_keys (keys : list string) (v : json) : Prop :=
  exists fields, v = JObj fields /\ forall key, key ∈ keys -> is_Some (lookup_key key fields).

(** A scene on which [key in scene] raises: it is no container. *)
Definition not_a_container (v : json) : bool :=
  match v with
  | JNull | JBool _ | JNum _ => true
  | _ => false
  end.

(** A script whose first scene is the number 1. *)
Definition numbered_scene_script : json :=
  JObj [("title", JStr "Circles"); ("description", JStr "Area of a circle");
        ("scenes", JList [JNum "1"])].

(** A script whose title is a number and whose scenes hold numbers for
    their fields. *)
Definition untyped_script : json :=
  JObj [("title", JNum "7"); ("description", JNull);
        ("scenes",
         JList [JObj [("startTime", JNum "0"); ("endTime", JNum "10");
                      ("narration", JNull); ("visualDescription", JList [])]])].

(** A text without a slash: a file name, or a job identifier. *)
Definition slash_free (s : string) : bool := all_chars (fun c => negb (is_slash c)) s.

(** A registry with two jobs, [j1] completed with its final video on disk
    and [j2] queued with an empty directory. *)
Definition two_jobs_server : server :=
  mkServer
    (mkFs {["jobs/j1/output/final_video.mp4" := rendered_clip;
            "jobs/j2/script/script.json" := []]}
          {["jobs"; "jobs/j1"; "jobs/j1/output"; "jobs/j2"; "jobs/j2/script"]} 0)
    {["j1" := mkJobStatus "j1" "completed" 1.0 "Video generation completed" None
                (Some "/jobs/j1/output/final_video.mp4") None;
      "j2" := mkJobStatus "j2" "queued" 0.0 "Job queued" None None None]}
    [] [].

(** What holds of every value of a job's dictionary while its task runs:
    it carries the job's identifier; its status is one of [processing],
    [completed], [failed]; a video address is present only in a completed
    record with progress 1, and is the address of the job's final video; an
    error text is present only in a failed record; a failed record gives no
    video address; a completed record carries the script. *)
Definition record_consistent (id : string) (x : JobStatus) : Prop :=
  job_id x = id
  /\ (status x = "processing" \/ status x = "completed" \/ status x = "failed")
  /\ (video_url x = None
      \/ (video_url x = Some ("/jobs/" +:+ id +:+ "/output/final_video.mp4")
          /\ status x = "completed" /\ progress x = 1.0%Q))
  /\ (error x = None \/ (status x = "failed" /\ video_url x = None))
  /\ (status x = "failed" -> video_url x = None)
  /\ (status x = "completed" -> script x <> None).

(** A program in the form the generator is asked for, with a class named
    after its content. *)
Definition intro_program : string :=
  "from manim import *" +:+ nl +:+ nl +:+
  "class Intro(Scene):" +:+ nl +:+
  "    def construct(self):" +:+ nl +:+
  "        self.wait(1)" +:+ nl.

(** A job directory holding two combined clips. *)
Definition two_clips_fs : fs :=
  mkFs {["jobs/j1/output/combined_scene_1.mp4" := rendered_clip;
         "jobs/j1/output/combined_scene_2.mp4" := mock_mp4]}
       {["jobs"; "jobs/j1"; "jobs/j1/output"]} 0.

(** The address [generate_speech] posts to. *)
Definition speech_url (voice : option string) : string :=
  "https://api.elevenlabs.io/v1/text-to-speech/" +:+ default "None" voice.



(** What a computation leaves of the files: those other than [p] are
    untouched, and [p] holds what it held, or one of the listed contents,
    or nothing (an empty file, left by a write that was refused after the
    file had been opened); no temporary directory is handed out, and a
    directory that is new is [d] or a text [d] starts with (an ancestor
    that [os.makedirs] had to create). *)
Definition touches_only (p d : string) (contents : list bytes) (w w' : fs) : Prop :=
  (forall q, q <> p -> files w' !! q = files w !! q)
  /\ (files w' !! p = files w !! p \/ files w' !! p = Some empty_file
      \/ exists c, c ∈ contents /\ files w' !! p = Some c)
  /\ tmp_count w' = tmp_count w
  /\ (forall q, q ∈ dirs w' -> q ∈ dirs w \/ starts_with q d).

(** The contents [generate_speech] can give the output file: the
    placeholder, and the body of the answer of the speech endpoint. *)
Definition speech_contents (E : Env) (text : json) (voice : option string) : list bytes :=
  mock_mp3 ::
  match requests_post E (speech_url voice) text with
  | Ok response => [resp_content response]
  | Raise _ => []
  end.


(** The file system after the clean-up of [concat_videos]: the list file
    and the temporary directory are removed, each failure being ignored. *)
Definition after_concat_cleanup (E : Env) (temp_dir : string) (w : fs) : fs :=
  (try_except
     (os_remove E (path_join temp_dir "video_list.txt") ;;; os_rmdir E temp_dir)
     (fun _ => ret tt) w).2.
(** *** [utils/file_utils.py] *)

Section FileUtils.

Context (E : Env).



End FileUtils.

Definition is_dot (c : ascii) : bool := Ascii.eqb c ".".

(** [os.path.splitext(p)] of [posixpath]: the extension starts at the last
    dot of the last component, unless only dots stand before that dot in
    the component. *)
Definition splitext (p : string) : string * string :=
  let '(after, rest) := span (fun c => negb (is_dot c)) (String.rev p) in
  match rest with
  | EmptyString => (p, "")
  | String _ before =>
      if all_chars (fun c => negb (is_slash c)) after
         && negb (all_chars is_dot (fst (span (fun c => negb (is_slash c)) before)))
      then (String.rev before, "." +:+ String.rev after)
      else (p, "")
  end.

(** [s[1:]] *)
Definition drop_first (s : string) : string :=
  match s with
  | EmptyString => ""
  | String _ s' => s'
  end.

(** [os.path.splitext(file_path)[1][1:]]; [splitext] does not raise on a
    string. *)
Definition get_file_extension (file_path : string) : string :=
  drop_first (snd (splitext file_path)).

(** *** [client.py] *)

(** [ManimVideoAPIClient.wait_for_job_completion].  The loop can run for
    ever, so the model takes the number of iterations it may make; [None]
    says that this number did not suffice.  What the method obtains from
    outside is read from oracles indexed by the iteration, counted from 0:
    [elapsed k] is the value of [time.time() - start_time] when the loop
    condition is evaluated for the k-th time, [poll k] is what
    [self.get_job_status(job_id)] returns or raises then (the request,
    [raise_for_status] and the parsing of the body), and
    [progress_callback], when given, returns or raises on a status.  What
    the callback and [time.sleep] do besides returning is left out. *)
Section Client.

Context (elapsed : nat -> Q) (poll : nat -> result json)
        (progress_callback : option (json -> result unit)).

(** [v in ["completed", "failed"]] *)
Definition is_final (v : json) : bool :=
  match v with
  | JStr s => bool_decide (s = "completed") || bool_decide (s = "failed")
  | _ => false
  end.

(** [time.sleep(seconds)] *)
Definition time_sleep (seconds : Z) : result unit :=
  if (seconds <? 0)%Z then Raise (PyExc "ValueError" "sleep length must be non-negative")
  else Ok tt.

Definition timeout_error (id : string) (timeout_seconds : Z) : exn :=
  PyExc "TimeoutError"
    ("Job " +:+ id +:+ " did not complete within " +:+ pretty timeout_seconds +:+ " seconds").

(** The [while] loop from its k-th iteration on. *)
Fixpoint wait_loop (fuel : nat) (id : string) (timeout_seconds poll_interval_seconds : Z)
    (k : nat) : option (result json) :=
  match fuel with
  | O => None
  | S fuel' =>
      if negb (Qle_bool (inject_Z timeout_seconds) (elapsed k)) then
        match poll k with
        | Raise e => Some (Raise e)
        | Ok status0 =>
            match
              match progress_callback with
              | Some callback => callback status0
              | None => Ok tt
              end
            with
            | Raise e => Some (Raise e)
            | Ok _ =>
                match py_getitem status0 "status" with
                | Raise e => Some (Raise e)
                | Ok v =>
                    if is_final v then Some (Ok status0)
                    else
                      match time_sleep poll_interval_seconds with
                      | Raise e => Some (Raise e)
                      | Ok _ =>
                          wait_loop fuel' id timeout_seconds poll_interval_seconds (S k)
                      end
                end
            end
        end
      else Some (Raise (timeout_error id timeout_seconds))
  end.

Definition wait_for_job_completion (fuel : nat) (id : string)
    (timeout_seconds poll_interval_seconds : Z) : option (result json) :=
  wait_loop fuel id timeout_seconds poll_interval_seconds 0.

End Client.

(** A status as the service answers it for a job in the given state. *)
Definition status_body (state : string) : json :=
  JObj [("job_id", JStr "j1"); ("status", JStr state)].

(** A media tool that exits with code 0 on every command and writes
    nothing: the file system is as before when the child has ended. *)
Definition silent_tool (E : Env) : Prop :=
  forall cmd w, exists process0,
    subprocess_exec E cmd w = (Ok process0, w) /\ returncode process0 = 0%Z.

(** A machine without credentials and without the rendering engine,
    whose media tool exits with code 0 without writing. *)
Definition silent_tool_env : Env :=
  mkEnv None None
    (fun _ => Raise (PyExc "ValueError" "no API key"))
    (fun _ => Raise (PyExc "JSONDecodeError" "Expecting value"))
    (fun _ => "{}")
    (fun _ => "None")
    (fun _ _ => Raise (PyExc "ConnectionError" "unreachable"))
    (Raise (PyExc "ModuleNotFoundError" "No module named 'manim'"))
    "python3"
    (fun _ w => (Ok (mkProcess 0 true), w))
    (fun _ => false)
    (fun p => "/srv/app/" +:+ p).

(** Nothing is stored at or below the [output] directory of job [id]. *)
Definition output_empty (id : string) (w : fs) : Prop :=
  forall p, under (path_div (path_div JOBS_DIR id) "output") p = true -> files w !! p = None.

(** [m] keeps [I]: whatever it returns or raises, a state that satisfies
    [I] is followed by one that does. *)
Definition preserves {S A} (I : S -> Prop) (m : M S A) : Prop :=
  forall s r s', I s -> m s = (r, s') -> I s'.

(** * Properties *)

Local Open Scope py_scope.

(** Unfolding of the monad's combinators. *)
Ltac unfold_monad :=
  unfold try_except, try_finally, bind, ret, raise, lift_result, get_store, modify, zoom in *.

(** Case analysis on the innermost scrutinee of a term. *)
Ltac destruct_innermost t :=
  lazymatch t with
  | context [match ?x with _ => _ end] => destruct_innermost x
  | _ => destruct t eqn:?
  end.

(** Case analysis on everything the goal branches on, then [eauto]. *)
Ltac crush_cases :=
  repeat first
    [ progress cbn [fst snd]
    | match goal with
      | |- context [match ?x with _ => _ end] => destruct_innermost x
      end ];
  eauto.

(** A sequence of two steps ends with the exception of the first, or goes
    on with what the first returned. *)
Lemma run_bind {S A B} (m : M S A) (k : A -> M S B) (s s1 : S) (r : result B) :
  bind m k s = (r, s1) ->
  (exists e, m s = (Raise e, s1) /\ r = Raise e)
  \/ (exists x s', m s = (Ok x, s') /\ k x s' = (r, s1)).
Proof.
  unfold bind. destruct (m s) as [[x|e] s'].
  - intros H. right. by exists x, s'.
  - intros [= <- <-]. left. by exists e.
Qed.

(** ** Text *)

Lemma app_nil_l (s : string) : "" +:+ s = s.
Proof. reflexivity. Qed.

Lemma app_cons (c : ascii) (a b : string) : String c a +:+ b = String c (a +:+ b).
Proof. reflexivity. Qed.

(** [simpl] that also computes appends to a string given by its first
    characters. *)
Ltac ssimpl := repeat (progress (rewrite ?app_cons, ?app_nil_l; simpl)).
Tactic Notation "ssimpl" "in" hyp(H) :=
  repeat (progress (rewrite ?app_cons, ?app_nil_l in H; simpl in H)).

Lemma strip_prefix_Some p s rest :
  strip_prefix p s = Some rest <-> s = p +:+ rest.
Proof.
  revert s. induction p as [|a p IH]; intros s; ssimpl.
  - split; [intros [= ->] | intros ->]; reflexivity.
  - destruct s as [|b s]; [split; discriminate|].
    destruct (Ascii.eqb_spec a b) as [->|Hne].
    + rewrite IH. split; [intros ->; reflexivity | intros [= ->]; reflexivity].
    + split; [discriminate | intros [= -> _]; contradiction].
Qed.

Lemma string_app_assoc (a b c : string) : (a +:+ b) +:+ c = a +:+ (b +:+ c).
Proof. induction a as [|x a IH]; ssimpl; [reflexivity | f_equal; exact IH]. Qed.

(** [split_at_first] cuts the text at an occurrence of the pattern. *)
Lemma split_at_first_sound p s before after :
  split_at_first p s = Some (before, after) -> s = before +:+ p +:+ after.
Proof.
  revert before. induction s as [|c s IH]; intros before; simpl.
  - destruct (strip_prefix p "") eqn:Hp; [|discriminate].
    intros [= <- <-]. by apply strip_prefix_Some in Hp.
  - destruct (strip_prefix p (String c s)) eqn:Hp.
    + intros [= <- <-]. by apply strip_prefix_Some in Hp.
    + destruct (split_at_first p s) as [[b a]|] eqn:Hs; [|discriminate].
      intros [= <- <-]. ssimpl. f_equal. by apply IH.
Qed.

(** ... and no occurrence starts further left. *)
Lemma split_at_first_leftmost p s before after :
  split_at_first p s = Some (before, after) ->
  forall before' after', s = before' +:+ p +:+ after' ->
  String.length before <= String.length before'.
Proof.
  revert before. induction s as [|c s IH]; intros before; simpl.
  - destruct (strip_prefix p ""); [|discriminate]. intros [= <- <-] ? ? _. simpl. lia.
  - destruct (strip_prefix p (String c s)) eqn:Hp.
    + intros [= <- <-] ? ? _. simpl. lia.
    + destruct (split_at_first p s) as [[b a]|] eqn:Hs; [|discriminate].
      intros [= <- <-] before' after' Heq.
      destruct before' as [|c' before'].
      * ssimpl in Heq. apply strip_prefix_Some in Heq. congruence.
      * ssimpl in Heq. injection Heq as -> Heq. simpl.
        specialize (IH b eq_refl before' after' Heq). lia.
Qed.

(** Without a result, the pattern does not occur. *)
Lemma split_at_first_None p s :
  split_at_first p s = None -> forall before after, s <> before +:+ p +:+ after.
Proof.
  induction s as [|c s IH]; simpl.
  - destruct (strip_prefix p "") eqn:Hp; [discriminate|].
    intros _ [|c b] a Heq; [|discriminate].
    ssimpl in Heq. apply strip_prefix_Some in Heq. congruence.
  - destruct (strip_prefix p (String c s)) eqn:Hp; [discriminate|].
    destruct (split_at_first p s) as [[b a]|] eqn:Hs; [discriminate|].
    intros _ [|c' b'] a' Heq.
    + ssimpl in Heq. apply strip_prefix_Some in Heq. congruence.
    + ssimpl in Heq. injection Heq as -> Heq. by eapply IH.
Qed.

Lemma split_at_first_complete p s before after :
  s = before +:+ p +:+ after -> is_Some (split_at_first p s).
Proof.
  intros Heq. destruct (split_at_first p s) as [x|] eqn:Hs; [by eexists|].
  exfalso. by eapply split_at_first_None.
Qed.

(** A text without [p] has no occurrence of a pattern that starts with
    [p]. *)
Lemma contains_false_app p q s :
  contains p s = false -> split_at_first (p +:+ q) s = None.
Proof.
  unfold contains. intros Hc.
  destruct (split_at_first (p +:+ q) s) as [[b a]|] eqn:Hs; [|reflexivity].
  apply split_at_first_sound in Hs.
  rewrite string_app_assoc in Hs.
  destruct (split_at_first_complete p s b (q +:+ a) Hs) as [x Hx].
  by rewrite Hx in Hc.
Qed.

Lemma search_fenced_None_of_no_backticks rest text :
  contains backticks text = false -> search_fenced (backticks +:+ rest) text = None.
Proof.
  intros Hc. unfold search_fenced. by rewrite (contains_false_app _ _ _ Hc).
Qed.

(** ** Extraction of a fenced payload *)

Lemma string_app_length (a b : string) :
  String.length (a +:+ b) = String.length a + String.length b.
Proof. induction a as [|c a IH]; ssimpl; [reflexivity | by rewrite IH]. Qed.

(** Two ways of cutting a text agree when the first parts are equally
    long. *)
Lemma app_eq_same_length (a b c d : string) :
  a +:+ b = c +:+ d -> String.length a = String.length c -> a = c /\ b = d.
Proof.
  revert c. induction a as [|x a IH]; intros [|y c]; ssimpl; try discriminate.
  - by intros -> _.
  - intros [= -> Heq] [= Hlen]. destruct (IH c Heq Hlen) as [-> ->]. by split.
Qed.

(** ... and the shorter first part is a prefix of the longer one. *)
Lemma app_eq_shorter (a b c d : string) :
  a +:+ b = c +:+ d -> String.length a <= String.length c ->
  exists x, c = a +:+ x /\ b = x +:+ d.
Proof.
  revert c. induction a as [|x a IH]; intros c; ssimpl.
  - intros -> _. by exists c.
  - destruct c as [|y c]; ssimpl; [lia|].
    intros [= -> Heq] Hlen. destruct (IH c Heq ltac:(lia)) as (z & -> & ->).
    by exists z.
Qed.

(** The leftmost occurrence is the one [split_at_first] cuts at. *)
Lemma split_at_first_unique p s before after :
  s = before +:+ p +:+ after ->
  (forall before' after', s = before' +:+ p +:+ after' ->
   String.length before <= String.length before') ->
  split_at_first p s = Some (before, after).
Proof.
  intros Heq Hmin.
  destruct (split_at_first_complete p s before after Heq) as [[b a] Hs].
  pose proof (split_at_first_sound _ _ _ _ Hs) as Hcut.
  pose proof (split_at_first_leftmost _ _ _ _ Hs before after Heq) as Hle.
  pose proof (Hmin b a Hcut) as Hge.
  rewrite Heq in Hcut.
  destruct (app_eq_same_length before (p +:+ after) b (p +:+ a) Hcut ltac:(lia)) as [-> Ha].
  apply (inj (String.app p)) in Ha. by subst a.
Qed.

(** What a successful [search_fenced] returns: the text between the
    leftmost opener and the first closing fence after it. *)
Lemma search_fenced_Some opener text content :
  search_fenced opener text = Some content -> first_block opener text content.
Proof.
  unfold search_fenced, first_block, closing_fence. intros H.
  destruct (split_at_first opener text) as [[before rest]|] eqn:H1; [|discriminate].
  simpl in H.
  destruct (split_at_first (nl +:+ backticks) rest) as [[c after]|] eqn:H2; [|discriminate].
  injection H as <-.
  exists before, after. split; [|split].
  - apply split_at_first_sound in H1, H2. by rewrite H1, H2.
  - by apply split_at_first_leftmost with (after := rest).
  - intros content' after' Heq. apply split_at_first_sound in H2 as H2'.
    rewrite <- H2' in Heq. by eapply split_at_first_leftmost.
Qed.

(** ... and [search_fenced] finds the first block when there is one. *)
Lemma search_fenced_first_block opener text content :
  first_block opener text content -> search_fenced opener text = Some content.
Proof.
  intros (before & after & Heq & Hleft & Hfirst). unfold search_fenced.
  rewrite (split_at_first_unique opener text before (content +:+ closing_fence +:+ after)).
  - cbn. fold closing_fence.
    by rewrite (split_at_first_unique closing_fence
                  (content +:+ closing_fence +:+ after) content after).
  - exact Heq.
  - exact Hleft.
Qed.

(** A block that is present, wherever it stands, gives the text a first
    block: the closing fence of a later block also closes the leftmost
    opener. *)
Lemma present_block_found opener text before content after :
  text = before +:+ opener +:+ content +:+ closing_fence +:+ after ->
  exists content', first_block opener text content'.
Proof.
  intros Heq.
  destruct (split_at_first_complete opener text before
              (content +:+ closing_fence +:+ after) Heq) as [[b0 rest] H1].
  pose proof (split_at_first_sound _ _ _ _ H1) as Hcut.
  pose proof (split_at_first_leftmost _ _ _ _ H1 _ _ Heq) as Hle.
  rewrite Heq in Hcut.
  destruct (app_eq_shorter b0 (opener +:+ rest) before
              (opener +:+ content +:+ closing_fence +:+ after) (eq_sym Hcut) Hle)
    as (x & _ & Hrest).
  assert (Hin : exists y, rest = y +:+ closing_fence +:+ after).
  { rewrite <- !string_app_assoc in Hrest.
    rewrite (string_app_assoc x opener content) in Hrest.
    rewrite !string_app_assoc in Hrest.
    replace (x +:+ opener +:+ content +:+ closing_fence +:+ after)
      with ((x +:+ opener +:+ content) +:+ closing_fence +:+ after) in Hrest
      by (by rewrite !string_app_assoc).
    assert (Hlen : String.length opener <= String.length (x +:+ opener +:+ content))
      by (rewrite !string_app_length; lia).
    destruct (app_eq_shorter opener rest (x +:+ opener +:+ content)
                (closing_fence +:+ after) Hrest Hlen) as (y & _ & ->).
    by exists y. }
  destruct Hin as [y Hy].
  destruct (split_at_first_complete closing_fence rest y after Hy) as [[c a] H2].
  exists c. apply search_fenced_Some. unfold search_fenced. rewrite H1. cbn.
  fold closing_fence. by rewrite H2.
Qed.

(** C7, as the code has it: the language-labelled form is attempted first
    and the label-free form second; the payload is the content of the
    first block of the first form that has one (from the leftmost opener to
    the first closing fence after it), and the whole response when neither
    form has a block, which is the case when the response holds no fence.
    A block that is present in a form gives the response a first block in
    that form, and a form has one first block at most. *)
Theorem extract_payload_labelled_first (label text : string) :
  (forall content,
      first_block (backticks +:+ label +:+ nl) text content ->
      extract_payload label text = content)
  /\ (forall content,
      (forall c, ~ first_block (backticks +:+ label +:+ nl) text c) ->
      first_block (backticks +:+ nl) text content ->
      extract_payload label text = content)
  /\ ((forall c, ~ first_block (backticks +:+ label +:+ nl) text c) ->
      (forall c, ~ first_block (backticks +:+ nl) text c) ->
      extract_payload label text = text)
  /\ (contains backticks text = false -> extract_payload label text = text)
  /\ (forall opener before content after,
      text = before +:+ opener +:+ content +:+ closing_fence +:+ after ->
      exists content', first_block opener text content')
  /\ (forall opener c1 c2,
      first_block opener text c1 -> first_block opener text c2 -> c1 = c2).
Proof.
  assert (Hnone : forall opener,
             (forall c, ~ first_block opener text c) -> search_fenced opener text = None).
  { intros opener Hno. destruct (search_fenced opener text) as [c|] eqn:Hs; [|reflexivity].
    destruct (Hno c). by apply search_fenced_Some. }
  unfold extract_payload. split; [|split; [|split; [|split; [|split]]]].
  - intros content Hblock. by rewrite (search_fenced_first_block _ _ _ Hblock).
  - intros content Hno Hblock.
    by rewrite (Hnone _ Hno), (search_fenced_first_block _ _ _ Hblock).
  - intros Hno Hno'. by rewrite (Hnone _ Hno), (Hnone _ Hno').
  - intros Hc. by rewrite !search_fenced_None_of_no_backticks.
  - intros opener before content after. apply present_block_found.
  - intros opener c1 c2 H1%search_fenced_first_block H2%search_fenced_first_block.
    congruence.
Qed.

(** The theorem at the response [two_blocks], whose labelled block is the
    second one, and at a response without a fence. *)
Lemma extract_payload_labelled_first_witness :
  extract_payload "json" two_blocks = "[2]"
  /\ extract_payload "python" "print(1)" = "print(1)".
Proof.
  split.
  - apply (proj1 (extract_payload_labelled_first "json" two_blocks)).
    apply search_fenced_Some. vm_compute. reflexivity.
  - apply (proj1 (proj2 (proj2 (proj2
             (extract_payload_labelled_first "python" "print(1)"))))).
    vm_compute. reflexivity.
Defined.

(** C7 as stated fails: on [two_blocks] the code returns the content of the
    labelled block, which is neither the first fenced block of the response
    nor what attempting the label-free form first gives. *)
Lemma extract_payload_not_label_free_first :
  extract_payload "json" two_blocks = "[2]"
  /\ extract_payload_as_specified "json" two_blocks = "[1]"
  /\ extract_payload "json" two_blocks <> extract_payload_as_specified "json" two_blocks.
Proof. vm_compute. repeat split; discriminate. Qed.

(** ** Script generation *)

Lemma all_keys_in_true keys v :
  all_keys_in keys v = Ok true -> forall key, key ∈ keys -> py_in key v = Ok true.
Proof.
  induction keys as [|k keys IH]; simpl; intros H key Hin.
  - by apply elem_of_nil in Hin.
  - destruct (py_in k v) as [[|]|] eqn:Hk; try discriminate.
    apply elem_of_cons in Hin as [->|Hin]; [assumption | by apply IH].
Qed.

Lemma validate_scenes_true scenes :
  validate_scenes scenes = Ok true ->
  forall scene, scene ∈ scenes -> all_keys_in scene_keys scene = Ok true.
Proof.
  induction scenes as [|s scenes IH]; intros H scene Hin.
  - by apply elem_of_nil in Hin.
  - cbn [validate_scenes] in H.
    destruct (all_keys_in scene_keys s) as [[|]|] eqn:Hs; try discriminate.
    apply elem_of_cons in Hin as [->|Hin]; [assumption | by apply IH].
Qed.


Lemma generate_script_returns (E : Env) (prompt0 : string) (w : fs) :
  exists script0, generate_script E prompt0 w = (Ok script0, w).
Proof.
  unfold generate_script. unfold_monad.
  destruct (truthy (GEMINI_API_KEY E)); simpl; [|by eexists].
  destruct (generate_content E (script_prompt prompt0)) as [text|]; [|by eexists].
  destruct (json_loads E (extract_payload "json" text)) as [s|]; [|by eexists].
  destruct (validate_script s) as [[|]|]; simpl; by eexists.
Qed.



(** C4 on the code.  [validate_script] tests that the script is a dict and
    that its scenes are a list, but not that a scene is a dict: it tests a
    scene with [key in scene], which on a list is membership.  The
    endpoint answers with a script whose only scene is the list of the four
    field names.  The script is structurally defective (its scene carries
    no field), [validate_script] accepts it, and [generate_script] returns
    it instead of the mock script.  The code generator then raises
    [TypeError] on the scene, out of its own handler, and the job of that
    prompt ends as failed. *)
Theorem generate_script_returns_script_whose_scene_is_a_list :
  structurally_defective listed_scene_script
  /\ (forall fields, listed_scene <> JObj fields)
  /\ json_loads listing_env listed_scene_text = Ok listed_scene_script
  /\ validate_script listed_scene_script = Ok true
  /\ generate_script listing_env "circles" fresh_fs = (Ok listed_scene_script, fresh_fs)
  /\ listed_scene_script <> generate_mock_script "circles"
  /\ (exists e,
        generate_manim_code listing_env listed_scene 0 fresh_fs = (Raise e, fresh_fs)
        /\ exn_class e = "TypeError")
  /\ (exists a,
        generate_video_task listing_env "j1" (mkVideoRequest "circles" None "low")
          queued_server = (Ok tt, a)
        /\ status <$> job_statuses a !! "j1" = Some "failed").
Proof.
  assert (Hno : forall fields, listed_scene <> JObj fields) by discriminate.
  split; [|split; [exact Hno|]].
  { apply (defect_scene_not_object _ [listed_scene] listed_scene);
      [reflexivity | apply list_elem_of_singleton; reflexivity | exact Hno]. }
  split; [vm_compute; reflexivity|]. split; [vm_compute; reflexivity|].
  split; [vm_compute; reflexivity|]. split; [discriminate|]. split.
  - eexists. split; vm_compute; reflexivity.
  - eexists. split; vm_compute; reflexivity.
Qed.


(** ** Class names *)

Lemma match_class_here_nonempty s name : match_class_here s = Some name -> name <> "".
Proof.
  unfold match_class_here. intros H Hname.
  destruct (strip_prefix "class" s) as [s1|]; [|discriminate].
  cbn -[strip_prefix span] in H.
  destruct (span is_space s1) as [ws s2].
  destruct (bool_decide (ws = "")); [discriminate|].
  destruct (span is_word s2) as [name' s3].
  destruct (bool_decide (name' = "")) eqn:Hn; [discriminate|].
  apply bool_decide_eq_false in Hn.
  destruct (strip_prefix "(" _); [|discriminate].
  cbn -[strip_prefix span] in H.
  destruct (strip_prefix "Scene" _); [|discriminate].
  cbn -[strip_prefix span] in H.
  destruct (strip_prefix ")" _); [|discriminate].
  cbn -[strip_prefix span] in H.
  congruence.
Qed.

Lemma search_class_nonempty s name : search_class s = Some name -> name <> "".
Proof.
  induction s as [|c s IH]; cbn [search_class].
  - destruct (match_class_here "") eqn:H; [|discriminate].
    intros [= <-]. by eapply match_class_here_nonempty.
  - destruct (match_class_here (String c s)) eqn:H.
    + intros [= <-]. by eapply match_class_here_nonempty.
    + exact IH.
Qed.

(** C6 on the code.  The declaration [class Intro (Scene)] is recognised,
    but the replacement looks for the text [class Intro(Scene)], which does
    not occur: the program comes back unchanged, for scene index 0 and for
    scene index 1 alike, and its class name holds no scene number.  A class
    named [Scene10] is kept for scene index 0 as well as for scene index 9.
    Without a recognised declaration the result is the fallback program of
    the index. *)
Theorem ensure_proper_class_name_misses_spaced_declaration :
  extract_class_name spaced_class_program = Some "Intro"
  /\ ensure_proper_class_name spaced_class_program 0 = spaced_class_program
  /\ ensure_proper_class_name spaced_class_program 1 = spaced_class_program
  /\ extract_class_name (ensure_proper_class_name spaced_class_program 0) = Some "Intro"
  /\ contains (pretty (0 + 1)%Z) "Intro" = false
  /\ extract_class_name (ensure_proper_class_name scene10_program 0) = Some "Scene10"
  /\ extract_class_name (ensure_proper_class_name scene10_program 9) = Some "Scene10"
  /\ (forall code index,
      extract_class_name code = None ->
      ensure_proper_class_name code index = fallback_program index).
Proof.
  repeat split; try (vm_compute; reflexivity).
  intros code index H. unfold ensure_proper_class_name, extract_class_name in *.
  by rewrite H.
Qed.

(** ** Paths *)

Lemma rev_app_spec (s acc : string) : String.rev_app s acc = String.rev s +:+ acc.
Proof.
  unfold String.rev. revert acc. induction s as [|c s IH]; intros acc; [reflexivity|].
  cbn [String.rev_app]. rewrite IH, (IH (String c "")), string_app_assoc. reflexivity.
Qed.

Lemma rev_cons (c : ascii) (s : string) : String.rev (String c s) = String.rev s +:+ String c "".
Proof. unfold String.rev at 1. cbn [String.rev_app]. apply rev_app_spec. Qed.

Lemma string_app_nil_r (s : string) : s +:+ "" = s.
Proof. induction s as [|c s IH]; [reflexivity|]. by rewrite app_cons, IH. Qed.

Lemma rev_app_distr (a b : string) : String.rev (a +:+ b) = String.rev b +:+ String.rev a.
Proof.
  induction a as [|c a IH].
  - rewrite app_nil_l. symmetry. apply string_app_nil_r.
  - rewrite app_cons, !rev_cons, IH. apply string_app_assoc.
Qed.

Lemma rev_involutive (s : string) : String.rev (String.rev s) = s.
Proof.
  induction s as [|c s IH]; [reflexivity|].
  rewrite rev_cons, rev_app_distr, IH. reflexivity.
Qed.

Lemma all_chars_app f (a b : string) :
  all_chars f (a +:+ b) = all_chars f a && all_chars f b.
Proof.
  induction a as [|c a IH]; [reflexivity|].
  rewrite app_cons. cbn [all_chars]. by rewrite IH, andb_assoc.
Qed.

Lemma all_chars_rev f (s : string) : all_chars f (String.rev s) = all_chars f s.
Proof.
  induction s as [|c s IH]; [reflexivity|].
  rewrite rev_cons, all_chars_app, IH. cbn [all_chars]. rewrite andb_true_r. apply andb_comm.
Qed.

(** A text is the longest run [span] takes, followed by the rest. *)
Lemma span_app f (s : string) : s = fst (span f s) +:+ snd (span f s).
Proof.
  induction s as [|c s IH]; [reflexivity|]. cbn [span].
  destruct (f c); [|reflexivity].
  destruct (span f s) as [a b]. cbn [fst snd] in *. by rewrite app_cons, <- IH.
Qed.

Lemma rev_length (s : string) : String.length (String.rev s) = String.length s.
Proof.
  induction s as [|c s IH]; [reflexivity|].
  rewrite rev_cons, string_app_length, IH. simpl. lia.
Qed.

(** A path is its head followed by its last component. *)
Lemma head_basename (p : string) : p = head_through_last_slash p +:+ basename p.
Proof.
  unfold head_through_last_slash, basename.
  rewrite <- rev_app_distr, <- span_app. symmetry. apply rev_involutive.
Qed.

Lemma starts_with_refl (p : string) : starts_with p p.
Proof. exists "". symmetry. apply string_app_nil_r. Qed.

Lemma starts_with_trans (a b c : string) :
  starts_with a b -> starts_with b c -> starts_with a c.
Proof. intros [x ->] [y ->]. exists (x +:+ y). apply string_app_assoc. Qed.

Lemma starts_with_length (q p : string) :
  starts_with q p -> String.length q <= String.length p.
Proof. intros [rest ->]. rewrite string_app_length. lia. Qed.

(** [os.path.dirname(p)] is a text [p] starts with, and it ends before the
    last component begins. *)
Lemma dirname_head (p : string) : starts_with (dirname p) (head_through_last_slash p).
Proof.
  unfold dirname. set (head := head_through_last_slash p).
  assert (Hcut : starts_with (String.rev (snd (span is_slash (String.rev head)))) head).
  { exists (String.rev (fst (span is_slash (String.rev head)))).
    rewrite <- rev_app_distr, <- span_app. symmetry. apply rev_involutive. }
  destruct (String.rev (snd (span is_slash (String.rev head)))); [apply starts_with_refl|].
  exact Hcut.
Qed.

Lemma dirname_starts (p : string) : starts_with (dirname p) p.
Proof.
  eapply starts_with_trans; [apply dirname_head|].
  exists (basename p). apply head_basename.
Qed.

Lemma dirname_basename_length (p : string) :
  String.length (dirname p) + String.length (basename p) <= String.length p.
Proof.
  pose proof (starts_with_length _ _ (dirname_head p)) as Hle.
  pose proof (f_equal String.length (head_basename p)) as Hlen.
  rewrite string_app_length in Hlen. lia.
Qed.

(** The head [os.makedirs] turns to is a text the path starts with, and it
    is shorter than the path when the last component is not empty. *)
Lemma split_entry_starts (name : string) : starts_with (fst (split_entry name)) name.
Proof.
  unfold split_entry. destruct (bool_decide (basename name = "")); cbn [fst].
  - eapply starts_with_trans; apply dirname_starts.
  - apply dirname_starts.
Qed.

Lemma split_entry_shorter (name : string) :
  snd (split_entry name) <> "" ->
  String.length (fst (split_entry name)) < String.length name.
Proof.
  unfold split_entry. destruct (bool_decide (basename name = "")); cbn [fst snd]; intros Htail.
  - pose proof (dirname_basename_length (dirname name)) as H1.
    pose proof (starts_with_length _ _ (dirname_starts name)) as H2.
    destruct (basename (dirname name)); [done|]. simpl in H1. lia.
  - pose proof (dirname_basename_length name) as H1.
    destruct (basename name); [done|]. simpl in H1. lia.
Qed.

(** ** Library calls on the file system *)

(** *** Creating directories *)


Lemma is_dir_add (d q : string) (w : fs) :
  is_dir q (set_dirs (fun ds => {[d]} ∪ ds) w) = bool_decide (q = d) || is_dir q w.
Proof.
  unfold is_dir. cbn [set_dirs dirs].
  destruct (decide (q = d)) as [->|Hne].
  - rewrite (bool_decide_eq_true_2 (d = d)) by reflexivity. cbn [orb].
    apply bool_decide_eq_true_2, elem_of_union. left. by apply elem_of_singleton.
  - rewrite (bool_decide_eq_false_2 (q = d)) by assumption. cbn [orb].
    apply bool_decide_ext. rewrite elem_of_union, elem_of_singleton. tauto.
Qed.

(** [os.mkdir]: it adds the directory, or raises and changes nothing. *)
Lemma os_mkdir_effect (E : Env) (d : string) (w w' : fs) (r : result unit) :
  os_mkdir E d w = (r, w') ->
  (r = Ok tt /\ w' = set_dirs (fun ds => {[d]} ∪ ds) w /\ path_exists d w = false)
  \/ (exists e, r = Raise e /\ w' = w
      /\ (path_exists d w = false -> exn_class e <> "FileExistsError")).
Proof.
  unfold os_mkdir. intros H.
  repeat match type of H with
         | context [if ?x then _ else _] => destruct x eqn:?
         end; simplify_eq;
    first [ left; by repeat split
          | right; eexists; split; [reflexivity|]; split; [reflexivity|];
            first [ discriminate | congruence ] ].
Qed.

Lemma mkdir_exist_ok_effect (E : Env) (name : string) (w w' : fs) (r : result unit) :
  mkdir_exist_ok E name w = (r, w') ->
  (r = Ok tt /\ is_dir name w' = true
   /\ (w' = w \/ (w' = set_dirs (fun ds => {[name]} ∪ ds) w /\ path_exists name w = false)))
  \/ (exists e, r = Raise e /\ w' = w /\ is_dir name w = false
      /\ (path_exists name w = false -> exn_class e <> "FileExistsError")).
Proof.
  unfold mkdir_exist_ok, try_except.
  destruct (os_mkdir E name w) as [r1 w1] eqn:Hmk.
  apply os_mkdir_effect in Hmk as [(-> & -> & Hnew)|(e & -> & -> & Hclass)].
  - intros [= <- <-]. left. split; [reflexivity|]. split; [|by right].
    rewrite is_dir_add. by rewrite bool_decide_eq_true_2.
  - destruct (is_dir name w) eqn:Hdir; intros [= <- <-].
    + left. split; [reflexivity|]. split; [assumption | by left].
    + right. by exists e.
Qed.


Lemma mkdir_exist_ok_frame (E : Env) (name : string) (w w' : fs) (r : result unit) :
  mkdir_exist_ok E name w = (r, w') ->
  files w' = files w /\ tmp_count w' = tmp_count w
  /\ (forall q, q ∈ dirs w -> q ∈ dirs w')
  /\ (forall q, q ∈ dirs w' -> q ∈ dirs w \/ (q = name /\ r = Ok tt))
  /\ (r = Ok tt -> is_dir name w' = true)
  /\ (forall e, r = Raise e -> path_exists name w = false ->
      exn_class e <> "FileExistsError").
Proof.
  intros Hrun.
  apply mkdir_exist_ok_effect in Hrun
      as [(-> & Hdir & [->|[-> Hnew]])|(e & -> & -> & Hno & Hclass)].
  - repeat split; auto; discriminate.
  - cbn [set_dirs files tmp_count dirs].
    split; [done|]. split; [done|]. split; [|split; [|split]].
    + intros q Hq. apply elem_of_union. by right.
    + intros q [->%elem_of_singleton|Hq]%elem_of_union; [right | left]; done.
    + done.
    + discriminate.
  - split; [done|]. split; [done|]. split; [done|]. split; [by left|].
    split; [discriminate|]. by intros e' [= <-].
Qed.

Lemma head_missing_true (name : string) (w : fs) :
  head_missing name w = true ->
  snd (split_entry name) <> "" /\ path_exists (fst (split_entry name)) w = false.
Proof.
  unfold head_missing. destruct (split_entry name) as [head tail]. cbn [fst snd].
  intros [[_ Htail%negb_true_iff]%andb_prop Hex%negb_true_iff]%andb_prop.
  apply bool_decide_eq_false in Htail. apply orb_false_elim in Hex as [_ Hex]. by split.
Qed.


(** What [os.makedirs] does to the file system, whether it returns or
    raises: the files stay, no temporary directory is handed out, the
    directories stay, and a new directory is a text the path starts with
    (the path itself or one of its ancestors), shorter than the path when
    the call raised.  When it returns the path is a directory.  It does
    not raise [FileExistsError] for a path at which nothing is. *)
Lemma makedirs_from_effect (E : Env) (fuel : nat) (name : string) (w w' : fs)
    (r : result unit) :
  makedirs_from E fuel name w = (r, w') ->
  files w' = files w /\ tmp_count w' = tmp_count w
  /\ (forall q, q ∈ dirs w -> q ∈ dirs w')
  /\ (forall q, q ∈ dirs w' ->
      q ∈ dirs w
      \/ (starts_with q name /\ (r <> Ok tt -> String.length q < String.length name)))
  /\ (r = Ok tt -> is_dir name w' = true)
  /\ (forall e, r = Raise e -> path_exists name w = false ->
      exn_class e <> "FileExistsError").
Proof.
  assert (Hlast : forall name0 w0 r0 w0',
             mkdir_exist_ok E name0 w0 = (r0, w0') -> _)
    by (intros name0 w0 r0 w0'; apply mkdir_exist_ok_frame).
  revert name w w' r.
  induction fuel as [|fuel IH]; intros name w w' r; cbn [makedirs_from].
  - intros Hrun. destruct (Hlast _ _ _ _ Hrun) as (Hf & Ht & Hd & Hnew & Hok & Hclass).
    repeat split; auto.
    + intros q Hq. destruct (Hnew q Hq) as [?|[-> ->]]; [by left|right].
      split; [apply starts_with_refl | done].
  - destruct (head_missing name w) eqn:Hcond.
    2: { intros Hrun. destruct (Hlast _ _ _ _ Hrun) as (Hf & Ht & Hd & Hnew & Hok & Hclass).
         repeat split; auto.
         intros q Hq. destruct (Hnew q Hq) as [?|[-> ->]]; [by left|right].
         split; [apply starts_with_refl | done]. }
    apply head_missing_true in Hcond as [Htail Hmissing].
    pose proof (split_entry_shorter name Htail) as Hshort.
    pose proof (split_entry_starts name) as Hstarts.
    unfold bind at 1. unfold try_except at 1.
    destruct (makedirs_from E fuel (fst (split_entry name)) w) as [r1 w1] eqn:Hinner.
    apply IH in Hinner as (Hf1 & Ht1 & Hd1 & Hnew1 & Hok1 & Hclass1).
    assert (Hnew1' : forall q, q ∈ dirs w1 ->
               q ∈ dirs w \/ (starts_with q name /\ String.length q < String.length name)).
    { intros q Hq. destruct (Hnew1 q Hq) as [?|[Hs _]]; [by left|right].
      split; [by eapply starts_with_trans|].
      apply starts_with_length in Hs. lia. }
    assert (Hname1 : path_exists name w = false -> path_exists name w1 = false).
    { unfold path_exists, is_dir, is_file. rewrite Hf1.
      intros [Hnd ->]%orb_false_elim. rewrite orb_false_r.
      apply bool_decide_eq_false. apply bool_decide_eq_false in Hnd.
      intros Hin. destruct (Hnew1' _ Hin) as [?|[_ Hlt]]; [done|lia]. }
    destruct r1 as [[]|e].
    + destruct (bool_decide (snd (split_entry name) = ".")).
      * unfold modify. intros [= <- <-]. cbn [set_dirs files tmp_count dirs].
        split; [exact Hf1|]. split; [exact Ht1|]. split; [|split; [|split]].
        -- intros q Hq. apply elem_of_union. right. by apply Hd1.
        -- intros q [->%elem_of_singleton|Hq]%elem_of_union.
           ++ right. split; [apply starts_with_refl | done].
           ++ destruct (Hnew1' q Hq) as [?|[? ?]]; [by left|right]. by split.
        -- intros _. change (is_dir name (set_dirs (fun ds => {[name]} ∪ ds) w1) = true).
           rewrite is_dir_add. by rewrite bool_decide_eq_true_2.
        -- discriminate.
      * intros Hrun. destruct (Hlast _ _ _ _ Hrun) as (Hf & Ht & Hd & Hnew & Hok & Hclass).
        split; [congruence|]. split; [congruence|]. split; [|split; [|split]].
        -- auto.
        -- intros q Hq. destruct (Hnew q Hq) as [Hq1|[-> ->]].
           ++ destruct (Hnew1' q Hq1) as [?|[? ?]]; [by left|right]. by split.
           ++ right. split; [apply starts_with_refl | done].
        -- exact Hok.
        -- intros e He Hno. apply (Hclass e He). by apply Hname1.
    + assert (Hclass : exn_class e <> "FileExistsError") by (by apply (Hclass1 e)).
      unfold pass_file_exists. rewrite bool_decide_eq_false_2 by exact Hclass.
      unfold raise. intros [= <- <-].
      split; [exact Hf1|]. split; [exact Ht1|]. split; [exact Hd1|]. split; [|split].
      * intros q Hq. destruct (Hnew1' q Hq) as [?|[? ?]]; [by left|right]. by split.
      * discriminate.
      * by intros e' [= <-].
Qed.

(** The recursive call of [os.makedirs] is made for a head at which
    nothing is, so its [except FileExistsError] clause is never taken. *)
Lemma makedirs_head_run (E : Env) (fuel : nat) (head : string) (w w1 : fs) (r : result unit) :
  path_exists head w = false ->
  try_except (makedirs_from E fuel head) pass_file_exists w = (r, w1) ->
  makedirs_from E fuel head w = (r, w1).
Proof.
  intros Hmissing. unfold try_except.
  destruct (makedirs_from E fuel head w) as [[[]|e] w0] eqn:Hrun; [done|].
  apply makedirs_from_effect in Hrun as (_ & _ & _ & _ & _ & Hclass).
  unfold pass_file_exists. rewrite bool_decide_eq_false_2 by (by apply (Hclass e)).
  done.
Qed.


(** [os.makedirs] a second time, after it raised: it raises again, and
    changes nothing this time. *)
Lemma makedirs_from_raises_again (E : Env) (fuel : nat) (name : string) (w w' : fs)
    (e : exn) :
  makedirs_from E fuel name w = (Raise e, w') ->
  makedirs_from E fuel name w' = (Raise e, w').
Proof.
  revert name w w' e. induction fuel as [|fuel IH]; intros name w w' e; cbn [makedirs_from].
  - intros Hrun.
    pose proof Hrun as [([=] & _)|(e' & _ & -> & _)]%mkdir_exist_ok_effect. exact Hrun.
  - destruct (head_missing name w) eqn:Hcond.
    2: { intros Hrun.
         pose proof Hrun as [([=] & _)|(e' & _ & -> & _)]%mkdir_exist_ok_effect.
         by rewrite Hcond. }
    pose proof (head_missing_true _ _ Hcond) as [Htail Hmissing].
    intros [(e' & Hinner & [= <-])|([] & w1 & Hinner & Hrun)]%run_bind.
    + apply makedirs_head_run in Hinner; [|exact Hmissing].
      pose proof (makedirs_from_effect _ _ _ _ _ _ Hinner)
        as (Hf1 & _ & _ & Hnew1 & _ & Hclass).
      assert (Hmissing' : path_exists (fst (split_entry name)) w' = false).
      { revert Hmissing. unfold path_exists, is_dir, is_file. rewrite Hf1.
        intros [Hnd ->]%orb_false_elim. rewrite orb_false_r.
        apply bool_decide_eq_false. apply bool_decide_eq_false in Hnd.
        intros Hin. destruct (Hnew1 _ Hin) as [?|[_ Hlt]]; [done|].
        specialize (Hlt ltac:(discriminate)). lia. }
      assert (Hcond' : head_missing name w' = true).
      { revert Hcond Hmissing'. unfold head_missing.
        destruct (split_entry name) as [head tail]. cbn [fst].
        intros [H1 H2]%andb_prop ->. rewrite H1. cbn [andb].
        apply negb_true_iff in H2. apply orb_false_elim in H2 as [-> _]. reflexivity. }
      rewrite Hcond'. unfold bind at 1. unfold try_except at 1.
      rewrite (IH _ _ _ _ Hinner).
      unfold pass_file_exists.
      rewrite bool_decide_eq_false_2 by (by apply (Hclass e)). reflexivity.
    + apply makedirs_head_run in Hinner; [|exact Hmissing].
      pose proof (makedirs_from_effect _ _ _ _ _ _ Hinner) as (_ & _ & _ & _ & Hdir1 & _).
      specialize (Hdir1 eq_refl).
      destruct (bool_decide (snd (split_entry name) = ".")); [discriminate|].
      pose proof Hrun as [([=] & _)|(e' & _ & -> & _)]%mkdir_exist_ok_effect.
      assert (Hcond' : head_missing name w1 = false).
      { unfold head_missing. destruct (split_entry name) as [head tail]. cbn [fst] in Hdir1.
        apply andb_false_intro2, negb_false_iff, orb_true_intro. right.
        unfold path_exists. by rewrite Hdir1. }
      by rewrite Hcond'.
Qed.

(** The fuel [os_makedirs] gives the recursion is enough: more of it
    changes nothing. *)
Lemma makedirs_from_fuel (E : Env) (fuel fuel' : nat) (name : string) (w : fs) :
  String.length name <= fuel -> String.length name <= fuel' ->
  makedirs_from E fuel name w = makedirs_from E fuel' name w.
Proof.
  revert fuel' name w. induction fuel as [|fuel IH]; intros fuel' name w Hle Hle'.
  - destruct name; [|simpl in Hle; lia].
    destruct fuel'; [reflexivity|]. cbn [makedirs_from]. reflexivity.
  - destruct fuel' as [|fuel'].
    + destruct name; [|simpl in Hle'; lia]. reflexivity.
    + cbn [makedirs_from]. destruct (head_missing name w) eqn:Hcond; [|reflexivity].
      apply head_missing_true in Hcond as [Htail%split_entry_shorter _].
      unfold bind, try_except. rewrite (IH fuel') by lia. reflexivity.
Qed.

Lemma os_makedirs_effect (E : Env) (d : string) (w w1 : fs) (r : result unit) :
  os_makedirs E d w = (r, w1) ->
  files w1 = files w /\ tmp_count w1 = tmp_count w
  /\ (forall q, q ∈ dirs w -> q ∈ dirs w1)
  /\ (forall q, q ∈ dirs w1 ->
      q ∈ dirs w \/ (starts_with q d /\ (r <> Ok tt -> String.length q < String.length d)))
  /\ (r = Ok tt -> is_dir d w1 = true).
Proof.
  unfold os_makedirs. destruct (bool_decide (d = "")).
  - intros [= <- <-]. repeat split; auto. discriminate.
  - intros (Hf & Ht & Hd & Hnew & Hok & _)%makedirs_from_effect. by repeat split.
Qed.

Lemma os_makedirs_files (E : Env) (d : string) (w w1 : fs) (r : result unit) :
  os_makedirs E d w = (r, w1) -> files w1 = files w.
Proof. by intros (Hf & _)%os_makedirs_effect. Qed.


(** A directory that could not be created cannot be created right after
    that either. *)
Lemma os_makedirs_raises_again (E : Env) (d : string) (w w1 : fs) (e : exn) :
  os_makedirs E d w = (Raise e, w1) -> os_makedirs E d w1 = (Raise e, w1).
Proof.
  unfold os_makedirs. destruct (bool_decide (d = "")); [by intros [= <- <-]|].
  apply makedirs_from_raises_again.
Qed.


(** *** Writing and copying files *)

Lemma opened_for_writing_effect (refused : bool) (p : string) (w : fs) :
  dirs (opened_for_writing refused p w) = dirs w
  /\ tmp_count (opened_for_writing refused p w) = tmp_count w
  /\ (forall q, q <> p -> files (opened_for_writing refused p w) !! q = files w !! q)
  /\ (files (opened_for_writing refused p w) !! p = files w !! p
      \/ files (opened_for_writing refused p w) !! p = Some empty_file).
Proof.
  unfold opened_for_writing. destruct (_ || _); cbn [set_files dirs tmp_count files].
  - repeat split; auto.
  - repeat split; [|right; apply lookup_insert_eq].
    intros q Hq. by rewrite lookup_insert_ne.
Qed.

(** What writing a file does: no other file changes; the file holds the
    content when the call returns; when it raises, the file is as before
    or is left empty. *)
Lemma write_file_effect (E : Env) (p : string) (content : bytes) (w w1 : fs)
    (r : result unit) :
  write_file E p content w = (r, w1) ->
  dirs w1 = dirs w /\ tmp_count w1 = tmp_count w
  /\ (forall q, q <> p -> files w1 !! q = files w !! q)
  /\ (r = Ok tt -> files w1 !! p = Some content)
  /\ (r <> Ok tt -> files w1 !! p = files w !! p \/ files w1 !! p = Some empty_file).
Proof.
  unfold write_file. intros H.
  destruct (opened_for_writing_effect (os_refuses E (OpOpen p)) p w) as (Hd & Ht & Hq & Hp).
  repeat match type of H with
         | context [if ?x then _ else _] => destruct x
         end; simplify_eq; cbn [files tmp_count dirs set_files];
    (split; [done|split; [done|split; [|split]]]); try done; auto.
  - intros q Hq'. by rewrite lookup_insert_ne.
  - intros _. apply lookup_insert_eq.
Qed.

Lemma write_file_ok (E : Env) (p : string) (content : bytes) (w : fs) :
  os_refuses E (OpWrite p) = false -> is_dir p w = false -> parent_exists p w = true ->
  write_file E p content w = (Ok tt, set_files (fun fm => <[p := content]> fm) w).
Proof. intros H1 H2 H3. unfold write_file. by rewrite H1, H2, H3. Qed.

(** A refused write that came when the file was opened changes nothing. *)
Lemma write_file_refused_on_opening (E : Env) (p : string) (content : bytes) (w : fs) :
  os_refuses E (OpWrite p) = true -> os_refuses E (OpOpen p) = true ->
  write_file E p content w = (Raise (OSError p), w).
Proof. intros H1 H2. unfold write_file, opened_for_writing. by rewrite H1, H2. Qed.

Lemma shutil_copy2_files (E : Env) (src dst : string) (w w1 : fs) :
  shutil_copy2 E src dst w = (Ok tt, w1) ->
  is_dir dst w = false ->
  exists content, files w !! src = Some content /\ files w1 = <[dst := content]> (files w).
Proof.
  unfold shutil_copy2. intros H Hd. rewrite Hd in H.
  destruct (files w !! src) as [content|]; [|discriminate].
  repeat (match type of H with
          | context [if ?b then _ else _] => destruct b
          end); try discriminate.
  injection H as <-. by exists content.
Qed.

(** Copying removes nothing. *)
Lemma shutil_copy2_keeps (E : Env) (src dst : string) (w w1 : fs) (r : result unit) :
  shutil_copy2 E src dst w = (r, w1) ->
  dirs w1 = dirs w /\ tmp_count w1 = tmp_count w
  /\ (forall p, is_Some (files w !! p) -> is_Some (files w1 !! p)).
Proof.
  unfold shutil_copy2. intros H.
  destruct (files w !! src) as [content|]; [|injection H as _ <-; auto].
  set (target := if is_dir dst w then path_join dst (basename src) else dst) in *.
  destruct (opened_for_writing_effect (os_refuses E (OpOpen target)) target w)
    as (Hd & Ht & Hq & Hp).
  repeat (match type of H with
          | context [if ?b then _ else _] => destruct b
          end); injection H as _ <-; auto.
  - split; [done|]. split; [done|]. intros p Hsome.
    destruct (decide (p = target)) as [->|Hne]; [|by rewrite Hq].
    destruct Hp as [-> | ->]; [assumption | by eexists].
  - cbn [set_files dirs tmp_count files]. split; [done|]. split; [done|]. intros p Hsome.
    destruct (decide (p = target)) as [->|Hne];
      [rewrite lookup_insert_eq; by eexists | by rewrite lookup_insert_ne].
Qed.


(** ** The wrappers return *)

Lemma generate_mock_audio_returns (E : Env) (output_path : string) (w : fs) :
  exists w', generate_mock_audio E output_path w = (Ok output_path, w').
Proof. unfold generate_mock_audio. unfold_monad. crush_cases. Qed.

Lemma generate_mock_video_returns (E : Env) (output_path : string) (w : fs) :
  exists w', generate_mock_video E output_path w = (Ok output_path, w').
Proof. unfold generate_mock_video. unfold_monad. crush_cases. Qed.

Lemma fallback_copy_returns (E : Env) (source_path dest_path : string) (w : fs) :
  exists r w',
    fallback_copy E source_path dest_path w = (Ok r, w') /\ (r = dest_path \/ r = "").
Proof. unfold fallback_copy. unfold_monad. crush_cases. Qed.

(** Replaces a call of a fallback by what it is known to return. *)
Ltac use_returns :=
  match goal with
  | |- context [generate_mock_video ?E ?o ?w] =>
      let w' := fresh "w" in
      let H := fresh "H" in
      destruct (generate_mock_video_returns E o w) as [w' H]; rewrite H; clear H
  | |- context [generate_mock_audio ?E ?o ?w] =>
      let w' := fresh "w" in
      let H := fresh "H" in
      destruct (generate_mock_audio_returns E o w) as [w' H]; rewrite H; clear H
  | |- context [fallback_copy ?E ?a ?b ?w] =>
      let r := fresh "r" in
      let w' := fresh "w" in
      let H := fresh "H" in
      let Hr := fresh "Hr" in
      destruct (fallback_copy_returns E a b w) as (r & w' & H & Hr); rewrite H; clear H
  end.

Ltac crush_wrapper :=
  repeat first
    [ progress cbn [fst snd]
    | use_returns
    | match goal with
      | |- context [match ?x with _ => _ end] => destruct_innermost x
      end ];
  eauto.

Lemma generate_speech_returns (E : Env) (text : json) (output_path : string)
    (voice : option string) (w : fs) :
  exists w', generate_speech E text output_path voice w = (Ok output_path, w').
Proof. unfold generate_speech. unfold_monad. crush_wrapper. Qed.

Lemma render_scene_returns (E : Env) (scene_code output_path quality0 : string) (w : fs) :
  exists w', render_scene E scene_code output_path quality0 w = (Ok output_path, w').
Proof.
  unfold render_scene, with_frame, render_with_manim, in_fs, load_shutil, import_shutil,
    decode_stderr.
  unfold_monad. crush_wrapper.
Qed.

Lemma combine_audio_video_returns (E : Env) (video_path audio_path output_path : string)
    (w : fs) :
  exists r w',
    combine_audio_video E video_path audio_path output_path w = (Ok r, w')
    /\ (r = output_path \/ r = "").
Proof. unfold combine_audio_video, decode_stderr. unfold_monad. crush_wrapper. Qed.

Lemma concat_videos_returns (E : Env) (video_paths : list string) (output_path : string)
    (w : fs) :
  exists r w',
    concat_videos E video_paths output_path w = (Ok r, w')
    /\ (r = output_path \/ r = "").
Proof.
  unfold concat_videos, decode_stderr. unfold_monad.
  destruct video_paths as [|first others]; [eauto 6|].
  crush_wrapper.
Qed.

Lemma generate_mock_code_returns (E : Env) (scene narration visual_desc : json) (index : Z)
    (w : fs) :
  py_getitem scene "narration" = Ok narration ->
  py_getitem scene "visualDescription" = Ok visual_desc ->
  exists code, generate_mock_code E scene index w = (Ok code, w).
Proof.
  intros Hn Hv. unfold generate_mock_code. unfold_monad. rewrite Hn, Hv.
  crush_cases.
Qed.

Lemma generate_manim_code_returns (E : Env) (scene narration visual_desc : json) (index : Z)
    (w : fs) :
  py_getitem scene "narration" = Ok narration ->
  py_getitem scene "visualDescription" = Ok visual_desc ->
  exists code, generate_manim_code E scene index w = (Ok code, w).
Proof.
  intros Hn Hv.
  destruct (generate_mock_code_returns E scene narration visual_desc index w Hn Hv)
    as [mock Hmock].
  unfold generate_manim_code. unfold_monad.
  destruct (negb (truthy (GEMINI_API_KEY E))).
  - rewrite Hmock. eauto.
  - rewrite Hn, Hv.
    repeat (match goal with
            | |- context [match ?x with _ => _ end] => destruct_innermost x
            end; cbn [fst snd]);
      rewrite ?Hmock; eauto.
Qed.

Lemma combine_audio_video_tool_succeeds
    (E : Env) (video_path audio_path output_path : string) (w w1 w2 : fs) (process0 : process) :
  os_makedirs E (dirname output_path) w = (Ok tt, w1) ->
  subprocess_exec E (combine_cmd video_path audio_path output_path) w1 = (Ok process0, w2) ->
  returncode process0 = 0%Z ->
  combine_audio_video E video_path audio_path output_path w = (Ok output_path, w2).
Proof.
  intros Hmk Hexec Hrc. unfold combine_audio_video. unfold_monad.
  by rewrite Hmk, Hexec, Hrc.
Qed.

Lemma fallback_copy_succeeds (E : Env) (source_path dest_path : string) (w w1 w2 : fs) :
  os_makedirs E (dirname dest_path) w = (Ok tt, w1) ->
  shutil_copy2 E source_path dest_path w1 = (Ok tt, w2) ->
  fallback_copy E source_path dest_path w = (Ok dest_path, w2).
Proof.
  intros Hmk Hcp. unfold fallback_copy. unfold_monad. by rewrite Hmk, Hcp.
Qed.

Lemma fallback_copy_fails (E : Env) (source_path dest_path : string) (w w1 w2 : fs) (e : exn) :
  os_makedirs E (dirname dest_path) w = (Ok tt, w1) ->
  shutil_copy2 E source_path dest_path w1 = (Raise e, w2) ->
  fallback_copy E source_path dest_path w = (Ok "", w2).
Proof.
  intros Hmk Hcp. unfold fallback_copy. unfold_monad. by rewrite Hmk, Hcp.
Qed.

(** Without the directory of the destination nothing is copied. *)
Lemma fallback_copy_without_directory (E : Env) (source_path dest_path : string)
    (w w1 : fs) (e : exn) :
  os_makedirs E (dirname dest_path) w = (Raise e, w1) ->
  fallback_copy E source_path dest_path w = (Ok "", w1)
  /\ fallback_copy E source_path dest_path w1 = (Ok "", w1).
Proof.
  intros Hmk. pose proof (os_makedirs_raises_again _ _ _ _ _ Hmk) as Hagain.
  unfold fallback_copy, try_except. unfold bind at 1 3. by rewrite Hmk, Hagain.
Qed.

(** [fallback_copy] does not raise, so an [except] clause around it is
    never entered. *)
Lemma try_except_fallback_copy (E : Env) (source_path dest_path : string)
    (handler : exn -> M fs string) (w : fs) :
  try_except (fallback_copy E source_path dest_path) handler w
  = fallback_copy E source_path dest_path w.
Proof.
  unfold try_except.
  by destruct (fallback_copy_returns E source_path dest_path w) as (p & w' & -> & _).
Qed.

Lemma combine_audio_video_without_directory
    (E : Env) (video_path audio_path output_path : string) (w w1 : fs) (e : exn) :
  os_makedirs E (dirname output_path) w = (Raise e, w1) ->
  combine_audio_video E video_path audio_path output_path w = (Ok "", w1).
Proof.
  intros Hmk.
  destruct (fallback_copy_without_directory E video_path output_path _ _ _ Hmk) as [_ Hcopy].
  unfold combine_audio_video. unfold try_except at 1. unfold bind at 1. by rewrite Hmk.
Qed.

Lemma combine_audio_video_tool_cannot_start
    (E : Env) (video_path audio_path output_path : string) (w w1 w2 : fs) (e : exn) :
  os_makedirs E (dirname output_path) w = (Ok tt, w1) ->
  subprocess_exec E (combine_cmd video_path audio_path output_path) w1 = (Raise e, w2) ->
  combine_audio_video E video_path audio_path output_path w
  = fallback_copy E video_path output_path w2.
Proof.
  intros Hmk Hexec.
  destruct (fallback_copy_returns E video_path output_path w2) as (p & w' & Hcopy & _).
  unfold combine_audio_video. unfold try_except at 1. unfold bind at 1. rewrite Hmk.
  unfold try_except at 1. unfold bind at 1. rewrite Hexec. by rewrite Hcopy.
Qed.

Lemma combine_audio_video_tool_fails
    (E : Env) (video_path audio_path output_path : string) (w w1 w2 : fs)
    (process0 : process) :
  os_makedirs E (dirname output_path) w = (Ok tt, w1) ->
  subprocess_exec E (combine_cmd video_path audio_path output_path) w1 = (Ok process0, w2) ->
  returncode process0 <> 0%Z ->
  combine_audio_video E video_path audio_path output_path w
  = fallback_copy E video_path output_path w2.
Proof.
  intros Hmk Hexec Hcode.
  destruct (fallback_copy_returns E video_path output_path w2) as (p & w' & Hcopy & _).
  unfold combine_audio_video. unfold try_except at 1. unfold bind at 1. rewrite Hmk.
  unfold try_except at 1. unfold bind at 1. rewrite Hexec.
  apply Z.eqb_neq in Hcode. rewrite Hcode.
  unfold bind at 1, decode_stderr. destruct (stderr_decodes process0).
  - unfold ret at 1. by rewrite Hcopy.
  - unfold raise at 1. by rewrite Hcopy.
Qed.

Lemma concat_videos_without_directory
    (E : Env) (first : string) (others : list string) (output_path : string) (w w1 : fs)
    (e : exn) :
  os_makedirs E (dirname output_path) w = (Raise e, w1) ->
  concat_videos E (first :: others) output_path w = (Ok "", w1).
Proof.
  intros Hmk.
  destruct (fallback_copy_without_directory E first output_path _ _ _ Hmk) as [_ Hcopy].
  unfold concat_videos. unfold try_except at 1. unfold bind at 1. by rewrite Hmk.
Qed.

Lemma concat_videos_single (E : Env) (video_path output_path : string) (w w1 : fs) :
  os_makedirs E (dirname output_path) w = (Ok tt, w1) ->
  concat_videos E [video_path] output_path w = fallback_copy E video_path output_path w1.
Proof.
  intros Hmk.
  destruct (fallback_copy_returns E video_path output_path w1) as (p & w' & Hcopy & _).
  unfold concat_videos. cbn [length Nat.eqb].
  unfold try_except at 1. unfold bind at 1. by rewrite Hmk, Hcopy.
Qed.

(** [concat_videos] on two clips or more, once the output directory is
    there: the four places where it turns to the copy of the first clip,
    and what it returns when the media tool has run. *)
Lemma concat_videos_several
    (E : Env) (first second : string) (others : list string) (output_path : string)
    (w w1 : fs) :
  let video_paths := first :: second :: others in
  os_makedirs E (dirname output_path) w = (Ok tt, w1) ->
  (forall e w2,
      tempfile_mkdtemp E w1 = (Raise e, w2) ->
      concat_videos E video_paths output_path w = fallback_copy E first output_path w2)
  /\ (forall temp_dir w2,
      tempfile_mkdtemp E w1 = (Ok temp_dir, w2) ->
      let list_file := path_join temp_dir "video_list.txt" in
      (forall e w3,
          write_file E list_file (list_byte_of_string (concat_manifest E video_paths)) w2
            = (Raise e, w3) ->
          concat_videos E video_paths output_path w = fallback_copy E first output_path w3)
      /\ (forall w3,
          write_file E list_file (list_byte_of_string (concat_manifest E video_paths)) w2
            = (Ok tt, w3) ->
          (forall e w4,
              subprocess_exec E (concat_cmd list_file output_path) w3 = (Raise e, w4) ->
              concat_videos E video_paths output_path w
              = fallback_copy E first output_path w4)
          /\ (forall process0 w4,
              subprocess_exec E (concat_cmd list_file output_path) w3 = (Ok process0, w4) ->
              concat_videos E video_paths output_path w
              = if (returncode process0 =? 0)%Z
                then (Ok output_path, after_concat_cleanup E temp_dir w4)
                else fallback_copy E first output_path (after_concat_cleanup E temp_dir w4)))).
Proof.
  intros video_paths Hmk.
  assert (Hstart : concat_videos E video_paths output_path w
                   = try_except
                       (temp_dir <- tempfile_mkdtemp E ;;
                        let list_file_path := path_join temp_dir "video_list.txt" in
                        write_file E list_file_path
                          (list_byte_of_string (concat_manifest E video_paths)) ;;;
                        process <- subprocess_exec E (concat_cmd list_file_path output_path) ;;
                        try_except
                          (os_remove E list_file_path ;;; os_rmdir E temp_dir)
                          (fun _ => ret tt) ;;;
                        if (returncode process =? 0)%Z then ret output_path
                        else
                          decode_stderr process ;;;
                          fallback_copy E first output_path)
                       (fun _ => fallback_copy E first output_path) w1).
  { unfold concat_videos, video_paths. cbn [length Nat.eqb].
    unfold try_except at 1. unfold bind at 1. rewrite Hmk.
    match goal with
    | |- context [try_except ?body ?h w1] =>
        destruct (try_except body h w1) as [[p|e] w'] eqn:Hrun; [reflexivity|]
    end.
    exfalso. unfold try_except in Hrun.
    match type of Hrun with
    | context [match ?x with _ => _ end] => destruct x as [[p|e'] w0]
    end; [discriminate|].
    destruct (fallback_copy_returns E first output_path w0) as (p & w'' & Hp & _).
    rewrite Hp in Hrun. discriminate. }
  rewrite Hstart. clear Hstart.
  assert (Hcopy : forall w0 r w0',
             fallback_copy E first output_path w0 = (r, w0') -> exists p, r = Ok p).
  { intros w0 r w0' Hrun.
    destruct (fallback_copy_returns E first output_path w0) as (p & w' & Hp & _).
    rewrite Hp in Hrun. injection Hrun as <- _. by exists p. }
  split.
  - intros e w2 Htmp. unfold try_except at 1. unfold bind at 1. by rewrite Htmp.
  - intros temp_dir w2 Htmp list_file. split.
    + intros e w3 Hwrite. unfold try_except at 1. unfold bind at 1. rewrite Htmp.
      fold list_file. unfold bind at 1. by rewrite Hwrite.
    + intros w3 Hwrite. split.
      * intros e w4 Hexec. unfold try_except at 1. unfold bind at 1. rewrite Htmp.
        fold list_file. unfold bind at 1. rewrite Hwrite. unfold bind at 1. by rewrite Hexec.
      * intros process0 w4 Hexec. unfold try_except at 1. unfold bind at 1. rewrite Htmp.
        fold list_file. unfold bind at 1. rewrite Hwrite. unfold bind at 1. rewrite Hexec.
        unfold bind at 1. unfold after_concat_cleanup. fold list_file.
        destruct (try_except (os_remove E list_file ;;; os_rmdir E temp_dir)
                    (fun _ => ret tt) w4) as [[[]|e] w5] eqn:Hclean.
        2: { exfalso. revert Hclean. unfold try_except.
             destruct ((os_remove E list_file ;;; os_rmdir E temp_dir) w4) as [[[]|e'] w0];
               discriminate. }
        cbn [snd].
        destruct (returncode process0 =? 0)%Z; [reflexivity|].
        unfold bind at 1, decode_stderr.
        destruct (stderr_decodes process0).
        -- unfold ret at 1.
           destruct (fallback_copy E first output_path w5) as [[p|e] w'] eqn:Hrun;
             [reflexivity | by destruct (Hcopy _ _ _ Hrun)].
        -- unfold raise at 1.
           destruct (fallback_copy E first output_path w5) as [[p|e] w'] eqn:Hrun;
             [reflexivity | by destruct (Hcopy _ _ _ Hrun)].
Qed.

(** C5, as the code has it.  In every environment: [generate_script],
    [generate_speech], [render_scene], [combine_audio_video] and
    [concat_videos] return and do not raise; [generate_manim_code] returns
    for a scene that carries [narration] and [visualDescription];
    [generate_speech] and [render_scene] return the output path;
    [combine_audio_video] and [concat_videos] return the output path or the
    empty string, and which of the two is settled case by case.
    [fallback_copy] returns the destination when the copy succeeds, the
    destination then holding the bytes of the source, and the empty string
    when the directory cannot be created or the copy raises.
    [combine_audio_video] returns the output path when the media tool
    exits with code zero, the empty string when the output directory
    cannot be created, and what [fallback_copy] of the video clip returns
    when the tool cannot be started or exits with another code.
    [concat_videos] returns the empty string for an empty list and when
    the output directory cannot be created, what [fallback_copy] returns
    for one clip, and for two clips or more the output path when the tool
    exits with code zero and what [fallback_copy] of the first clip returns
    in every other case. *)
Theorem wrappers_return (E : Env) :
  (forall prompt0 w, exists script0, generate_script E prompt0 w = (Ok script0, w))
  /\ (forall scene narration visual_desc index w,
      py_getitem scene "narration" = Ok narration ->
      py_getitem scene "visualDescription" = Ok visual_desc ->
      exists code, generate_manim_code E scene index w = (Ok code, w))
  /\ (forall text output_path voice w,
      exists w', generate_speech E text output_path voice w = (Ok output_path, w'))
  /\ (forall scene_code output_path quality0 w,
      exists w', render_scene E scene_code output_path quality0 w = (Ok output_path, w'))
  /\ (forall video_path audio_path output_path w,
      exists r w',
        combine_audio_video E video_path audio_path output_path w = (Ok r, w')
        /\ (r = output_path \/ r = ""))
  /\ (forall video_paths output_path w,
      exists r w',
        concat_videos E video_paths output_path w = (Ok r, w')
        /\ (r = output_path \/ r = ""))
  /\ (forall source_path dest_path w,
      (forall e w1,
          os_makedirs E (dirname dest_path) w = (Raise e, w1) ->
          fallback_copy E source_path dest_path w = (Ok "", w1))
      /\ (forall w1 e w2,
          os_makedirs E (dirname dest_path) w = (Ok tt, w1) ->
          shutil_copy2 E source_path dest_path w1 = (Raise e, w2) ->
          fallback_copy E source_path dest_path w = (Ok "", w2))
      /\ (forall w1 w2,
          os_makedirs E (dirname dest_path) w = (Ok tt, w1) ->
          shutil_copy2 E source_path dest_path w1 = (Ok tt, w2) ->
          fallback_copy E source_path dest_path w = (Ok dest_path, w2)
          /\ (is_dir dest_path w1 = false ->
              is_Some (files w !! source_path)
              /\ files w2 !! dest_path = files w !! source_path)))
  /\ (forall video_path audio_path output_path w,
      (forall e w1,
          os_makedirs E (dirname output_path) w = (Raise e, w1) ->
          combine_audio_video E video_path audio_path output_path w = (Ok "", w1))
      /\ (forall w1,
          os_makedirs E (dirname output_path) w = (Ok tt, w1) ->
          (forall e w2,
              subprocess_exec E (combine_cmd video_path audio_path output_path) w1
                = (Raise e, w2) ->
              combine_audio_video E video_path audio_path output_path w
              = fallback_copy E video_path output_path w2)
          /\ (forall process0 w2,
              subprocess_exec E (combine_cmd video_path audio_path output_path) w1
                = (Ok process0, w2) ->
              combine_audio_video E video_path audio_path output_path w
              = if (returncode process0 =? 0)%Z then (Ok output_path, w2)
                else fallback_copy E video_path output_path w2)))
  /\ (forall output_path w, concat_videos E [] output_path w = (Ok "", w))
  /\ (forall first others output_path w e w1,
      os_makedirs E (dirname output_path) w = (Raise e, w1) ->
      concat_videos E (first :: others) output_path w = (Ok "", w1))
  /\ (forall video_path output_path w w1,
      os_makedirs E (dirname output_path) w = (Ok tt, w1) ->
      concat_videos E [video_path] output_path w
      = fallback_copy E video_path output_path w1)
  /\ (forall first second others output_path w w1,
      let video_paths := first :: second :: others in
      os_makedirs E (dirname output_path) w = (Ok tt, w1) ->
      (forall e w2,
          tempfile_mkdtemp E w1 = (Raise e, w2) ->
          concat_videos E video_paths output_path w = fallback_copy E first output_path w2)
      /\ (forall temp_dir w2,
          tempfile_mkdtemp E w1 = (Ok temp_dir, w2) ->
          let list_file := path_join temp_dir "video_list.txt" in
          (forall e w3,
              write_file E list_file (list_byte_of_string (concat_manifest E video_paths)) w2
                = (Raise e, w3) ->
              concat_videos E video_paths output_path w
              = fallback_copy E first output_path w3)
          /\ (forall w3,
              write_file E list_file (list_byte_of_string (concat_manifest E video_paths)) w2
                = (Ok tt, w3) ->
              (forall e w4,
                  subprocess_exec E (concat_cmd list_file output_path) w3 = (Raise e, w4) ->
                  concat_videos E video_paths output_path w
                  = fallback_copy E first output_path w4)
              /\ (forall process0 w4,
                  subprocess_exec E (concat_cmd list_file output_path) w3
                    = (Ok process0, w4) ->
                  concat_videos E video_paths output_path w
                  = if (returncode process0 =? 0)%Z
                    then (Ok output_path, after_concat_cleanup E temp_dir w4)
                    else fallback_copy E first output_path
                           (after_concat_cleanup E temp_dir w4))))).
Proof.
  split; [|split; [|split; [|split; [|split; [|split; [|split; [|split; [|split;
    [|split; [|split]]]]]]]]]].
  - intros prompt0 w. apply generate_script_returns.
  - intros. by eapply generate_manim_code_returns.
  - intros. apply generate_speech_returns.
  - intros. apply render_scene_returns.
  - intros. apply combine_audio_video_returns.
  - intros. apply concat_videos_returns.
  - intros source_path dest_path w. split; [|split].
    + intros e w1 Hmk. by destruct (fallback_copy_without_directory E source_path _ _ _ _ Hmk).
    + intros w1 e w2. apply fallback_copy_fails.
    + intros w1 w2 Hmk Hcp. split; [by eapply fallback_copy_succeeds|].
      intros Hnd. destruct (shutil_copy2_files _ _ _ _ _ Hcp Hnd) as (content & Hsrc & Hw2).
      rewrite (os_makedirs_files _ _ _ _ _ Hmk) in Hsrc, Hw2.
      rewrite Hw2, lookup_insert_eq, Hsrc. split; [by eexists | reflexivity].
  - intros video_path audio_path output_path w. split.
    + intros e w1. apply combine_audio_video_without_directory.
    + intros w1 Hmk. split.
      * intros e w2. by apply combine_audio_video_tool_cannot_start.
      * intros process0 w2 Hexec. destruct (returncode process0 =? 0)%Z eqn:Hcode.
        -- apply Z.eqb_eq in Hcode. by eapply combine_audio_video_tool_succeeds.
        -- apply Z.eqb_neq in Hcode. by eapply combine_audio_video_tool_fails.
  - reflexivity.
  - intros first others output_path w e w1. apply concat_videos_without_directory.
  - intros video_path output_path w w1. apply concat_videos_single.
  - intros first second others output_path w w1. apply concat_videos_several.
Qed.

(** The theorem on a machine with nothing installed: muxing a rendered
    placeholder falls back to the copy, which returns the output path and
    leaves the bytes of the placeholder there. *)
Lemma wrappers_return_witness :
  exists w',
    combine_audio_video bare_env "jobs/j1/video/scene_1.mp4" "jobs/j1/audio/scene_1.mp3"
      "jobs/j1/output/combined_scene_1.mp4"
      (mkFs {["jobs/j1/video/scene_1.mp4" := mock_mp4]} {["jobs"]} 0)
    = (Ok "jobs/j1/output/combined_scene_1.mp4", w')
    /\ files w' !! "jobs/j1/output/combined_scene_1.mp4" = Some mock_mp4.
Proof.
  pose (w := mkFs {["jobs/j1/video/scene_1.mp4" := mock_mp4]} {["jobs"]} 0).
  pose (w1 := (os_makedirs bare_env "jobs/j1/output" w).2).
  pose (w2 := (shutil_copy2 bare_env "jobs/j1/video/scene_1.mp4"
                 "jobs/j1/output/combined_scene_1.mp4" w1).2).
  assert (Hmk : os_makedirs bare_env (dirname "jobs/j1/output/combined_scene_1.mp4") w
                = (Ok tt, w1)) by (vm_compute; reflexivity).
  pose proof (wrappers_return bare_env) as (_ & _ & _ & _ & _ & _ & Hcopy & Hcombine & _).
  destruct (Hcombine "jobs/j1/video/scene_1.mp4" "jobs/j1/audio/scene_1.mp3"
              "jobs/j1/output/combined_scene_1.mp4" w) as [_ Htool].
  destruct (Htool w1 Hmk) as [Hstart _].
  specialize (Hstart (FileNotFoundError "ffmpeg") w1 eq_refl).
  destruct (Hcopy "jobs/j1/video/scene_1.mp4" "jobs/j1/output/combined_scene_1.mp4" w1)
    as (_ & _ & Hok).
  destruct (Hok w1 w2) as [Hrun Hbytes]; [vm_compute; reflexivity..|].
  exists w2. fold w. rewrite Hstart, Hrun. split; [reflexivity|].
  destruct Hbytes as [_ ->]; vm_compute; reflexivity.
Defined.

(** C5 as stated fails.  With no media tool and no video file to copy,
    [combine_audio_video] and [concat_videos] return the empty string, not
    the output path.  [generate_manim_code] raises out of its own handler
    for a scene without [narration] (a [KeyError]), and for the scene of a
    script that [validate_script] accepts: a scene given as the list of the
    four field names (a [TypeError]). *)
Lemma wrappers_can_return_empty_or_raise :
  (exists w',
      combine_audio_video bare_env "jobs/j1/video/scene_1.mp4" "jobs/j1/audio/scene_1.mp3"
        "jobs/j1/output/combined_scene_1.mp4" fresh_fs = (Ok "", w'))
  /\ (exists w',
      concat_videos bare_env
        ["jobs/j1/output/combined_scene_1.mp4"; "jobs/j1/output/combined_scene_2.mp4"]
        "jobs/j1/output/final_video.mp4" fresh_fs = (Ok "", w'))
  /\ (exists e,
      generate_manim_code bare_env (JObj [("visualDescription", JStr "a circle")]) 0 fresh_fs
      = (Raise e, fresh_fs)
      /\ exn_class e = "KeyError")
  /\ validate_script listed_scene_script = Ok true
  /\ (exists e,
      generate_manim_code bare_env listed_scene 0 fresh_fs = (Raise e, fresh_fs)
      /\ exn_class e = "TypeError").
Proof.
  split; [|split; [|split; [|split]]].
  - eexists. vm_compute. reflexivity.
  - eexists. vm_compute. reflexivity.
  - eexists. split; vm_compute; reflexivity.
  - vm_compute. reflexivity.
  - eexists. split; vm_compute; reflexivity.
Qed.

(** ** Rendering *)

(** What [render_scene] does once the engine has exited with code zero and
    a rendered clip [scene_video] has been found: reading the local name
    [shutil] raises, the handler of the inner [try] produces the
    placeholder, and the [finally] clause removes the temporary
    directory.  Nothing is copied. *)
Lemma render_scene_after_successful_engine_run
    (E : Env) (scene_code output_path quality0 : string) (w w1 w2 w3 w4 : fs)
    (temp_dir class_name scene_video : string) (process0 : process) :
  import_manim E = Ok tt ->
  tempfile_mkdtemp E w = (Ok temp_dir, w1) ->
  extract_class_name scene_code = Some class_name ->
  write_file E (path_join temp_dir "scene.py") (list_byte_of_string scene_code) w1
    = (Ok tt, w2) ->
  os_makedirs E (dirname output_path) w2 = (Ok tt, w3) ->
  subprocess_exec E
    (manim_cmd E (path_join temp_dir "scene.py") class_name quality0 output_path temp_dir) w3
    = (Ok process0, w4) ->
  returncode process0 = 0%Z ->
  find_mp4 (path_join temp_dir "videos") w4 = Some scene_video ->
  exists w5,
    generate_mock_video E output_path w4 = (Ok output_path, w5)
    /\ render_scene E scene_code output_path quality0 w
       = (Ok output_path, (shutil_rmtree E temp_dir w5).2).
Proof.
  intros Himport Htmp Hclass Hwrite Hmk Hexec Hrc Hfind.
  assert (Hne : class_name <> "") by (by eapply search_class_nonempty).
  destruct (generate_mock_video_returns E output_path w4) as [w5 Hmock].
  exists w5. split; [assumption|].
  unfold render_scene, with_frame, render_with_manim, in_fs, load_shutil, import_shutil.
  unfold_monad. rewrite Himport. cbn [fst snd]. rewrite Htmp, Hclass.
  rewrite bool_decide_eq_false_2 by assumption.
  cbn [fst snd]. rewrite Hwrite. cbn [fst snd]. rewrite Hmk. cbn [fst snd].
  rewrite Hexec, Hrc. cbn [fst snd negb Z.eqb]. rewrite Hfind. cbn [shutil_bound fst snd].
  rewrite Hmock. cbn [fst snd shutil_bound].
  destruct (shutil_rmtree E temp_dir w5) as [[[]|e] w6]; reflexivity.
Qed.

(** C3 on the code, on a machine with the engine installed.  For the
    program [scene1_program] the class name is recognised, the engine
    exits with code zero and its clip is found below the working
    directory; [render_scene] still returns with the placeholder bytes at
    the output path, and the rendered clip is in no file afterwards. *)
Theorem render_scene_success_path_yields_placeholder :
  let output_path := "jobs/j1/video/scene_1.mp4" in
  let temp_file := "/tmp/tmp0/scene.py" in
  let clip := "/tmp/tmp0/videos/scene/480p15/scene_1.mp4" in
  import_manim studio_env = Ok tt
  /\ extract_class_name scene1_program = Some "Scene1"
  /\ (exists w3 w4,
        subprocess_exec studio_env
          (manim_cmd studio_env temp_file "Scene1" "low" output_path "/tmp/tmp0") w3
          = (Ok (mkProcess 0 true), w4)
        /\ find_mp4 "/tmp/tmp0/videos" w4 = Some clip
        /\ files w4 !! clip = Some rendered_clip
        /\ exists w5,
            generate_mock_video studio_env output_path w4 = (Ok output_path, w5)
            /\ render_scene studio_env scene1_program output_path "low" fresh_fs
               = (Ok output_path, (shutil_rmtree studio_env "/tmp/tmp0" w5).2))
  /\ (exists w',
        render_scene studio_env scene1_program output_path "low" fresh_fs
          = (Ok output_path, w')
        /\ files w' !! output_path = Some mock_mp4
        /\ map_to_list (files w') = [(output_path, mock_mp4)])
  /\ mock_mp4 <> rendered_clip.
Proof.
  intros output_path temp_file clip.
  split; [reflexivity|]. split; [vm_compute; reflexivity|].
  split; [|split; [|discriminate]].
  - pose (w1 := (tempfile_mkdtemp studio_env fresh_fs).2).
    pose (w2 := (write_file studio_env temp_file (list_byte_of_string scene1_program) w1).2).
    pose (w3 := (os_makedirs studio_env (dirname output_path) w2).2).
    pose (w4 := (subprocess_exec studio_env
                   (manim_cmd studio_env temp_file "Scene1" "low" output_path "/tmp/tmp0")
                   w3).2).
    exists w3, w4.
    split; [vm_compute; reflexivity|].
    split; [vm_compute; reflexivity|].
    split; [vm_compute; reflexivity|].
    apply (render_scene_after_successful_engine_run studio_env scene1_program output_path
             "low" fresh_fs w1 w2 w3 w4 "/tmp/tmp0" "Scene1" clip (mkProcess 0 true));
      vm_compute; reflexivity.
  - eexists. split; [vm_compute; reflexivity|].
    split; vm_compute; reflexivity.
Qed.

(** Without a recognisable class the temporary directory has already been
    created when [render_scene] turns to the placeholder, and the
    [finally] clause that removes it is never entered. *)
Lemma render_scene_without_class
    (E : Env) (scene_code output_path quality0 temp_dir : string) (w w1 : fs) :
  import_manim E = Ok tt ->
  tempfile_mkdtemp E w = (Ok temp_dir, w1) ->
  extract_class_name scene_code = None ->
  render_scene E scene_code output_path quality0 w = generate_mock_video E output_path w1.
Proof.
  intros Himport Htmp Hclass.
  destruct (generate_mock_video_returns E output_path w1) as [w2 Hmock].
  unfold render_scene, with_frame, render_with_manim, in_fs.
  unfold_monad. rewrite Himport. cbn [fst snd]. rewrite Htmp, Hclass.
  cbn [fst snd]. rewrite Hmock. reflexivity.
Qed.

(** C10 on the code, on a machine with the engine installed.  For a text
    without a class declaration [render_scene] creates its temporary
    directory, returns the placeholder, and leaves the directory behind. *)
Theorem render_scene_leaks_temp_dir_without_class :
  let output_path := "jobs/j1/video/scene_1.mp4" in
  import_manim studio_env = Ok tt
  /\ extract_class_name no_class_program = None
  /\ tempfile_mkdtemp studio_env fresh_fs
     = (Ok "/tmp/tmp0", mkFs ∅ {["/tmp/tmp0"; "jobs"]} 1)
  /\ is_dir "/tmp/tmp0" fresh_fs = false
  /\ exists w',
      render_scene studio_env no_class_program output_path "low" fresh_fs
        = (Ok output_path, w')
      /\ is_dir "/tmp/tmp0" w' = true.
Proof.
  intros output_path.
  split; [reflexivity|]. split; [vm_compute; reflexivity|].
  split; [vm_compute; reflexivity|]. split; [vm_compute; reflexivity|].
  eexists. split; vm_compute; reflexivity.
Qed.

(** ** Concatenation *)




(** ** The registry *)

(** After a successful [shutil.rmtree d] nothing exists at [d]. *)
Lemma shutil_rmtree_removes (E : Env) (d : string) (w w1 : fs) :
  shutil_rmtree E d w = (Ok tt, w1) -> path_exists d w1 = false.
Proof.
  unfold shutil_rmtree. intros H.
  destruct (negb (is_dir d w)); [discriminate|].
  destruct (os_refuses E (OpRmtree d)); [discriminate|].
  injection H as <-.
  assert (Hu : under d d = true).
  { unfold under. by rewrite bool_decide_eq_true_2. }
  unfold path_exists, is_dir, is_file. simpl.
  apply orb_false_intro.
  - apply bool_decide_eq_false_2. rewrite elem_of_filter, Hu. simpl. by intros [? _].
  - destruct (filter _ (files w) !! d) as [c|] eqn:Hl; [|reflexivity].
    apply map_lookup_filter_Some in Hl as [_ Hl]. simpl in Hl. by rewrite Hu in Hl.
Qed.

Lemma delete_job_removes_record (E : Env) (id msg : string) (a a' : server) :
  delete_job E id a = (Ok msg, a') ->
  job_statuses a' = delete id (job_statuses a)
  /\ path_exists (path_div JOBS_DIR id) (fsys a') = false.
Proof.
  unfold delete_job, del_job, on_fs. unfold_monad. intros H.
  destruct (job_statuses a !! id) as [j|] eqn:Hj; [|discriminate].
  destruct (path_exists (path_div JOBS_DIR id) (fsys a)) eqn:Hex.
  - destruct (shutil_rmtree E (path_div JOBS_DIR id) (fsys a)) as [[[]|e] w1] eqn:Hrm;
      cbn [fst snd job_statuses fsys] in H; [|discriminate].
    rewrite Hj in H. injection H as _ <-. simpl.
    split; [reflexivity | by eapply shutil_rmtree_removes].
  - cbn [fst snd] in H. rewrite Hj in H. injection H as _ <-. simpl. by split.
Qed.

(** C9, as the code has it.  Deleting and reading an unknown id report
    not-found and change nothing.  For a known id: when nothing exists at
    the workspace path the record is removed and the file system is left as
    it was; when the workspace exists and removing the tree succeeds, the
    record and the tree are both removed; when removing the tree raises,
    delete reports a server error (status 500) and the record stays.
    After a delete that succeeded the record is gone, nothing exists at the
    workspace path, and reading the id reports not-found. *)
Theorem delete_job_outcomes (E : Env) :
  (forall id a,
      job_statuses a !! id = None ->
      delete_job E id a = (Raise (not_found id), a)
      /\ get_job_status id a = (Raise (not_found id), a))
  /\ (forall id a j,
      job_statuses a !! id = Some j ->
      path_exists (path_div JOBS_DIR id) (fsys a) = false ->
      delete_job E id a
      = (Ok ("Job " +:+ id +:+ " deleted (files not found)"),
         mkServer (fsys a) (delete id (job_statuses a)) (history a) (logged a)))
  /\ (forall id a j w1,
      job_statuses a !! id = Some j ->
      path_exists (path_div JOBS_DIR id) (fsys a) = true ->
      shutil_rmtree E (path_div JOBS_DIR id) (fsys a) = (Ok tt, w1) ->
      delete_job E id a
      = (Ok ("Job " +:+ id +:+ " deleted successfully"),
         mkServer w1 (delete id (job_statuses a)) (history a) (logged a))
      /\ path_exists (path_div JOBS_DIR id) w1 = false)
  /\ (forall id a j e w1,
      job_statuses a !! id = Some j ->
      path_exists (path_div JOBS_DIR id) (fsys a) = true ->
      shutil_rmtree E (path_div JOBS_DIR id) (fsys a) = (Raise e, w1) ->
      delete_job E id a
      = (Raise (HTTPException 500 ("Error deleting job: " +:+ str_exn e)),
         mkServer w1 (job_statuses a) (history a) (logged a)))
  /\ (forall id msg a a',
      delete_job E id a = (Ok msg, a') ->
      job_statuses a' !! id = None
      /\ path_exists (path_div JOBS_DIR id) (fsys a') = false
      /\ get_job_status id a' = (Raise (not_found id), a')).
Proof.
  split; [|split; [|split; [|split]]].
  - intros id a Hj. unfold delete_job, get_job_status. unfold_monad. by rewrite Hj.
  - intros id a j Hj Hex. unfold delete_job, del_job. unfold_monad.
    by rewrite Hj, Hex, Hj.
  - intros id a j w1 Hj Hex Hrm. split; [|by eapply shutil_rmtree_removes].
    unfold delete_job, del_job, on_fs. unfold_monad.
    rewrite Hj, Hex, Hrm. cbn [fst snd job_statuses]. by rewrite Hj.
  - intros id a j e w1 Hj Hex Hrm.
    unfold delete_job, del_job, on_fs. unfold_monad.
    by rewrite Hj, Hex, Hrm.
  - intros id msg a a' Hdel.
    destruct (delete_job_removes_record E id msg a a' Hdel) as [Hreg Hgone].
    assert (Hnone : job_statuses a' !! id = None)
      by (rewrite Hreg; apply lookup_delete_eq).
    split; [assumption|]. split; [assumption|].
    unfold get_job_status. by rewrite Hnone.
Qed.

(** The theorem at the registry that holds job [j1] and its directory. *)
Lemma delete_job_outcomes_witness :
  exists a',
    delete_job bare_env "j1" queued_server = (Ok "Job j1 deleted successfully", a')
    /\ get_job_status "j1" a' = (Raise (not_found "j1"), a').
Proof.
  eexists. split.
  - apply (proj1 (proj2 (proj2 (delete_job_outcomes bare_env)))
             "j1" queued_server
             (mkJobStatus "j1" "queued" 0.0 "Job queued" None None None)
             (shutil_rmtree bare_env "jobs/j1" (fsys queued_server)).2);
      vm_compute; reflexivity.
  - apply (proj2 (proj2 (proj2 (proj2 (delete_job_outcomes bare_env))))
             "j1" "Job j1 deleted successfully" queued_server).
    vm_compute. reflexivity.
Defined.

(** C9 as stated fails for a known id whose directory cannot be removed:
    delete reports a server error, the record is still in the registry,
    the directory is still there, and reading the id still answers with the
    record. *)
Lemma delete_job_can_keep_record :
  job_statuses queued_server !! "j1"
    = Some (mkJobStatus "j1" "queued" 0.0 "Job queued" None None None)
  /\ delete_job protected_env "j1" queued_server
     = (Raise (HTTPException 500 "Error deleting job: jobs/j1"), queued_server)
  /\ is_dir "jobs/j1" (fsys queued_server) = true
  /\ get_job_status "j1" queued_server
     = (Ok (mkJobStatus "j1" "queued" 0.0 "Job queued" None None None), queued_server).
Proof. repeat split; vm_compute; reflexivity. Qed.

(** ** The job pipeline *)

Lemma same_registry_refl a : same_registry a a.
Proof. by repeat split. Qed.

Lemma same_registry_trans a b c : same_registry a b -> same_registry b c -> same_registry a c.
Proof. intros (?&?&?) (?&?&?). repeat split; congruence. Qed.

Lemma on_fs_frame {A} (m : M fs A) (a a' : server) (r : result A) :
  on_fs m a = (r, a') -> same_registry a a'.
Proof.
  unfold on_fs, zoom. destruct (m (fsys a)) as [r' w']. intros [= _ <-]. by repeat split.
Qed.

Lemma lift_result_frame {A} (x : result A) (a a' : server) (r : result A) :
  lift_result x a = (r, a') -> same_registry a a'.
Proof. intros [= _ <-]. apply same_registry_refl. Qed.

Lemma list_getitem_frame {A} (xs : list A) (i : nat) (a a' : server) (r : result A) :
  list_getitem xs i a = (r, a') -> same_registry a a'.
Proof.
  unfold list_getitem. destruct (xs !! i); intros [= _ <-]; apply same_registry_refl.
Qed.

Lemma for_each_frame {A B} (body : A -> M server B) (xs : list A) :
  (forall x a r a', body x a = (r, a') -> same_registry a a') ->
  forall a r a', for_each body xs a = (r, a') -> same_registry a a'.
Proof.
  intros Hbody. induction xs as [|x xs IH]; intros a r a'; cbn [for_each].
  - intros [= _ <-]. apply same_registry_refl.
  - intros H. apply run_bind in H as [(e & Hm & _)|(y & a1 & Hm & H)]; [by eapply Hbody|].
    apply run_bind in H as [(e & Hm' & _)|(ys & a2 & Hm' & H)].
    + eapply same_registry_trans; [by eapply Hbody | by eapply IH].
    + injection H as _ <-.
      eapply same_registry_trans; [by eapply Hbody | by eapply IH].
Qed.

Lemma assigned_frame id a0 trace j a a' :
  assigned id a0 trace j a -> same_registry a a' -> assigned id a0 trace j a'.
Proof. intros (?&?&?&?) (?&?&?). repeat split; congruence. Qed.

Lemma set_job_assigned id j a :
  set_job id j a = (Ok tt, mkServer (fsys a) (<[id := j]> (job_statuses a)) (history a ++ [j]) (logged a)).
Proof. reflexivity. Qed.

Lemma update_job_assigned id f a0 trace j a :
  assigned id a0 trace j a ->
  exists a', update_job id f a = (Ok tt, a') /\ assigned id a0 (trace ++ [f j]) (f j) a'.
Proof.
  intros (Hreg & Hhist & Hlog & Hlast). unfold update_job.
  rewrite Hreg, lookup_insert_eq. eexists. split; [reflexivity|].
  repeat split; simpl.
  - by rewrite insert_insert_eq.
  - by rewrite Hhist, <- app_assoc.
  - assumption.
  - by rewrite last_snoc.
Qed.


Lemma bind_update {B} id f (k : unit -> M server B) a0 trace j a r a1 :
  assigned id a0 trace j a ->
  bind (update_job id f) k a = (r, a1) ->
  exists a', assigned id a0 (trace ++ [f j]) (f j) a' /\ k tt a' = (r, a1).
Proof.
  intros Hst H. destruct (update_job_assigned id f a0 trace j a Hst) as (a' & Hup & Hst').
  unfold bind in H. rewrite Hup in H. by exists a'.
Qed.

Lemma bind_frame {A B} (m : M server A) (k : A -> M server B) id a0 trace j a r a1 :
  (forall b r' b', m b = (r', b') -> same_registry b b') ->
  assigned id a0 trace j a ->
  bind m k a = (r, a1) ->
  (exists e, r = Raise e /\ assigned id a0 trace j a1)
  \/ (exists x a', assigned id a0 trace j a' /\ k x a' = (r, a1)).
Proof.
  intros Hframe Hst H.
  apply run_bind in H as [(e & Hm & ->)|(x & a' & Hm & H)].
  - left. exists e. split; [reflexivity|]. eapply assigned_frame; [exact Hst | by eapply Hframe].
  - right. exists x, a'. split; [|assumption].
    eapply assigned_frame; [exact Hst | by eapply Hframe].
Qed.

(** A computation made of file-system steps and pure steps leaves the
    registry alone. *)
Ltac frame_by_unfolding :=
  let H := fresh "H" in
  intros; 
  match goal with
  | Hrun : _ = (_, _) |- _ =>
      unfold on_fs, list_getitem in Hrun; unfold_monad;
      repeat match type of Hrun with
             | context [match ?x with _ => _ end] => destruct_innermost x
             end;
      simplify_eq; by repeat split
  end.

Ltac solve_frame :=
  first
    [ intros; eapply on_fs_frame; eassumption
    | intros; eapply lift_result_frame; eassumption
    | intros ? ? ?; eapply for_each_frame; intros [? ?]; frame_by_unfolding
    | intros ? ? ?; eapply for_each_frame; frame_by_unfolding ].

(** The exception case of a step of [pipeline]: the values assigned so far
    are a prefix of [pipeline_trace id s]. *)
Ltac fail_here s Hst :=
  eexists s, _, _;
  split; [|split; [exact Hst | right; eexists; split; [reflexivity | simpl; lia]]];
  by eexists.

(** A step of [pipeline] that leaves the registry alone. *)
Ltac frame_step H Hst s :=
  eapply bind_frame in H; [|solve_frame|exact Hst];
  destruct H as [(? & -> & Hst')|(? & ? & Hst' & H)]; [fail_here s Hst'|];
  clear Hst; rename Hst' into Hst.

(** A step of [pipeline] that assigns to a field of the dictionary. *)
Ltac update_step H Hst :=
  let Hst' := fresh "Hst" in
  eapply bind_update in H; [|exact Hst];
  destruct H as (? & Hst' & H); clear Hst; rename Hst' into Hst;
  cbn [Datatypes.app] in Hst.

(** The statements inside [try] assign a prefix of [pipeline_trace] to the
    dictionary: all of it when they run to their end, at most its first
    ten values when an exception ends them. *)
Lemma pipeline_outcome E id request sd ad vd od a r a1 :
  pipeline E id request sd ad vd od a = (r, a1) ->
  exists script0 trace j,
    trace `prefix_of` pipeline_trace id script0
    /\ assigned id a trace j a1
    /\ ((r = Ok tt /\ trace = pipeline_trace id script0)
        \/ (exists e, r = Raise e /\ (length trace <= 10)%nat)).
Proof.
  unfold pipeline. intros H.
  assert (Hst : assigned id a [processing_record id] (processing_record id)
                  (mkServer (fsys a) (<[id := processing_record id]> (job_statuses a))
                     (history a ++ [processing_record id]) (logged a)))
    by (by repeat split).
  unfold bind at 1 in H. rewrite set_job_assigned in H.
  frame_step H Hst JNull.
  frame_step H Hst JNull.
  rename x into script0.
  update_step H Hst. update_step H Hst. update_step H Hst.
  frame_step H Hst script0.
  frame_step H Hst script0.
  update_step H Hst. update_step H Hst.
  frame_step H Hst script0.
  update_step H Hst. update_step H Hst.
  frame_step H Hst script0.
  update_step H Hst. update_step H Hst.
  frame_step H Hst script0.
  frame_step H Hst script0.
  update_step H Hst. update_step H Hst. update_step H Hst.
  destruct (update_job_assigned id
              (with_video_url (Some ("/jobs/" +:+ id +:+ "/output/final_video.mp4")))
              _ _ _ _ Hst) as (a' & Hup & Hst').
  rewrite Hup in H. injection H as <- <-.
  exists script0. eexists _, _. split; [|split; [exact Hst'|left; split; reflexivity]].
  by exists [].
Qed.


Lemma ascending_sound (values : list Q) :
  ascending values = true ->
  forall i k x y,
    (i <= k)%nat -> values !! i = Some x -> values !! k = Some y -> (x <= y)%Q.
Proof.
  induction values as [|v values IH]; intros Hasc i k x y Hik Hi Hk.
  - by rewrite lookup_nil in Hi.
  - cbn [ascending] in Hasc. apply andb_true_iff in Hasc as [Hall Hasc].
    destruct i as [|i], k as [|k]; simpl in Hi, Hk; simplify_eq.
    + apply Qle_refl.
    + rewrite forallb_forall in Hall. apply Qle_bool_iff, Hall.
      apply list_elem_of_In. by eapply list_elem_of_lookup_2.
    + lia.
    + eapply (IH Hasc i k); [lia|done..].
Qed.

Lemma progress_monotone_check (trace : list JobStatus) :
  ascending (progress <$> trace) = true -> progress_monotone trace.
Proof.
  intros Hasc i k x y Hik Hi Hk.
  eapply (ascending_sound _ Hasc i k); [assumption|..];
    rewrite list_lookup_fmap; [by rewrite Hi | by rewrite Hk].
Qed.

Lemma all_between_sound (lo hi : Q) (trace : list JobStatus) :
  all_between lo hi (progress <$> trace) = true ->
  forall x, x ∈ trace -> (lo <= progress x)%Q /\ (progress x <= hi)%Q.
Proof.
  unfold all_between. rewrite forallb_forall. intros Hall x Hx.
  specialize (Hall (progress x)).
  rewrite andb_true_iff, !Qle_bool_iff in Hall. apply Hall.
  apply list_elem_of_In, list_elem_of_fmap. by exists x.
Qed.

Lemma on_failure_assigned id e a0 trace j a :
  assigned id a0 trace j a ->
  on_failure id e a
  = (Ok tt,
     mkServer (fsys a) (<[id := failed_record e j]> (job_statuses a))
       (history a ++ failure_trace e j)
       (logged a ++ ["Error generating video: " +:+ str_exn e])).
Proof.
  intros (Hreg & Hhist & Hlog & Hlast).
  unfold on_failure, logger_exception, update_job. unfold_monad. cbn [job_statuses fsys history logged].
  rewrite Hreg, lookup_insert_eq. cbn [job_statuses fsys history logged].
  rewrite lookup_insert_eq. cbn [job_statuses fsys history logged].
  rewrite lookup_insert_eq. cbn [job_statuses fsys history logged].
  rewrite !insert_insert_eq. unfold failure_trace, failed_record.
  by rewrite <- !app_assoc.
Qed.

Lemma workspace_setup_frame E id a0 a1 r :
  for_each (fun dir_path => on_fs (path_mkdir E dir_path)) (workspace_dirs id) a0 = (r, a1) ->
  same_registry a0 a1.
Proof. eapply for_each_frame. intros. by eapply on_fs_frame. Qed.

Lemma generate_video_task_after_setup E id request a0 a1 made :
  for_each (fun dir_path => on_fs (path_mkdir E dir_path)) (workspace_dirs id) a0 = (Ok made, a1) ->
  generate_video_task E id request a0
  = try_except
      (pipeline E id request (path_div (path_div JOBS_DIR id) "script")
         (path_div (path_div JOBS_DIR id) "audio") (path_div (path_div JOBS_DIR id) "video")
         (path_div (path_div JOBS_DIR id) "output"))
      (on_failure id) a1.
Proof.
  intros Hsetup. unfold generate_video_task. unfold bind at 1.
  change (for_each _ _ a0) with
    (for_each (fun dir_path => on_fs (path_mkdir E dir_path)) (workspace_dirs id) a0).
  by rewrite Hsetup.
Qed.




(** C2 on the code.  Job [j1] has been accepted and its directory is gone
    when the task starts: the workspace is missing.  Creating the [script]
    directory raises [FileNotFoundError] in the loop that stands before
    [try]: the exception is caught nowhere and leaves the task.  The
    handler has not run: nothing is logged, and the dictionary of the job
    is not [failed] and holds no [error]; it stays [queued].  On the same
    job with its directory in place, an exception raised inside [try] (the
    disk is full) is caught: the task returns and the job is [failed]. *)
Theorem generate_video_task_does_not_catch_missing_workspace :
  (exists e,
      generate_video_task bare_env "j1" example_request orphaned_server
      = (Raise e, orphaned_server)
      /\ exn_class e = "FileNotFoundError")
  /\ logged orphaned_server = []
  /\ (exists j,
        job_statuses orphaned_server !! "j1" = Some j
        /\ status j = "queued" /\ status j <> "failed" /\ error j = None)
  /\ (exists a3 j,
        generate_video_task full_disk_env "j1" example_request queued_server = (Ok tt, a3)
        /\ job_statuses a3 !! "j1" = Some j
        /\ status j = "failed" /\ length (logged a3) = 1%nat).
Proof.
  split; [|split; [|split]].
  - exists (FileNotFoundError "jobs/j1/script"). split; [vm_compute|]; reflexivity.
  - reflexivity.
  - eexists. split; [apply lookup_insert_eq|]. by repeat split.
  - pose (a3 := (generate_video_task full_disk_env "j1" example_request queued_server).2).
    pose (j := default (processing_record "j1") (job_statuses a3 !! "j1")).
    exists a3, j. repeat split; vm_compute; reflexivity.
Qed.

Lemma prefix_is_take {A} (l1 l2 : list A) : l1 `prefix_of` l2 -> l1 = take (length l1) l2.
Proof. intros [k ->]. by rewrite take_app_length. Qed.

(** Once the four workspace directories are there, the task returns
    normally; the values it assigns to the dictionary never decrease in
    progress and stay between 0.05 and 1; the last one is [completed] with
    progress 1, after the values of [success_progress], or [failed] with
    progress below 1. *)
Theorem job_progress_when_workspace_ready
    (E : Env) (id : string) (request : VideoRequest) (a0 a1 a2 : server)
    (made : list unit) (r : result unit) :
  for_each (fun dir_path => on_fs (path_mkdir E dir_path)) (workspace_dirs id) a0
    = (Ok made, a1) ->
  generate_video_task E id request a0 = (r, a2) ->
  r = Ok tt
  /\ exists trace j,
      history a2 = history a0 ++ trace
      /\ last trace = Some j
      /\ job_statuses a2 !! id = Some j
      /\ progress_monotone trace
      /\ (forall x, x ∈ trace -> (0.05 <= progress x)%Q /\ (progress x <= 1.0)%Q)
      /\ ((status j = "completed" /\ progress j = 1.0%Q
           /\ progress <$> trace = success_progress)
          \/ (status j = "failed" /\ (progress j < 1.0)%Q)).
Proof.
  intros Hsetup Htask.
  rewrite (generate_video_task_after_setup _ _ _ _ _ _ Hsetup) in Htask.
  destruct (workspace_setup_frame _ _ _ _ _ Hsetup) as (Hreg0 & Hhist0 & Hlog0).
  unfold try_except in Htask.
  destruct (pipeline _ _ _ _ _ _ _ a1) as [r' a'] eqn:Hrun.
  destruct (pipeline_outcome _ _ _ _ _ _ _ _ _ _ Hrun)
    as (script0 & trace & j & Hpre & Hst & Hcase).
  destruct Hcase as [(-> & ->)|(e & -> & Hlen)].
  - injection Htask as <- <-. split; [reflexivity|].
    destruct Hst as (Hreg & Hhist & _ & Hlast).
    exists (pipeline_trace id script0), j.
    injection Hlast as <-.
    split; [by rewrite Hhist, Hhist0|]. split; [reflexivity|].
    split; [rewrite Hreg; apply lookup_insert_eq|].
    split; [by apply progress_monotone_check|].
    split; [by apply all_between_sound|].
    left. by repeat split.
  - rewrite (on_failure_assigned _ e _ _ _ _ Hst) in Htask.
    injection Htask as <- <-. split; [reflexivity|].
    pose proof Hst as (Hreg & Hhist & _ & Hlast).
    exists (trace ++ failure_trace e j), (failed_record e j).
    cbn [history job_statuses].
    split; [by rewrite Hhist, Hhist0, app_assoc|].
    split; [unfold failure_trace; by rewrite !last_app|].
    split; [apply lookup_insert_eq|].
    apply prefix_is_take in Hpre.
    assert (Hcases : (length trace = 0 \/ length trace = 1 \/ length trace = 2
                      \/ length trace = 3 \/ length trace = 4 \/ length trace = 5
                      \/ length trace = 6 \/ length trace = 7 \/ length trace = 8
                      \/ length trace = 9 \/ length trace = 10)%nat) by lia.
    clear Hst Hlen Hreg Hhist.
    repeat (destruct Hcases as [Hn|Hcases]); try rename Hcases into Hn;
      rewrite Hn in Hpre; cbn in Hpre; subst trace; cbn in Hlast; simplify_eq;
      (split; [by apply progress_monotone_check|]);
      (split; [by apply all_between_sound|]);
      right; by split.
Qed.

Lemma progress_monotone_cons (q : JobStatus) (trace : list JobStatus) :
  (forall x, x ∈ trace -> (progress q <= progress x)%Q) ->
  progress_monotone trace -> progress_monotone (q :: trace).
Proof.
  intros Hlow Hmono i k x y Hik Hi Hk.
  destruct i as [|i], k as [|k]; simpl in Hi, Hk; simplify_eq.
  - apply Qle_refl.
  - apply Hlow. by eapply list_elem_of_lookup_2.
  - lia.
  - eapply (Hmono i k); [lia|done..].
Qed.

Lemma generate_video_accepts (E : Env) (id : string) (request : VideoRequest)
    (a a0 : server) (accepted : Accepted) :
  generate_video E id request a = (Ok accepted, a0) ->
  history a0 = history a ++ [mkJobStatus id "queued" 0.0 "Job queued" None None None]
  /\ job_statuses a0 !! id = Some (mkJobStatus id "queued" 0.0 "Job queued" None None None).
Proof.
  unfold generate_video, set_job, on_fs. unfold_monad.
  destruct (path_mkdir E (path_div JOBS_DIR id) (fsys a)) as [[[]|e] w]; [|discriminate].
  intros [= _ <-]. cbn [history job_statuses]. split; [reflexivity | apply lookup_insert_eq].
Qed.

(** X1: the life of an accepted job whose workspace directories can be
    created.  The task returns normally.  The values of the job's
    dictionary, from [queued] on, never decrease in progress and stay
    between 0 and 1; the last one is [completed] with progress 1, after the
    values 0, 0.05, 0.2, 0.4, 0.6, 0.8 and 1 in this order, or [failed] with
    progress below 1. *)
Theorem job_lifetime_progress
    (E : Env) (id : string) (request : VideoRequest) (a a0 a1 a2 : server)
    (accepted : Accepted) (made : list unit) (r : result unit) :
  generate_video E id request a = (Ok accepted, a0) ->
  for_each (fun dir_path => on_fs (path_mkdir E dir_path)) (workspace_dirs id) a0
    = (Ok made, a1) ->
  generate_video_task E id request a0 = (r, a2) ->
  r = Ok tt
  /\ exists trace j,
      history a2 = history a ++ trace
      /\ head trace = Some (mkJobStatus id "queued" 0.0 "Job queued" None None None)
      /\ last trace = Some j
      /\ job_statuses a2 !! id = Some j
      /\ progress_monotone trace
      /\ (forall x, x ∈ trace -> (0.0 <= progress x)%Q /\ (progress x <= 1.0)%Q)
      /\ ((status j = "completed" /\ progress j = 1.0%Q
           /\ progress <$> trace = (0.0 :: success_progress)%Q)
          \/ (status j = "failed" /\ (progress j < 1.0)%Q)).
Proof.
  intros Haccept Hsetup Htask.
  destruct (generate_video_accepts _ _ _ _ _ _ Haccept) as [Hhist0 _].
  destruct (job_progress_when_workspace_ready _ _ _ _ _ _ _ _ Hsetup Htask)
    as (-> & trace & j & Hhist & Hlast & Hj & Hmono & Hbound & Hend).
  split; [reflexivity|].
  exists (mkJobStatus id "queued" 0.0 "Job queued" None None None :: trace), j.
  split; [by rewrite Hhist, Hhist0, <- app_assoc|].
  split; [reflexivity|].
  split; [destruct trace; [discriminate | exact Hlast]|].
  split; [assumption|].
  split; [|split].
  - apply progress_monotone_cons; [|assumption].
    intros x Hx. destruct (Hbound x Hx) as [Hlo _]. cbn [progress].
    eapply Qle_trans; [|exact Hlo]. discriminate.
  - intros x [->|Hx]%elem_of_cons.
    + cbn [progress]. split; discriminate.
    + destruct (Hbound x Hx) as [Hlo Hhi]. split; [|assumption].
      eapply Qle_trans; [|exact Hlo]. discriminate.
  - destruct Hend as [(Hs & Hp & Hseq)|Hfail]; [left|by right].
    split; [assumption|]. split; [assumption|]. cbn [fmap list_fmap progress]. by rewrite <- Hseq.
Qed.

(** The theorem for job [j1] on a machine with nothing installed: every
    wrapper degrades and the job completes. *)
Lemma job_lifetime_progress_witness :
  exists a2,
    generate_video_task bare_env "j1" example_request queued_server = (Ok tt, a2)
    /\ progress <$> history a2 = (0.0 :: success_progress)%Q
    /\ (status <$> job_statuses a2 !! "j1") = Some "completed".
Proof.
  pose (a1 := (for_each (fun dir_path => on_fs (path_mkdir bare_env dir_path))
                 (workspace_dirs "j1") queued_server).2).
  pose (a2 := (generate_video_task bare_env "j1" example_request queued_server).2).
  assert (Hrun : generate_video_task bare_env "j1" example_request queued_server
                 = (Ok tt, a2)) by (vm_compute; reflexivity).
  destruct (job_lifetime_progress bare_env "j1" example_request fresh_server queued_server
              a1 a2 (mkAccepted "j1" "queued" "Video generation job has been queued")
              [tt; tt; tt; tt] (Ok tt))
    as (_ & trace & j & Hhist & _ & _ & Hj & _ & _ & Hend).
  - vm_compute. reflexivity.
  - vm_compute. reflexivity.
  - exact Hrun.
  - exists a2. split; [exact Hrun|]. split.
    + vm_compute. reflexivity.
    + vm_compute. reflexivity.
Defined.

(** C1 on the code.  Job [j1] is accepted; the operating system then
    refuses to create its [script] directory.  The directory loop stands
    before [try]: the exception leaves the task, no handler runs, and the
    dictionary of the job stays [queued] with progress 0. *)
Theorem job_stays_queued_when_workspace_setup_fails :
  generate_video quota_env "j1" example_request fresh_server
  = (Ok (mkAccepted "j1" "queued" "Video generation job has been queued"), queued_server)
  /\ generate_video_task quota_env "j1" example_request queued_server
     = (Raise (OSError "jobs/j1/script"), queued_server)
  /\ job_statuses queued_server !! "j1"
     = Some (mkJobStatus "j1" "queued" 0.0 "Job queued" None None None)
  /\ logged queued_server = [].
Proof. repeat split; vm_compute; reflexivity. Qed.

(** ** Further properties of the renderer and the composer *)

Lemma shutil_rmtree_raises (E : Env) (d : string) (w w1 : fs) (e : exn) :
  shutil_rmtree E d w = (Raise e, w1) ->
  os_refuses E (OpRmtree d) = false ->
  w1 = w /\ is_dir d w = false.
Proof.
  unfold shutil_rmtree. intros H Hfree. rewrite Hfree in H.
  destruct (is_dir d w); simpl in H; [discriminate|]. by injection H as _ <-.
Qed.

Lemma path_exists_false_is_dir (d : string) (w : fs) :
  path_exists d w = false -> is_dir d w = false.
Proof. unfold path_exists. by intros [? _]%orb_false_elim. Qed.

(** X2: once [render_scene] has written the scene file and created the
    output directory, it is inside the [try] statement whose [finally]
    clause removes the temporary directory: whatever the engine does (it
    cannot be started, exits with an error, produces no clip or produces
    one), [render_scene] returns the output path and the temporary
    directory is gone, unless the operating system refuses to remove
    it. *)
Theorem render_scene_removes_temp_dir_once_in_try
    (E : Env) (scene_code output_path quality0 temp_dir class_name : string)
    (w w1 w2 w3 : fs) :
  import_manim E = Ok tt ->
  tempfile_mkdtemp E w = (Ok temp_dir, w1) ->
  extract_class_name scene_code = Some class_name ->
  write_file E (path_join temp_dir "scene.py") (list_byte_of_string scene_code) w1
    = (Ok tt, w2) ->
  os_makedirs E (dirname output_path) w2 = (Ok tt, w3) ->
  os_refuses E (OpRmtree temp_dir) = false ->
  exists w',
    render_scene E scene_code output_path quality0 w = (Ok output_path, w')
    /\ is_dir temp_dir w' = false.
Proof.
  intros Himport Htmp Hclass Hwrite Hmk Hfree.
  assert (Hne : class_name <> "") by (by eapply search_class_nonempty).
  unfold render_scene, with_frame, render_with_manim, in_fs, load_shutil, import_shutil,
    decode_stderr.
  unfold_monad. rewrite Himport. cbn [fst snd]. rewrite Htmp, Hclass.
  rewrite bool_decide_eq_false_2 by assumption.
  cbn [fst snd]. rewrite Hwrite. cbn [fst snd]. rewrite Hmk. cbn [fst snd].
  repeat first
    [ progress cbn [fst snd shutil_bound]
    | use_returns
    | match goal with
      | |- context [match ?x with _ => _ end] => destruct_innermost x
      end ];
    try discriminate;
    (eexists; split; [reflexivity|]);
    match goal with
    | H : shutil_rmtree E temp_dir _ = (Ok ?u, _) |- _ =>
        destruct u; apply shutil_rmtree_removes in H; by apply path_exists_false_is_dir
    | H : shutil_rmtree E temp_dir _ = (Raise _, _) |- _ =>
        by destruct (shutil_rmtree_raises _ _ _ _ _ H Hfree) as [-> ?]
    end.
Qed.

(** The theorem on the machine with the engine installed. *)
Lemma render_scene_removes_temp_dir_once_in_try_witness :
  exists w',
    render_scene studio_env scene1_program "jobs/j1/video/scene_1.mp4" "low" fresh_fs
      = (Ok "jobs/j1/video/scene_1.mp4", w')
    /\ is_dir "/tmp/tmp0" w' = false.
Proof.
  apply (render_scene_removes_temp_dir_once_in_try studio_env scene1_program
           "jobs/j1/video/scene_1.mp4" "low" "/tmp/tmp0" "Scene1" fresh_fs
           (tempfile_mkdtemp studio_env fresh_fs).2
           (write_file studio_env "/tmp/tmp0/scene.py" (list_byte_of_string scene1_program)
              (tempfile_mkdtemp studio_env fresh_fs).2).2
           (os_makedirs studio_env "jobs/j1/video"
              (write_file studio_env "/tmp/tmp0/scene.py"
                 (list_byte_of_string scene1_program)
                 (tempfile_mkdtemp studio_env fresh_fs).2).2).2);
    vm_compute; reflexivity.
Defined.

(** X3: when the media tool starts and exits with a code other than zero,
    [combine_audio_video] falls back to the copy: if the copy succeeds, the
    output path holds the bytes of the video file, the audio is in no way
    part of it, and the output path is returned. *)
Theorem combine_audio_video_falls_back_to_copy
    (E : Env) (video_path audio_path output_path : string) (w w1 w2 w3 w4 : fs)
    (process0 : process) :
  os_makedirs E (dirname output_path) w = (Ok tt, w1) ->
  subprocess_exec E (combine_cmd video_path audio_path output_path) w1 = (Ok process0, w2) ->
  returncode process0 <> 0%Z ->
  os_makedirs E (dirname output_path) w2 = (Ok tt, w3) ->
  is_dir output_path w3 = false ->
  shutil_copy2 E video_path output_path w3 = (Ok tt, w4) ->
  combine_audio_video E video_path audio_path output_path w = (Ok output_path, w4)
  /\ is_Some (files w2 !! video_path)
  /\ files w4 !! output_path = files w2 !! video_path.
Proof.
  intros Hmk Hexec Hrc Hmk' Hnd Hcp.
  destruct (shutil_copy2_files _ _ _ _ _ Hcp Hnd) as (content & Hsrc & Hw4).
  rewrite (os_makedirs_files _ _ _ _ _ Hmk') in Hsrc, Hw4.
  split; [|split].
  - unfold combine_audio_video, fallback_copy, decode_stderr. unfold_monad.
    rewrite Hmk, Hexec. apply Z.eqb_neq in Hrc. rewrite Hrc.
    destruct (stderr_decodes process0); cbn [fst snd]; by rewrite Hmk', Hcp.
  - by eexists.
  - by rewrite Hw4, lookup_insert_eq.
Qed.

(** The theorem on a machine whose media tool exits with code 1. *)
Lemma combine_audio_video_falls_back_to_copy_witness :
  exists w4,
    combine_audio_video broken_ffmpeg_env "jobs/j1/video/scene_1.mp4"
      "jobs/j1/audio/scene_1.mp3" "jobs/j1/output/combined_scene_1.mp4" scene1_rendered_fs
    = (Ok "jobs/j1/output/combined_scene_1.mp4", w4)
    /\ files w4 !! "jobs/j1/output/combined_scene_1.mp4" = Some rendered_clip.
Proof.
  destruct (combine_audio_video_falls_back_to_copy broken_ffmpeg_env
              "jobs/j1/video/scene_1.mp4" "jobs/j1/audio/scene_1.mp3"
              "jobs/j1/output/combined_scene_1.mp4"
              scene1_rendered_fs scene1_rendered_fs scene1_rendered_fs scene1_rendered_fs
              (shutil_copy2 broken_ffmpeg_env "jobs/j1/video/scene_1.mp4"
                 "jobs/j1/output/combined_scene_1.mp4" scene1_rendered_fs).2
              (mkProcess 1 true))
    as (Hrun & _ & Hcopy).
  - vm_compute. reflexivity.
  - vm_compute. reflexivity.
  - discriminate.
  - vm_compute. reflexivity.
  - vm_compute. reflexivity.
  - vm_compute. reflexivity.
  - eexists. split; [exact Hrun|]. rewrite Hcopy. vm_compute. reflexivity.
Defined.

(** ** Class names of the generated programs *)

Lemma span_all_chars f a c rest :
  all_chars f a = true -> f c = false ->
  span f (a +:+ String c rest) = (a, String c rest).
Proof.
  intros Ha Hc. induction a as [|x a IH]; ssimpl.
  - by rewrite Hc.
  - simpl in Ha. apply andb_true_iff in Ha as [Hx Ha]. rewrite Hx, (IH Ha). reflexivity.
Qed.

Lemma pretty_N_char_word x : is_word (pretty_N_char x) = true.
Proof. unfold pretty_N_char. by repeat case_match. Qed.

Lemma pretty_N_go_word x s :
  all_chars is_word s = true -> all_chars is_word (pretty_N_go x s) = true.
Proof.
  revert s. induction (N.lt_wf_0 x) as [x _ IH]; intros s Hs.
  assert (x = 0 \/ 0 < x)%N as [->|?] by lia.
  - by rewrite pretty_N_go_0.
  - rewrite pretty_N_go_step by done. apply IH.
    { by apply N.div_lt. }
    simpl. by rewrite pretty_N_char_word.
Qed.

Lemma pretty_Z_word (n : Z) : (0 <= n)%Z -> all_chars is_word (pretty n) = true.
Proof.
  intros Hn. destruct n as [|p|p]; [reflexivity| |lia].
  unfold pretty, pretty_Z, pretty, pretty_positive, pretty, pretty_N.
  case_decide; [reflexivity|]. by apply pretty_N_go_word.
Qed.

Lemma is_word_not_space c : is_word c = true -> is_space c = false.
Proof. destruct c as [[] [] [] [] [] [] [] []]; vm_compute; congruence. Qed.

Lemma search_class_skip c s :
  c <> "c"%char -> search_class (String c s) = search_class s.
Proof.
  intros Hc. cbn [search_class]. unfold match_class_here. cbn [strip_prefix].
  destruct (Ascii.eqb_spec "c" c) as [<-|_]; [contradiction | reflexivity].
Qed.

Lemma search_class_here s name :
  match_class_here s = Some name -> search_class s = Some name.
Proof. intros H. destruct s; cbn [search_class]; by rewrite H. Qed.

Lemma match_class_here_canonical (name after : string) :
  all_chars is_word name = true -> name <> "" ->
  match_class_here ("class " +:+ name +:+ "(Scene)" +:+ after) = Some name.
Proof.
  intros Hw Hne. destruct name as [|c name]; [contradiction|].
  pose proof Hw as Hw'. cbn [all_chars] in Hw'. apply andb_true_iff in Hw' as [Hc _].
  apply is_word_not_space in Hc.
  unfold match_class_here. rewrite !app_cons, !app_nil_l.
  cbn [strip_prefix Ascii.eqb Bool.eqb mbind option_bind].
  cbn [span]. change (is_space " ") with true. cbn iota. rewrite Hc.
  rewrite bool_decide_eq_false_2 by discriminate.
  change (String c (name +:+ String "(" ?r)) with ((String c name) +:+ String "(" r).
  rewrite (span_all_chars is_word (String c name) "(") by done.
  rewrite bool_decide_eq_false_2 by discriminate.
  reflexivity.
Qed.

Lemma scene_name_word (n : Z) :
  (0 <= n)%Z -> all_chars is_word ("Scene" +:+ pretty n) = true.
Proof. intros Hn. rewrite !app_cons, app_nil_l. cbn [all_chars]. by rewrite pretty_Z_word. Qed.

(** The start shared by the fallback program and the mock programs. *)
Lemma search_class_generated (n : Z) (after : string) :
  (0 <= n)%Z ->
  search_class ("from manim import *" +:+ nl +:+ nl +:+ "class Scene" +:+ pretty n
                +:+ "(Scene)" +:+ after)
  = Some ("Scene" +:+ pretty n).
Proof.
  intros Hn. unfold nl. rewrite !app_cons, !app_nil_l.
  repeat (rewrite search_class_skip by discriminate).
  apply search_class_here.
  apply (match_class_here_canonical ("Scene" +:+ pretty n) after).
  - by apply scene_name_word.
  - discriminate.
Qed.

(** X4: for a scene index that is not negative, the fallback program of
    [ensure_proper_class_name] and the four mock programs declare the class
    [Scene] followed by the decimal text of index+1, the recognition rule
    extracts that name from them, and the names of two distinct indices
    differ. *)
Theorem generated_programs_declare_scene_class (index : Z) (narration : string) :
  (0 <= index)%Z ->
  extract_class_name (fallback_program index) = Some ("Scene" +:+ pretty (index + 1)%Z)
  /\ extract_class_name (mock_title narration index) = Some ("Scene" +:+ pretty (index + 1)%Z)
  /\ extract_class_name (mock_equation narration index)
     = Some ("Scene" +:+ pretty (index + 1)%Z)
  /\ extract_class_name (mock_visual narration index)
     = Some ("Scene" +:+ pretty (index + 1)%Z)
  /\ extract_class_name (mock_summary narration index)
     = Some ("Scene" +:+ pretty (index + 1)%Z)
  /\ (forall index' : Z,
        "Scene" +:+ pretty (index + 1)%Z = "Scene" +:+ pretty (index' + 1)%Z ->
        index = index').
Proof.
  intros Hindex.
  assert (Hn : (0 <= index + 1)%Z) by lia.
  repeat split.
  - exact (search_class_generated _ _ Hn).
  - exact (search_class_generated _ _ Hn).
  - exact (search_class_generated _ _ Hn).
  - exact (search_class_generated _ _ Hn).
  - exact (search_class_generated _ _ Hn).
  - intros index' Heq. apply (inj (String.app "Scene")) in Heq.
    apply (inj pretty) in Heq. lia.
Qed.

(** The theorem at scene index 2. *)
Lemma generated_programs_declare_scene_class_witness :
  extract_class_name (fallback_program 2) = Some "Scene3"
  /\ extract_class_name (mock_visual "Now, let's see how it works." 2) = Some "Scene3".
Proof.
  destruct (generated_programs_declare_scene_class 2 "Now, let's see how it works.")
    as (Hfallback & _ & _ & Hvisual & _).
  - lia.
  - split; [exact Hfallback | exact Hvisual].
Defined.

(** ** What validation guarantees *)

Lemma validate_script_true_inv (script0 : json) :
  validate_script script0 = Ok true ->
  exists bindings scenes,
    script0 = JObj bindings
    /\ lookup_key "scenes" bindings = Some (JList scenes)
    /\ scenes <> []
    /\ is_Some (lookup_key "title" bindings)
    /\ is_Some (lookup_key "description" bindings)
    /\ forall scene key, scene ∈ scenes -> key ∈ scene_keys -> py_in key scene = Ok true.
Proof.
  intros Hv. destruct script0 as [| | | | |bindings]; try discriminate.
  unfold validate_script in Hv.
  destruct (forallb (fun key => has_key key bindings) required_keys) eqn:Hall;
    [|discriminate].
  cbn [negb] in Hv.
  destruct (lookup_key "scenes" bindings) as [[| | | |scenes|]|] eqn:Hs; try discriminate.
  destruct scenes as [|s0 scenes]; [discriminate|].
  exists bindings, (s0 :: scenes).
  rewrite forallb_forall in Hall.
  assert (Hkey : forall key, key ∈ required_keys -> is_Some (lookup_key key bindings)).
  { intros key Hin. apply list_elem_of_In, Hall in Hin. unfold has_key in Hin.
    by destruct (lookup_key key bindings). }
  split; [reflexivity|]. split; [exact Hs|]. split; [discriminate|].
  split; [apply Hkey; unfold required_keys; rewrite !elem_of_cons; tauto|].
  split; [apply Hkey; unfold required_keys; rewrite !elem_of_cons; tauto|].
  intros scene key Hin Hk.
  eapply all_keys_in_true; [|exact Hk]. by eapply validate_scenes_true.
Qed.

Lemma mock_script_valid (prompt0 : string) :
  validate_script (generate_mock_script prompt0) = Ok true.
Proof. reflexivity. Qed.

Lemma generate_script_valid (E : Env) (prompt0 : string) (w : fs) :
  exists script0,
    generate_script E prompt0 w = (Ok script0, w) /\ validate_script script0 = Ok true.
Proof.
  unfold generate_script. unfold_monad.
  destruct (truthy (GEMINI_API_KEY E)); simpl;
    [|eexists; split; [reflexivity | apply mock_script_valid]].
  destruct (generate_content E (script_prompt prompt0)) as [text|];
    [|eexists; split; [reflexivity | apply mock_script_valid]].
  destruct (json_loads E (extract_payload "json" text)) as [s|];
    [|eexists; split; [reflexivity | apply mock_script_valid]].
  destruct (validate_script s) as [[|]|] eqn:Hv; simpl;
    eexists; (split; [reflexivity|]); first [exact Hv | apply mock_script_valid].
Qed.

(** X5: whatever the environment does, the script [generate_script]
    returns passes [validate_script]: it is an object with a title, a
    description and a non-empty list of scenes, and [key in scene] is true
    for each of the four scene keys of each scene; so [script["scenes"]]
    of [main.py] never raises on it and the loops over the scenes run at
    least once. *)
Theorem generate_script_result_is_valid (E : Env) (prompt0 : string) (w : fs) :
  exists script0 bindings scenes,
    generate_script E prompt0 w = (Ok script0, w)
    /\ validate_script script0 = Ok true
    /\ script0 = JObj bindings
    /\ is_Some (lookup_key "title" bindings)
    /\ is_Some (lookup_key "description" bindings)
    /\ py_getitem script0 "scenes" = Ok (JList scenes)
    /\ scenes <> []
    /\ forall scene key, scene ∈ scenes -> key ∈ scene_keys -> py_in key scene = Ok true.
Proof.
  destruct (generate_script_valid E prompt0 w) as (script0 & Hrun & Hv).
  destruct (validate_script_true_inv script0 Hv)
    as (bindings & scenes & -> & Hs & Hne & Ht & Hd & Hkeys).
  exists (JObj bindings), bindings, scenes.
  repeat split; try assumption.
  cbn [py_getitem]. by rewrite Hs.
Qed.

Lemma all_keys_in_objects keys fields :
  all_keys_in keys (JObj fields)
  = Ok (forallb (fun key => has_key key fields) keys).
Proof.
  induction keys as [|k keys IH]; [reflexivity|].
  cbn [all_keys_in py_in forallb]. destruct (has_key k fields); [exact IH | reflexivity].
Qed.

Lemma validate_scenes_objects scenes :
  (forall scene, scene ∈ scenes -> exists fields, scene = JObj fields) ->
  validate_scenes scenes = Ok true
  <-> forall scene, scene ∈ scenes -> object_with_keys scene_keys scene.
Proof.
  induction scenes as [|s scenes IH]; intros Hobj.
  - split; [|reflexivity]. intros _ scene Hin. by apply elem_of_nil in Hin.
  - destruct (Hobj s) as [fields ->]; [apply elem_of_cons; by left|].
    cbn [validate_scenes]. rewrite all_keys_in_objects.
    destruct (forallb (fun key => has_key key fields) scene_keys) eqn:Hall.
    + rewrite IH by (intros; apply Hobj, elem_of_cons; by right).
      rewrite forallb_forall in Hall.
      split.
      * intros Hrest scene Hin. apply elem_of_cons in Hin as [->|Hin]; [|by apply Hrest].
        exists fields. split; [reflexivity|]. intros key Hk.
        apply list_elem_of_In, Hall in Hk. unfold has_key in Hk.
        by destruct (lookup_key key fields).
      * intros Hall' scene Hin. apply Hall', elem_of_cons. by right.
    + split; [discriminate|]. intros Hall'.
      destruct (Hall' (JObj fields)) as (fields' & [= <-] & Hkeys); [apply elem_of_cons; by left|].
      apply Bool.not_true_iff_false in Hall. destruct Hall.
      apply forallb_forall. intros key Hk. apply list_elem_of_In, Hkeys in Hk.
      unfold has_key. by destruct Hk as [? ->].
Qed.

Lemma validate_scenes_raises scenes e :
  validate_scenes scenes = Raise e ->
  exn_class e = "TypeError"
  /\ exists scene, scene ∈ scenes /\ not_a_container scene = true.
Proof.
  induction scenes as [|s scenes IH]; [discriminate|].
  cbn [validate_scenes].
  destruct (all_keys_in scene_keys s) as [[|]|e'] eqn:Hs; try discriminate.
  - intros H. destruct (IH H) as (Hclass & scene & Hin & Hc).
    split; [exact Hclass|]. exists scene. split; [apply elem_of_cons; by right | assumption].
  - intros [= ->]. destruct s; try (by vm_compute in Hs; discriminate Hs).
    + cbn in Hs. injection Hs as <-. split; [reflexivity|].
      exists JNull. split; [apply elem_of_cons; by left | reflexivity].
    + cbn in Hs. injection Hs as <-. split; [reflexivity|].
      exists (JBool b). split; [apply elem_of_cons; by left | reflexivity].
    + cbn in Hs. injection Hs as <-. split; [reflexivity|].
      exists (JNum literal). split; [apply elem_of_cons; by left | reflexivity].
    + exfalso. revert Hs. generalize scene_keys. intros keys.
      induction keys as [|k keys IHk]; [discriminate|].
      cbn [all_keys_in py_in]. destruct (contains k s); [exact IHk | discriminate].
    + exfalso. revert Hs. generalize scene_keys. intros keys.
      induction keys as [|k keys IHk]; [discriminate|].
      cbn [all_keys_in py_in]. destruct (existsb (is_json_str k) items); [exact IHk | discriminate].
    + rewrite all_keys_in_objects in Hs. discriminate.
Qed.

(** X6: [validate_script] tests presence only.  A script whose scenes are
    objects is accepted exactly when it has a title, a description and a
    non-empty list of scenes each of which has the four scene keys, of
    whatever types the values are; a value other than an object is
    rejected; and the only exception [validate_script] raises is the
    [TypeError] of [key in scene] for a scene that is null, a boolean or
    a number. *)
Theorem validate_script_tests_presence :
  (forall bindings scenes,
      lookup_key "scenes" bindings = Some (JList scenes) ->
      (forall scene, scene ∈ scenes -> exists fields, scene = JObj fields) ->
      validate_script (JObj bindings) = Ok true
      <-> (is_Some (lookup_key "title" bindings)
           /\ is_Some (lookup_key "description" bindings)
           /\ scenes <> []
           /\ forall scene, scene ∈ scenes -> object_with_keys scene_keys scene))
  /\ (forall script0,
      (forall bindings, script0 <> JObj bindings) -> validate_script script0 = Ok false)
  /\ (forall script0 e,
      validate_script script0 = Raise e ->
      exn_class e = "TypeError"
      /\ exists scene, scene ∈ scenes_of script0 /\ not_a_container scene = true)
  /\ validate_script untyped_script = Ok true
  /\ (exists e,
      validate_script numbered_scene_script = Raise e /\ exn_class e = "TypeError").
Proof.
  split; [|split; [|split; [|split; [reflexivity|]]]];
    [| | |eexists; split; vm_compute; reflexivity].
  - intros bindings scenes Hs Hobj. unfold validate_script. rewrite Hs.
    cbn [required_keys forallb]. unfold has_key at 1 2 3. rewrite Hs.
    rewrite andb_true_r.
    destruct (lookup_key "title" bindings) as [t|]; cycle 1.
    { cbn. split; [discriminate|]. by intros ([? [=]] & _). }
    destruct (lookup_key "description" bindings) as [d|]; cycle 1.
    { cbn. split; [discriminate|]. by intros (_ & [? [=]] & _). }
    cbn [andb negb].
    destruct scenes as [|s0 scenes].
    { split; [discriminate|]. by intros (_ & _ & ? & _). }
    rewrite (validate_scenes_objects (s0 :: scenes) Hobj).
    split.
    + intros Hall. split; [by eexists|]. split; [by eexists|]. split; [discriminate | exact Hall].
    + by intros (_ & _ & _ & Hall).
  - intros script0 Hno. destruct script0; try reflexivity. by destruct (Hno bindings).
  - intros script0 e Hv. destruct script0 as [| | | | |bindings]; try discriminate.
    unfold validate_script in Hv. destruct (negb _); [discriminate|].
    cbn [scenes_of].
    destruct (lookup_key "scenes" bindings) as [[| | | |scenes|]|]; try discriminate.
    destruct scenes as [|s0 scenes]; [discriminate|].
    by apply validate_scenes_raises.
Qed.

(** ** Names of the artefacts of a job *)

Lemma string_length_app (a b : string) :
  String.length (a +:+ b) = String.length a + String.length b.
Proof. induction a as [|c a IH]; [reflexivity|]. rewrite app_cons. simpl. by rewrite IH. Qed.

Lemma string_app_inj_r (a b e : string) : a +:+ e = b +:+ e -> a = b.
Proof.
  revert b. induction a as [|c a IH]; intros [|c' b] H.
  - reflexivity.
  - apply (f_equal String.length) in H. rewrite app_nil_l, string_length_app in H.
    simpl in H. lia.
  - apply (f_equal String.length) in H. rewrite app_nil_l, string_length_app in H.
    simpl in H. lia.
  - rewrite !app_cons in H. injection H as -> H. f_equal. by apply IH.
Qed.

Lemma scene_file_inj (i k : Z) (ext : string) : scene_file i ext = scene_file k ext -> i = k.
Proof.
  unfold scene_file. intros H.
  apply (inj (String.app "scene_")) in H.
  apply string_app_inj_r in H. apply (inj pretty) in H. lia.
Qed.

(** X7: the file a stage writes for a scene is named after the scene's
    index alone, and two scenes never share a file: the names
    [scene_{i+1}<ext>] of distinct indices differ, in every directory, and
    so do the names [combined_scene_{i+1}.mp4]; no combined clip is named
    like the final video, which is written to the same directory. *)
Theorem scene_artifact_names_are_distinct (d ext : string) (i k : Z) :
  i <> k ->
  scene_file i ext <> scene_file k ext
  /\ path_div d (scene_file i ext) <> path_div d (scene_file k ext)
  /\ path_div d ("combined_" +:+ scene_file i ".mp4")
     <> path_div d ("combined_" +:+ scene_file k ".mp4")
  /\ path_div d ("combined_" +:+ scene_file i ".mp4") <> path_div d "final_video.mp4".
Proof.
  intros Hik. unfold path_div. repeat split; intros H.
  - by apply scene_file_inj in H.
  - apply (inj (String.app d)), (inj (String.app "/")) in H. by apply scene_file_inj in H.
  - apply (inj (String.app d)), (inj (String.app "/")), (inj (String.app "combined_")) in H.
    by apply scene_file_inj in H.
  - apply (inj (String.app d)), (inj (String.app "/")) in H. discriminate H.
Qed.

Lemma scene_artifact_names_are_distinct_witness :
  scene_file 0 ".py" = "scene_1.py"
  /\ scene_file 1 ".py" = "scene_2.py"
  /\ path_div "jobs/j1/script" (scene_file 0 ".py")
     <> path_div "jobs/j1/script" (scene_file 1 ".py").
Proof.
  split; [reflexivity|]. split; [reflexivity|].
  apply (scene_artifact_names_are_distinct "jobs/j1/script" ".py" 0 1). lia.
Defined.

(** ** Jobs do not interfere *)

Lemma slash_free_split (a b x y : string) :
  slash_free a = true -> slash_free b = true ->
  a +:+ "/" +:+ x = b +:+ "/" +:+ y -> a = b.
Proof.
  unfold slash_free. change ("/" +:+ x) with (String "/" x).
  change ("/" +:+ y) with (String "/" y). revert b.
  induction a as [|c a IH]; intros [|c' b]; cbn [all_chars].
  - reflexivity.
  - intros _ Hb. change (String "/" x = String c' (b +:+ String "/" y) -> "" = String c' b).
    intros [= <- _]. discriminate Hb.
  - intros Ha _. change (String c (a +:+ String "/" x) = String "/" y -> String c a = "").
    intros [= -> _]. discriminate Ha.
  - intros [_ Ha]%andb_prop [_ Hb]%andb_prop.
    change (String c (a +:+ String "/" x) = String c' (b +:+ String "/" y)
            -> String c a = String c' b).
    intros [= -> H]. f_equal. by eapply IH.
Qed.

Lemma slash_free_no_slash (a x : string) : slash_free (a +:+ "/" +:+ x) = false.
Proof.
  unfold slash_free. change ("/" +:+ x) with (String "/" x).
  induction a as [|c a IH].
  - reflexivity.
  - change (String c a +:+ String "/" x) with (String c (a +:+ String "/" x)).
    cbn [all_chars]. rewrite IH. apply andb_false_r.
Qed.

(** Nothing of one job lies below the directory of another job. *)
Lemma under_other_job (id id' rest : string) :
  slash_free id = true -> slash_free id' = true -> id <> id' ->
  under (path_div JOBS_DIR id) (path_div (path_div JOBS_DIR id') rest) = false
  /\ under (path_div JOBS_DIR id) (path_div JOBS_DIR id') = false.
Proof.
  intros Hid Hid' Hne. unfold under, path_div, JOBS_DIR.
  split; apply orb_false_intro.
  - apply bool_decide_eq_false. rewrite string_app_assoc. intros H.
    apply (inj (String.app "jobs")), (inj (String.app "/")) in H.
    rewrite ?string_app_assoc in H.
    rewrite <- H, slash_free_no_slash in Hid. discriminate.
  - destruct (strip_prefix _ _) as [r|] eqn:Hp; [|reflexivity].
    apply strip_prefix_Some in Hp. rewrite !string_app_assoc in Hp.
    apply (inj (String.app "jobs")), (inj (String.app "/")) in Hp.
    destruct Hne. symmetry. by eapply slash_free_split.
  - apply bool_decide_eq_false. intros H.
    apply (inj (String.app "jobs")), (inj (String.app "/")) in H. congruence.
  - destruct (strip_prefix _ _) as [r|] eqn:Hp; [|reflexivity].
    apply strip_prefix_Some in Hp. rewrite !string_app_assoc in Hp.
    apply (inj (String.app "jobs")), (inj (String.app "/")) in Hp.
    rewrite Hp, slash_free_no_slash in Hid'. discriminate.
Qed.

Lemma shutil_rmtree_effect (E : Env) (d : string) (w w1 : fs) :
  shutil_rmtree E d w = (Ok tt, w1) ->
  (forall p, under d p = true -> files w1 !! p = None /\ p ∉ dirs w1)
  /\ (forall p, under d p = false ->
      files w1 !! p = files w !! p /\ (p ∈ dirs w1 <-> p ∈ dirs w)).
Proof.
  unfold shutil_rmtree.
  destruct (negb (is_dir d w)); [discriminate|].
  destruct (os_refuses E (OpRmtree d)); [discriminate|].
  intros [= <-]. cbn [files dirs]. split; intros p Hp.
  - split.
    + apply map_lookup_filter_None. right. intros x _. cbn. by rewrite Hp.
    + rewrite elem_of_filter. rewrite Hp. cbn. intros [[=] _].
  - split.
    + destruct (files w !! p) as [x|] eqn:Hx.
      * apply map_lookup_filter_Some. split; [assumption|]. cbn. by rewrite Hp.
      * apply map_lookup_filter_None. by left.
    + rewrite elem_of_filter, Hp. cbn. tauto.
Qed.

Lemma generate_video_task_registry (E : Env) (id : string) (request : VideoRequest)
    (a a' : server) (r : result unit) :
  generate_video_task E id request a = (r, a') ->
  forall id', id' <> id -> job_statuses a' !! id' = job_statuses a !! id'.
Proof.
  intros Htask id' Hne. unfold generate_video_task in Htask.
  apply run_bind in Htask as [(e & Hsetup & _)|(made & a1 & Hsetup & Htask)].
  - apply workspace_setup_frame in Hsetup as (-> & _). reflexivity.
  - apply workspace_setup_frame in Hsetup as (Hreg1 & _).
    unfold try_except in Htask.
    destruct (pipeline _ _ _ _ _ _ _ a1) as [r' a2] eqn:Hrun.
    destruct (pipeline_outcome _ _ _ _ _ _ _ _ _ _ Hrun)
      as (script0 & trace & j & _ & Hst & _).
    destruct r' as [[]|e].
    + injection Htask as _ <-. destruct Hst as (-> & _).
      by rewrite lookup_insert_ne, Hreg1.
    + rewrite (on_failure_assigned _ e _ _ _ _ Hst) in Htask.
      injection Htask as _ <-. cbn [job_statuses]. destruct Hst as (-> & _).
      by rewrite !lookup_insert_ne, Hreg1.
Qed.

Lemma delete_job_registry (E : Env) (id : string) (a a' : server) (r : result string) :
  delete_job E id a = (r, a') ->
  forall id', id' <> id -> job_statuses a' !! id' = job_statuses a !! id'.
Proof.
  intros H id' Hne. unfold delete_job, del_job, on_fs in H. unfold_monad.
  repeat match type of H with
         | context [match ?x with _ => _ end] => destruct_innermost x
         end;
    simplify_eq; cbn [job_statuses]; by rewrite ?lookup_delete_ne.
Qed.

(** X8: jobs do not interfere.  Accepting a job stores its queued record,
    which a status request then returns, and changes neither a file nor
    the record of another job; a refused acceptance changes nothing.  The
    task of a job, however it ends, and a delete request, whatever it
    answers, leave the records of all other jobs as they were.  A delete
    that removed the job directory has removed every file and directory
    below it and nothing else; and nothing of another job lies below it
    when job identifiers contain no slash. *)
Theorem jobs_do_not_interfere (E : Env) :
  (forall id request a accepted a',
      generate_video E id request a = (Ok accepted, a') ->
      acc_job_id accepted = id
      /\ get_job_status id a'
         = (Ok (mkJobStatus id "queued" 0.0 "Job queued" None None None), a')
      /\ files (fsys a') = files (fsys a)
      /\ forall id', id' <> id -> job_statuses a' !! id' = job_statuses a !! id')
  /\ (forall id request a e a', generate_video E id request a = (Raise e, a') -> a' = a)
  /\ (forall id request a r a',
      generate_video_task E id request a = (r, a') ->
      forall id', id' <> id -> job_statuses a' !! id' = job_statuses a !! id')
  /\ (forall id a r a',
      delete_job E id a = (r, a') ->
      forall id', id' <> id -> job_statuses a' !! id' = job_statuses a !! id')
  /\ (forall id a msg a',
      path_exists (path_div JOBS_DIR id) (fsys a) = true ->
      delete_job E id a = (Ok msg, a') ->
      (forall p, under (path_div JOBS_DIR id) p = true ->
                 files (fsys a') !! p = None /\ p ∉ dirs (fsys a'))
      /\ (forall p, under (path_div JOBS_DIR id) p = false ->
                    files (fsys a') !! p = files (fsys a) !! p
                    /\ (p ∈ dirs (fsys a') <-> p ∈ dirs (fsys a))))
  /\ (forall id id' rest,
      slash_free id = true -> slash_free id' = true -> id <> id' ->
      under (path_div JOBS_DIR id) (path_div (path_div JOBS_DIR id') rest) = false
      /\ under (path_div JOBS_DIR id) (path_div JOBS_DIR id') = false).
Proof.
  split; [|split; [|split; [|split; [|split]]]].
  - intros id request a accepted a'. unfold generate_video, set_job, on_fs, path_mkdir.
    unfold_monad. intros H.
    repeat match type of H with
           | context [match ?x with _ => _ end] => destruct_innermost x
           end; simplify_eq.
    cbn [acc_job_id job_statuses fsys files set_dirs]. unfold get_job_status.
    cbn [job_statuses]. rewrite lookup_insert_eq.
    repeat split. intros id' Hne. by rewrite lookup_insert_ne.
  - intros id request a e a'. unfold generate_video, set_job, on_fs, path_mkdir.
    unfold_monad. intros H.
    repeat match type of H with
           | context [match ?x with _ => _ end] => destruct_innermost x
           end; simplify_eq; by destruct a.
  - intros id request a r a'. apply generate_video_task_registry.
  - intros id a r a'. apply delete_job_registry.
  - intros id a msg a' Hexists H. unfold delete_job, del_job, on_fs in H. unfold_monad.
    rewrite Hexists in H.
    destruct (job_statuses a !! id); [|discriminate].
    destruct (shutil_rmtree E (path_div JOBS_DIR id) (fsys a)) as [[[]|e] w1] eqn:Hrm;
      [|discriminate].
    cbn [job_statuses] in H. destruct (job_statuses a !! id); [|discriminate].
    injection H as _ <-. cbn [fsys]. by apply shutil_rmtree_effect in Hrm.
  - apply under_other_job.
Qed.

Lemma jobs_do_not_interfere_witness :
  exists a',
    delete_job bare_env "j1" two_jobs_server = (Ok "Job j1 deleted successfully", a')
    /\ files (fsys a') !! "jobs/j1/output/final_video.mp4" = None
    /\ files (fsys a') !! "jobs/j2/script/script.json" = Some empty_file
    /\ job_statuses a' !! "j2"
       = Some (mkJobStatus "j2" "queued" 0.0 "Job queued" None None None).
Proof.
  destruct (delete_job bare_env "j1" two_jobs_server) as [r a'] eqn:Hrun.
  assert (Hr : r = Ok "Job j1 deleted successfully")
    by (apply (f_equal fst) in Hrun; vm_compute in Hrun; congruence).
  subst r. exists a'. split; [reflexivity|].
  destruct (jobs_do_not_interfere bare_env) as (_ & _ & _ & Hreg & Hfiles & Hother).
  destruct (Hfiles "j1" two_jobs_server _ a' eq_refl Hrun) as (Hgone & Hkept).
  split; [apply Hgone; reflexivity|].
  split.
  - transitivity (files (fsys two_jobs_server) !! "jobs/j2/script/script.json");
      [|reflexivity].
    apply Hkept. apply (Hother "j1" "j2" "script/script.json"); [reflexivity..|discriminate].
  - transitivity (job_statuses two_jobs_server !! "j2"); [|reflexivity].
    apply (Hreg "j1" two_jobs_server _ a' Hrun "j2"). discriminate.
Defined.

(** ** The fields of a job's record *)

(** The exception case of a step of [pipeline], with the script known. *)
Ltac fail_with Hst :=
  eexists _, _;
  split; [|split; [exact Hst | right; eexists; split; [reflexivity | simpl; lia]]];
  by eexists.

Ltac frame_step_with H Hst :=
  eapply bind_frame in H; [|solve_frame|exact Hst];
  destruct H as [(? & -> & Hst')|(? & ? & Hst' & H)]; [fail_with Hst'|];
  clear Hst; rename Hst' into Hst.

(** [pipeline_outcome] with the script named: it is the one
    [generate_script] returns, which passes validation. *)
Lemma pipeline_outcome_script E id request sd ad vd od a r a1 :
  pipeline E id request sd ad vd od a = (r, a1) ->
  exists script0,
    generate_script E (prompt request) (fsys a) = (Ok script0, fsys a)
    /\ validate_script script0 = Ok true
    /\ exists trace j,
        trace `prefix_of` pipeline_trace id script0
        /\ assigned id a trace j a1
        /\ ((r = Ok tt /\ trace = pipeline_trace id script0)
            \/ (exists e, r = Raise e /\ (length trace <= 10)%nat)).
Proof.
  unfold pipeline. intros H.
  destruct (generate_script_valid E (prompt request) (fsys a)) as (script0 & Hgen & Hvalid).
  exists script0. split; [exact Hgen|]. split; [exact Hvalid|].
  unfold bind at 1 in H. rewrite set_job_assigned in H.
  unfold bind at 1, on_fs at 1, zoom at 1 in H. cbn [fsys] in H. rewrite Hgen in H.
  cbn [job_statuses history logged] in H.
  assert (Hst : assigned id a [processing_record id] (processing_record id)
                  (mkServer (fsys a) (<[id := processing_record id]> (job_statuses a))
                     (history a ++ [processing_record id]) (logged a)))
    by (by repeat split).
  frame_step_with H Hst.
  update_step H Hst. update_step H Hst. update_step H Hst.
  frame_step_with H Hst.
  frame_step_with H Hst.
  update_step H Hst. update_step H Hst.
  frame_step_with H Hst.
  update_step H Hst. update_step H Hst.
  frame_step_with H Hst.
  update_step H Hst. update_step H Hst.
  frame_step_with H Hst.
  frame_step_with H Hst.
  update_step H Hst. update_step H Hst. update_step H Hst.
  destruct (update_job_assigned id
              (with_video_url (Some ("/jobs/" +:+ id +:+ "/output/final_video.mp4")))
              _ _ _ _ Hst) as (a' & Hup & Hst').
  rewrite Hup in H. injection H as <- <-.
  eexists _, _. split; [|split; [exact Hst'|left; split; reflexivity]].
  by exists [].
Qed.

Lemma prefix_short {A} (trace l : list A) (n : nat) :
  trace `prefix_of` l -> (length trace <= n)%nat -> forall x, x ∈ trace -> x ∈ take n l.
Proof.
  intros [k ->] Hlen x Hin. apply list_elem_of_lookup in Hin as [i Hi].
  apply (list_elem_of_lookup_2 _ i).
  pose proof (lookup_lt_Some _ _ _ Hi) as Hlt.
  rewrite lookup_take_lt by lia. by apply lookup_app_l_Some.
Qed.

Lemma last_elem_of {A} (l : list A) (x : A) : last l = Some x -> x ∈ l.
Proof.
  intros H. apply last_Some in H as [l' ->]. apply elem_of_app. right. apply elem_of_cons. by left.
Qed.

(** X9: the fields of a job's record agree with each other at every
    moment of its task.  Each value the record takes while
    [generate_video_task] runs carries the job's identifier and a status
    among [processing], [completed] and [failed]; a video address is
    present only in a completed record with progress 1 and is the address
    of the job's final video; an error text is present only in a failed
    record, which never has a video address; and the script a record
    carries is the one [generate_script] returned, which passes
    [validate_script]. *)
Theorem job_record_fields_agree
    (E : Env) (id : string) (request : VideoRequest) (a0 a1 a2 : server)
    (made : list unit) (r : result unit) :
  for_each (fun dir_path => on_fs (path_mkdir E dir_path)) (workspace_dirs id) a0
    = (Ok made, a1) ->
  generate_video_task E id request a0 = (r, a2) ->
  exists trace script0,
    history a2 = history a0 ++ trace
    /\ generate_script E (prompt request) (fsys a1) = (Ok script0, fsys a1)
    /\ validate_script script0 = Ok true
    /\ (forall x, x ∈ trace -> record_consistent id x)
    /\ (forall x, x ∈ trace -> script x = None \/ script x = Some script0)
    /\ (exists j, job_statuses a2 !! id = Some j /\ last trace = Some j).
Proof.
  intros Hsetup Htask.
  rewrite (generate_video_task_after_setup _ _ _ _ _ _ Hsetup) in Htask.
  destruct (workspace_setup_frame _ _ _ _ _ Hsetup) as (Hreg0 & Hhist0 & Hlog0).
  unfold try_except in Htask.
  destruct (pipeline _ _ _ _ _ _ _ a1) as [r' a'] eqn:Hrun.
  destruct (pipeline_outcome_script _ _ _ _ _ _ _ _ _ _ Hrun)
    as (script0 & Hgen & Hvalid & trace & j & Hpre & Hst & Hcase).
  assert (Hall : Forall (fun x => record_consistent id x
                                  /\ (script x = None \/ script x = Some script0))
                   (pipeline_trace id script0)).
  { unfold pipeline_trace, record_consistent. cbn.
    repeat (apply Forall_cons; split;
            [repeat split; auto; try discriminate; right; by repeat split|]).
    apply Forall_nil_2. }
  assert (Hearly : Forall (fun x => job_id x = id /\ status x = "processing"
                                    /\ video_url x = None /\ error x = None
                                    /\ (script x = None \/ script x = Some script0))
                     (take 10 (pipeline_trace id script0))).
  { unfold pipeline_trace. cbn.
    repeat (apply Forall_cons; split; [repeat split; auto|]). apply Forall_nil_2. }
  rewrite Forall_forall in Hall. rewrite Forall_forall in Hearly.
  destruct Hcase as [(-> & ->)|(e & -> & Hlen)].
  - injection Htask as <- <-.
    destruct Hst as (Hreg & Hhist & _ & Hlast).
    exists (pipeline_trace id script0), script0.
    split; [by rewrite Hhist, Hhist0|]. split; [exact Hgen|]. split; [exact Hvalid|].
    split; [intros x Hx; by apply Hall|]. split; [intros x Hx; by apply Hall|].
    exists j. split; [rewrite Hreg; apply lookup_insert_eq | exact Hlast].
  - rewrite (on_failure_assigned _ e _ _ _ _ Hst) in Htask.
    injection Htask as <- <-.
    pose proof Hst as (Hreg & Hhist & _ & Hlast).
    destruct (Hearly j) as (Hid & Hstatus & Hurl & Herr & Hscript).
    { eapply prefix_short; [exact Hpre | exact Hlen | by apply last_elem_of]. }
    assert (Hfail : forall x, x ∈ failure_trace e j ->
                record_consistent id x /\ (script x = None \/ script x = Some script0)).
    { intros x Hx. unfold failure_trace in Hx. rewrite !elem_of_cons in Hx.
      destruct Hx as [->|[->|[->|Hx]]]; [| | |by apply elem_of_nil in Hx];
        unfold record_consistent; cbn; rewrite ?Hurl, ?Herr;
        (repeat split; auto; try discriminate). }
    exists (trace ++ failure_trace e j), script0.
    cbn [history job_statuses].
    split; [by rewrite Hhist, Hhist0, app_assoc|]. split; [exact Hgen|].
    split; [exact Hvalid|].
    assert (Hsub : forall x, x ∈ trace -> x ∈ pipeline_trace id script0).
    { intros x Hx. destruct Hpre as [k ->]. apply elem_of_app. by left. }
    split; [|split].
    + intros x [Hx|Hx]%elem_of_app; [by apply Hall, Hsub | by apply Hfail].
    + intros x [Hx|Hx]%elem_of_app; [by apply Hall, Hsub | by apply Hfail].
    + exists (failed_record e j). split; [apply lookup_insert_eq|].
      unfold failure_trace. by rewrite !last_app.
Qed.

(** The theorem for job [j1] on a machine whose disk is full: the job
    fails while writing the script, and every value of its record is
    consistent. *)
Lemma job_record_fields_agree_witness :
  exists a2 trace,
    generate_video_task full_disk_env "j1" example_request queued_server = (Ok tt, a2)
    /\ history a2 = history queued_server ++ trace
    /\ (forall x, x ∈ trace -> record_consistent "j1" x)
    /\ (status <$> job_statuses a2 !! "j1") = Some "failed".
Proof.
  pose (a1 := (for_each (fun dir_path => on_fs (path_mkdir full_disk_env dir_path))
                 (workspace_dirs "j1") queued_server).2).
  pose (a2 := (generate_video_task full_disk_env "j1" example_request queued_server).2).
  assert (Hrun : generate_video_task full_disk_env "j1" example_request queued_server
                 = (Ok tt, a2)) by (vm_compute; reflexivity).
  destruct (job_record_fields_agree full_disk_env "j1" example_request queued_server a1 a2
              [tt; tt; tt; tt] (Ok tt))
    as (trace & script0 & Hhist & _ & _ & Hall & _).
  - vm_compute. reflexivity.
  - exact Hrun.
  - exists a2, trace. split; [exact Hrun|]. split; [exact Hhist|]. split; [exact Hall|].
    vm_compute. reflexivity.
Defined.

(** ** Paths below a directory *)

Lemma head_through_last_slash_path_div (d name : string) :
  slash_free name = true -> head_through_last_slash (path_div d name) = d +:+ "/".
Proof.
  intros Hname. unfold head_through_last_slash, path_div.
  rewrite rev_app_distr. change ("/" +:+ name) with (String "/" name).
  rewrite rev_cons, string_app_assoc.
  change (String "/" "" +:+ String.rev d) with (String "/" (String.rev d)).
  rewrite span_all_chars; [|by rewrite all_chars_rev|reflexivity].
  cbn [snd]. rewrite rev_cons, rev_involutive. reflexivity.
Qed.

Lemma rstrip_slash (d0 : string) (c : ascii) :
  is_slash c = false ->
  String.rev (span is_slash (String.rev ((d0 +:+ String c "") +:+ "/"))).2
  = d0 +:+ String c "".
Proof.
  intros Hc. rewrite !rev_app_distr.
  change (String.rev "/") with "/". change (String.rev (String c "")) with (String c "").
  change ("/" +:+ String c "" +:+ String.rev d0) with (String "/" (String c (String.rev d0))).
  cbn [span]. change (is_slash "/") with true. cbv iota. rewrite Hc. cbn [snd].
  rewrite rev_cons, rev_involutive. reflexivity.
Qed.

(** [os.path.dirname(d + "/" + name)] is [d] for a name without a slash
    and a directory that does not end with one. *)
Lemma dirname_path_div (d0 name : string) (c : ascii) :
  is_slash c = false -> slash_free name = true ->
  dirname (path_div (d0 +:+ String c "") name) = d0 +:+ String c "".
Proof.
  intros Hc Hname. unfold dirname.
  rewrite head_through_last_slash_path_div by exact Hname.
  rewrite rstrip_slash by exact Hc.
  destruct (d0 +:+ String c "") as [|x d'] eqn:Hd; [|reflexivity].
  apply (f_equal String.length) in Hd.
  rewrite string_length_app in Hd. simpl in Hd. lia.
Qed.

(** ** When a job completes *)

Lemma on_fs_run {A} (m : M fs A) (a a' : server) (r : result A) :
  on_fs m a = (r, a') -> m (fsys a) = (r, fsys a') /\ same_registry a a'.
Proof.
  unfold on_fs, zoom. destruct (m (fsys a)) as [r' w']. intros [= <- <-]. by repeat split.
Qed.

(** A loop whose body returns, on every element and in every state that
    satisfies [I], returns the list of what its bodies returned. *)
Lemma for_each_returns {S A B} (I : S -> Prop) (body : A -> M S B) (xs : list A) :
  (forall x s r s', x ∈ xs -> I s -> body x s = (r, s') -> (exists y, r = Ok y) /\ I s') ->
  forall s r s', I s -> for_each body xs s = (r, s') ->
    (exists ys, r = Ok ys /\ length ys = length xs) /\ I s'.
Proof.
  induction xs as [|x xs IH]; intros Hbody s r s' HI; cbn [for_each].
  - intros [= <- <-]. split; [by exists []|assumption].
  - assert (Hhead : x ∈ x :: xs) by (apply elem_of_cons; by left).
    assert (Htail : forall x0 s0 r0 s0',
               x0 ∈ xs -> I s0 -> body x0 s0 = (r0, s0') -> (exists y, r0 = Ok y) /\ I s0').
    { intros x0 s0 r0 s0' Hin. apply Hbody, elem_of_cons. by right. }
    intros H. apply run_bind in H as [(e & Hm & ->)|(y & s1 & Hm & H)].
    + destruct (Hbody x s (Raise e) s' Hhead HI Hm) as [[? [=]] _].
    + destruct (Hbody x s (Ok y) s1 Hhead HI Hm) as [_ HI1].
      apply run_bind in H as [(e & Hm' & ->)|(ys & s2 & Hm' & H)].
      * destruct (IH Htail s1 (Raise e) s' HI1 Hm') as [(? & [=] & _) _].
      * destruct (IH Htail s1 (Ok ys) s2 HI1 Hm') as [(ys' & [= <-] & Hlen) HI2].
        injection H as <- <-. split; [|assumption].
        exists (y :: ys). split; [reflexivity|]. simpl. by rewrite Hlen.
Qed.

Lemma script_dir_ends (id : string) :
  path_div (path_div JOBS_DIR id) "script"
  = (path_div JOBS_DIR id +:+ "/scrip") +:+ String "t" "".
Proof. unfold path_div. rewrite !string_app_assoc. reflexivity. Qed.

Lemma all_chars_impl (f g : ascii -> bool) (s : string) :
  (forall c, f c = true -> g c = true) -> all_chars f s = true -> all_chars g s = true.
Proof.
  intros Hfg. induction s as [|c s IH]; [reflexivity|]. cbn [all_chars].
  intros [Hc Hs]%andb_prop. by rewrite (Hfg c Hc), IH.
Qed.

Lemma is_word_not_slash c : is_word c = true -> negb (is_slash c) = true.
Proof. destruct c as [[] [] [] [] [] [] [] []]; vm_compute; congruence. Qed.

Lemma scene_file_slash_free (k : nat) (ext : string) :
  slash_free ext = true -> slash_free (scene_file (Z.of_nat k) ext) = true.
Proof.
  intros Hext. unfold slash_free, scene_file in *. rewrite !all_chars_app, Hext.
  rewrite (all_chars_impl is_word _ (pretty _));
    [reflexivity | apply is_word_not_slash | apply pretty_Z_word; lia].
Qed.

(** Writing a file into the [script] directory of a job. *)
Lemma write_into_script_dir (E : Env) (id name : string) (content : bytes) (w : fs) :
  slash_free name = true ->
  os_refuses E (OpWrite (path_div (path_div (path_div JOBS_DIR id) "script") name)) = false ->
  is_dir (path_div (path_div (path_div JOBS_DIR id) "script") name) w = false ->
  is_dir (path_div (path_div JOBS_DIR id) "script") w = true ->
  write_file E (path_div (path_div (path_div JOBS_DIR id) "script") name) content w
  = (Ok tt,
     set_files (fun fm => <[path_div (path_div (path_div JOBS_DIR id) "script") name
                            := content]> fm) w).
Proof.
  intros Hname Hos Hnodir Hdir. apply write_file_ok; [assumption..|].
  unfold parent_exists. rewrite script_dir_ends.
  rewrite dirname_path_div by (reflexivity || assumption).
  rewrite <- script_dir_ends, Hdir. apply orb_true_r.
Qed.

Lemma path_mkdir_dirs (E : Env) (d : string) (w w' : fs) :
  path_mkdir E d w = (Ok tt, w') -> dirs w' = {[d]} ∪ dirs w /\ files w' = files w.
Proof.
  unfold path_mkdir. intros H.
  repeat match type of H with
         | context [match ?x with _ => _ end] => destruct_innermost x
         end; simplify_eq. by split.
Qed.

Lemma mkdir_loop_dirs (E : Env) (ds : list string) (a0 a1 : server) (made : list unit) :
  for_each (fun dir_path => on_fs (path_mkdir E dir_path)) ds a0 = (Ok made, a1) ->
  files (fsys a1) = files (fsys a0)
  /\ forall p, p ∈ dirs (fsys a1) <-> p ∈ ds \/ p ∈ dirs (fsys a0).
Proof.
  revert a0 made. induction ds as [|d ds IH]; intros a0 made; cbn [for_each].
  - intros [= _ <-]. split; [reflexivity|]. intros p. rewrite elem_of_nil. tauto.
  - intros H. apply run_bind in H as [(? & _ & [=])|([] & s1 & [Hm _]%on_fs_run & H)].
    apply path_mkdir_dirs in Hm as [Hd Hf].
    apply run_bind in H as [(? & _ & [=])|(ys & s2 & Hloop & H)].
    injection H as _ <-. apply IH in Hloop as [Hf' Hd'].
    split; [congruence|]. intros p.
    rewrite Hd', Hd, elem_of_cons, elem_of_union, elem_of_singleton. tauto.
Qed.

(** After the four directories were created, [script] is there and no
    file has changed. *)
Lemma workspace_setup_dirs (E : Env) (id : string) (a0 a1 : server) (made : list unit) :
  for_each (fun dir_path => on_fs (path_mkdir E dir_path)) (workspace_dirs id) a0
    = (Ok made, a1) ->
  is_dir (path_div (path_div JOBS_DIR id) "script") (fsys a1) = true
  /\ files (fsys a1) = files (fsys a0).
Proof.
  intros [Hf Hd]%mkdir_loop_dirs. split; [|assumption].
  apply bool_decide_eq_true, Hd. left. apply elem_of_cons. by left.
Qed.

Lemma object_scene_getitem (fields : list (string * json)) (key : string) :
  py_in key (JObj fields) = Ok true -> exists v, py_getitem (JObj fields) key = Ok v.
Proof.
  cbn [py_in py_getitem]. unfold has_key.
  destruct (lookup_key key fields) as [v|]; [by exists v | discriminate].
Qed.

Lemma elem_of_enumerate {A} (xs : list A) (i : Z) (x : A) :
  (i, x) ∈ enumerate xs -> exists k, i = Z.of_nat k /\ xs !! k = Some x.
Proof.
  unfold enumerate. intros (k & y & [= -> ->] & Hk)%elem_of_lookup_imap_1. by exists k.
Qed.

Lemma length_enumerate {A} (xs : list A) : length (enumerate xs) = length xs.
Proof. apply length_imap. Qed.

Lemma bind_update_fs {B} id f (k : unit -> M server B) a0 trace j a r a1 :
  assigned id a0 trace j a ->
  bind (update_job id f) k a = (r, a1) ->
  exists a',
    assigned id a0 (trace ++ [f j]) (f j) a' /\ fsys a' = fsys a /\ k tt a' = (r, a1).
Proof.
  intros Hst H. destruct (update_job_assigned id f a0 trace j a Hst) as (a' & Hup & Hst').
  unfold bind in H. rewrite Hup in H. exists a'. split; [assumption|]. split; [|assumption].
  unfold update_job in Hup. destruct (job_statuses a !! id); [|discriminate].
  by injection Hup as <-.
Qed.

(** The first step of [H] leaves the registry alone. *)
Ltac frame_of H Hfr :=
  match type of H with
  | bind ?m _ _ = _ =>
      assert (Hfr : forall b r' b', m b = (r', b') -> same_registry b b') by solve_frame
  end.

(** The stages of [pipeline] raise in four places only: writing
    [script.json], generating or writing a scene program, and reading the
    narration of a scene.  None of them raises when the scenes are objects
    and the [script] directory accepts the files. *)
Lemma pipeline_does_not_raise (E : Env) (id : string) (request : VideoRequest)
    (ad vd od : string) (a1 a' : server) (script0 : json) (e : exn) :
  generate_script E (prompt request) (fsys a1) = (Ok script0, fsys a1) ->
  validate_script script0 = Ok true ->
  (forall scene, scene ∈ scenes_of script0 -> exists fields, scene = JObj fields) ->
  (forall name,
      os_refuses E (OpWrite (path_div (path_div (path_div JOBS_DIR id) "script") name))
      = false) ->
  (forall name,
      is_dir (path_div (path_div (path_div JOBS_DIR id) "script") name) (fsys a1) = false) ->
  is_dir (path_div (path_div JOBS_DIR id) "script") (fsys a1) = true ->
  pipeline E id request (path_div (path_div JOBS_DIR id) "script") ad vd od a1
  <> (Raise e, a').
Proof.
  intros Hgen Hvalid Hobj Hos Hnodir Hdir H.
  destruct (validate_script_true_inv script0 Hvalid)
    as (bindings & scenes & -> & Hs & Hne & _ & _ & Hkeys).
  cbn [scenes_of] in Hobj. rewrite Hs in Hobj.
  assert (Hfield : forall scene key, scene ∈ scenes -> key ∈ scene_keys ->
                     exists v, py_getitem scene key = Ok v).
  { intros scene key Hin Hk. destruct (Hobj scene Hin) as [fields ->].
    apply object_scene_getitem. by apply Hkeys. }
  unfold pipeline in H.
  unfold bind at 1 in H. rewrite set_job_assigned in H.
  assert (Hst : assigned id a1 [processing_record id] (processing_record id)
                  (mkServer (fsys a1) (<[id := processing_record id]> (job_statuses a1))
                     (history a1 ++ [processing_record id]) (logged a1)))
    by (by repeat split).
  (* the script *)
  apply run_bind in H as [(e' & [Hm _]%on_fs_run & _)|(x & s & Hm & H)].
  { cbn [fsys] in Hm. rewrite Hgen in Hm. discriminate. }
  apply on_fs_run in Hm as [Hm Hframe]. cbn [fsys] in Hm. rewrite Hgen in Hm.
  injection Hm as <- Hfs.
  apply (assigned_frame _ _ _ _ _ _ Hst) in Hframe. clear Hst. rename Hframe into Hst.
  (* script.json *)
  apply run_bind in H as [(e' & [Hm _]%on_fs_run & _)|([] & s1 & Hm & H)].
  { rewrite <- Hfs in Hm. rewrite write_into_script_dir in Hm by (reflexivity || done).
    discriminate. }
  apply on_fs_run in Hm as [Hm Hframe].
  rewrite <- Hfs in Hm. rewrite write_into_script_dir in Hm by (reflexivity || done).
  injection Hm as Hfs1.
  apply (assigned_frame _ _ _ _ _ _ Hst) in Hframe. clear Hst. rename Hframe into Hst.
  assert (Hdirs : dirs (fsys s1) = dirs (fsys a1)) by (by rewrite <- Hfs1).
  clear Hfs Hfs1.
  eapply bind_update_fs in H; [|exact Hst]. destruct H as (s2 & Hst2 & Hfs2 & H).
  eapply bind_update_fs in H; [|exact Hst2]. destruct H as (s3 & Hst3 & Hfs3 & H).
  eapply bind_update_fs in H; [|exact Hst3]. destruct H as (s4 & Hst4 & Hfs4 & H).
  rewrite <- Hfs2, <- Hfs3, <- Hfs4 in Hdirs. clear Hst Hst2 Hst3 Hfs2 Hfs3 Hfs4.
  rename Hst4 into Hst. cbn [Datatypes.app] in Hst.
  (* the scenes *)
  cbn [py_getitem] in H. rewrite Hs in H. cbn [py_iter] in H.
  unfold bind at 1, lift_result at 1 in H.
  (* the programs *)
  match type of H with
  | bind (for_each ?body ?xs) _ _ = _ =>
      assert (Hbody : forall x t r t',
                 x ∈ xs -> dirs (fsys t) = dirs (fsys a1) -> body x t = (r, t') ->
                 (exists y, r = Ok y) /\ dirs (fsys t') = dirs (fsys a1))
  end.
  { intros [i scene] t r t' Hin Ht Hbody.
    apply elem_of_enumerate in Hin as (k & -> & Hk%list_elem_of_lookup_2).
    destruct (Hfield scene "narration" Hk) as [narration Hn];
      [unfold scene_keys; rewrite !elem_of_cons; tauto|].
    destruct (Hfield scene "visualDescription" Hk) as [visual Hv];
      [unfold scene_keys; rewrite !elem_of_cons; tauto|].
    destruct (generate_manim_code_returns E scene narration visual (Z.of_nat k) (fsys t)
                Hn Hv) as [code' Hcode].
    apply run_bind in Hbody
      as [(e2 & [Hc _]%on_fs_run & _)|(code & t1 & [Hc _]%on_fs_run & Hbody)];
      rewrite Hcode in Hc; [discriminate|].
    injection Hc as <- Ht1.
    assert (Hwrite : forall content,
               write_file E
                 (path_div (path_div (path_div JOBS_DIR id) "script")
                    (scene_file (Z.of_nat k) ".py")) content (fsys t1)
               = (Ok tt,
                  set_files (fun fm => <[path_div (path_div (path_div JOBS_DIR id) "script")
                                           (scene_file (Z.of_nat k) ".py") := content]> fm)
                    (fsys t1))).
    { intros content. apply write_into_script_dir.
      - by apply scene_file_slash_free.
      - apply Hos.
      - unfold is_dir. rewrite <- Ht1, Ht. apply Hnodir.
      - unfold is_dir. rewrite <- Ht1, Ht. exact Hdir. }
    apply run_bind in Hbody
      as [(e2 & [Hw _]%on_fs_run & _)|([] & t2 & [Hw _]%on_fs_run & Hbody)];
      rewrite Hwrite in Hw; [discriminate|].
    injection Hw as Ht2. injection Hbody as <- <-.
    split; [by eexists|]. rewrite <- Ht2. cbn [set_files dirs]. by rewrite <- Ht1. }
  frame_of H Hfr1.
  apply run_bind in H as [(e' & Hm & _)|(scene_codes & s5 & Hm & H)];
    pose proof (Hfr1 _ _ _ Hm) as Hframe;
    apply (for_each_returns _ _ _ Hbody _ _ _ Hdirs) in Hm as [(ys & Heq & Hlen) _];
    [discriminate|].
  injection Heq as <-. rewrite length_enumerate in Hlen. clear Hbody Hdirs.
  apply (assigned_frame _ _ _ _ _ _ Hst) in Hframe. clear Hst. rename Hframe into Hst.
  update_step H Hst. update_step H Hst.
  (* the narrations *)
  match type of H with
  | bind (for_each ?body ?xs) _ _ = _ =>
      assert (Hbody : forall x t r t',
                 x ∈ xs -> True -> body x t = (r, t') -> (exists y, r = Ok y) /\ True)
  end.
  { intros [i scene] t r t' Hin _ Hb. split; [|exact Logic.I].
    apply elem_of_enumerate in Hin as (k & -> & Hk%list_elem_of_lookup_2).
    destruct (Hfield scene "narration" Hk) as [narration Hn];
      [unfold scene_keys; rewrite !elem_of_cons; tauto|].
    cbv zeta in Hb. unfold bind at 1, lift_result at 1 in Hb. rewrite Hn in Hb.
    destruct (generate_speech_returns E narration
                (path_div ad (scene_file (Z.of_nat k) ".mp3")) (voice_id request) (fsys t))
      as [w' Hw].
    apply run_bind in Hb as [(e2 & [Hc _]%on_fs_run & _)|(p & t1 & _ & Hb)].
    - rewrite Hw in Hc. discriminate.
    - injection Hb as <- _. by eexists. }
  frame_of H Hfr2.
  apply run_bind in H as [(e' & Hm & _)|(audio_paths & s6 & Hm & H)];
    pose proof (Hfr2 _ _ _ Hm) as Hframe;
    apply (for_each_returns _ _ _ Hbody _ _ _ Logic.I) in Hm as [(ys & Heq & Hlen_audio) _];
    [discriminate|].
  injection Heq as <-. rewrite length_enumerate in Hlen_audio. clear Hbody.
  apply (assigned_frame _ _ _ _ _ _ Hst) in Hframe. clear Hst. rename Hframe into Hst.
  update_step H Hst. update_step H Hst.
  (* the clips *)
  match type of H with
  | bind (for_each ?body ?xs) _ _ = _ =>
      assert (Hbody : forall x t r t',
                 x ∈ xs -> True -> body x t = (r, t') -> (exists y, r = Ok y) /\ True)
  end.
  { intros [i code] t r t' _ _ Hb. split; [|exact Logic.I].
    cbv zeta in Hb.
    destruct (render_scene_returns E code (path_div vd (scene_file i ".mp4"))
                (quality request) (fsys t)) as [w' Hw].
    apply run_bind in Hb as [(e2 & [Hc _]%on_fs_run & _)|(p & t1 & _ & Hb)].
    - rewrite Hw in Hc. discriminate.
    - injection Hb as <- _. by eexists. }
  frame_of H Hfr3.
  apply run_bind in H as [(e' & Hm & _)|(video_paths & s7 & Hm & H)];
    pose proof (Hfr3 _ _ _ Hm) as Hframe;
    apply (for_each_returns _ _ _ Hbody _ _ _ Logic.I) in Hm as [(ys & Heq & Hlen_video) _];
    [discriminate|].
  injection Heq as <-. rewrite length_enumerate, Hlen in Hlen_video. clear Hbody.
  apply (assigned_frame _ _ _ _ _ _ Hst) in Hframe. clear Hst. rename Hframe into Hst.
  update_step H Hst. update_step H Hst.
  (* the combined clips *)
  match type of H with
  | bind (for_each ?body ?xs) _ _ = _ =>
      assert (Hbody : forall x t r t',
                 x ∈ xs -> True -> body x t = (r, t') -> (exists y, r = Ok y) /\ True)
  end.
  { intros i t r t' Hin _ Hb. split; [|exact Logic.I].
    apply elem_of_seq in Hin as [_ Hi]. cbv zeta in Hb.
    unfold bind at 1, list_getitem at 1 in Hb.
    destruct (video_paths !! i) as [video_path|] eqn:Hvp;
      [|apply lookup_ge_None in Hvp; lia].
    unfold ret at 1 in Hb.
    unfold bind at 1, list_getitem at 1 in Hb.
    destruct (audio_paths !! i) as [audio_path|] eqn:Hap;
      [|apply lookup_ge_None in Hap; lia].
    unfold ret at 1 in Hb.
    destruct (combine_audio_video_returns E video_path audio_path
                (path_div od ("combined_" +:+ scene_file (Z.of_nat i) ".mp4")) (fsys t))
      as (p' & w' & Hw & _).
    apply run_bind in Hb as [(e2 & [Hc _]%on_fs_run & _)|(p & t1 & _ & Hb)].
    - rewrite Hw in Hc. discriminate.
    - injection Hb as <- _. by eexists. }
  frame_of H Hfr4.
  apply run_bind in H as [(e' & Hm & _)|(combined_paths & s8 & Hm & H)];
    pose proof (Hfr4 _ _ _ Hm) as Hframe;
    apply (for_each_returns _ _ _ Hbody _ _ _ Logic.I) in Hm as [(ys & Heq & _) _];
    [discriminate|].
  injection Heq as <-. clear Hbody.
  apply (assigned_frame _ _ _ _ _ _ Hst) in Hframe. clear Hst. rename Hframe into Hst.
  (* the final video *)
  cbv zeta in H.
  apply run_bind in H as [(e' & [Hm _]%on_fs_run & _)|(p & s9 & [_ Hframe]%on_fs_run & H)].
  { destruct (concat_videos_returns E combined_paths (path_div od "final_video.mp4") (fsys s8))
      as (p' & w' & Hw & _). rewrite Hw in Hm. discriminate. }
  apply (assigned_frame _ _ _ _ _ _ Hst) in Hframe. clear Hst. rename Hframe into Hst.
  update_step H Hst. update_step H Hst. update_step H Hst.
  destruct (update_job_assigned id
              (with_video_url (Some ("/jobs/" +:+ id +:+ "/output/final_video.mp4")))
              _ _ _ _ Hst) as (a'' & Hup & _).
  rewrite Hup in H. discriminate.
Qed.

Lemma mock_scenes_are_objects (prompt0 : string) (scene : json) :
  scene ∈ scenes_of (generate_mock_script prompt0) -> exists fields, scene = JObj fields.
Proof.
  intros H. apply list_elem_of_In in H. cbn in H.
  destruct H as [<-|[<-|[<-|[<-|[]]]]]; by eexists.
Qed.

Lemma generate_script_without_credential (E : Env) (prompt0 : string) (w : fs) :
  truthy (GEMINI_API_KEY E) = false ->
  generate_script E prompt0 w = (Ok (generate_mock_script prompt0), w).
Proof. intros Hkey. unfold generate_script. unfold_monad. by rewrite Hkey. Qed.

(** X10: when a job completes.  Once the four workspace directories are
    created, the job ends as [completed] with progress 1, the script in
    its record and the address of its final video, whenever the [script]
    directory accepts the files written to it ([script.json] and one
    program per scene) and every scene of the script is an object; without
    the credential of the generative endpoint the script is the mock
    script, whose scenes are objects.  Nothing else can fail the job: the
    speech, rendering and composition steps degrade instead of raising. *)
Theorem job_completes_when_script_files_can_be_written
    (E : Env) (id : string) (request : VideoRequest) (a0 a1 : server) (made : list unit) :
  for_each (fun dir_path => on_fs (path_mkdir E dir_path)) (workspace_dirs id) a0
    = (Ok made, a1) ->
  (forall name,
      os_refuses E (OpWrite (path_div (path_div (path_div JOBS_DIR id) "script") name))
      = false) ->
  (forall name,
      is_dir (path_div (path_div (path_div JOBS_DIR id) "script") name) (fsys a1) = false) ->
  truthy (GEMINI_API_KEY E) = false
  \/ (forall script0 scene,
        generate_script E (prompt request) (fsys a1) = (Ok script0, fsys a1) ->
        scene ∈ scenes_of script0 -> exists fields, scene = JObj fields) ->
  exists script0 a2,
    generate_script E (prompt request) (fsys a1) = (Ok script0, fsys a1)
    /\ generate_video_task E id request a0 = (Ok tt, a2)
    /\ job_statuses a2 !! id
       = Some (mkJobStatus id "completed" 1.0 "Video generation completed" (Some script0)
                 (Some ("/jobs/" +:+ id +:+ "/output/final_video.mp4")) None)
    /\ logged a2 = logged a0
    /\ (truthy (GEMINI_API_KEY E) = false -> script0 = generate_mock_script (prompt request)).
Proof.
  intros Hsetup Hos Hnodir Hscenes.
  rewrite (generate_video_task_after_setup _ _ _ _ _ _ Hsetup).
  destruct (workspace_setup_frame _ _ _ _ _ Hsetup) as (_ & _ & Hlog0).
  destruct (workspace_setup_dirs _ _ _ _ _ Hsetup) as [Hdir _].
  unfold try_except.
  destruct (pipeline _ _ _ _ _ _ _ a1) as [r a2] eqn:Hrun.
  destruct (pipeline_outcome_script _ _ _ _ _ _ _ _ _ _ Hrun)
    as (script0 & Hgen & Hvalid & trace & j & _ & Hst & Hcase).
  assert (Hobj : forall scene, scene ∈ scenes_of script0 -> exists fields, scene = JObj fields).
  { destruct Hscenes as [Hkey|Hobj];
      [|intros scene Hin; exact (Hobj script0 scene Hgen Hin)].
    rewrite (generate_script_without_credential _ _ _ Hkey) in Hgen. injection Hgen as <-.
    apply mock_scenes_are_objects. }
  destruct Hcase as [(-> & ->)|(e & -> & _)].
  - exists script0, a2. destruct Hst as (Hreg & _ & Hlog & [= <-]).
    split; [exact Hgen|]. split; [reflexivity|].
    split; [rewrite Hreg; apply lookup_insert_eq|]. split; [congruence|].
    intros Hkey. rewrite (generate_script_without_credential _ _ _ Hkey) in Hgen. congruence.
  - by eapply pipeline_does_not_raise in Hrun.
Qed.

Lemma job_completes_when_script_files_can_be_written_witness :
  exists a2,
    generate_video_task bare_env "j1" example_request queued_server = (Ok tt, a2)
    /\ job_statuses a2 !! "j1"
       = Some (mkJobStatus "j1" "completed" 1.0 "Video generation completed"
                 (Some (generate_mock_script "Pythagorean theorem"))
                 (Some "/jobs/j1/output/final_video.mp4") None).
Proof.
  pose (a1 := (for_each (fun dir_path => on_fs (path_mkdir bare_env dir_path))
                 (workspace_dirs "j1") queued_server).2).
  assert (Hsetup : for_each (fun dir_path => on_fs (path_mkdir bare_env dir_path))
                     (workspace_dirs "j1") queued_server = (Ok [tt; tt; tt; tt], a1))
    by (vm_compute; reflexivity).
  destruct (job_completes_when_script_files_can_be_written bare_env "j1" example_request
              queued_server a1 [tt; tt; tt; tt] Hsetup)
    as (script0 & a2 & _ & Hrun & Hrecord & _ & Hmock).
  - reflexivity.
  - intros name. apply bool_decide_eq_false.
    destruct (mkdir_loop_dirs _ _ _ _ _ Hsetup) as [_ Hdirs]. rewrite Hdirs.
    unfold workspace_dirs. cbn [fsys queued_server dirs].
    rewrite !elem_of_cons, elem_of_nil, !elem_of_union, !elem_of_singleton.
    intros [[H|[H|[H|[H|[]]]]]|[H|H]]; vm_compute in H; discriminate H.
  - left. reflexivity.
  - exists a2. split; [exact Hrun|]. rewrite Hrecord, (Hmock eq_refl). reflexivity.
Defined.

(** ** Class names after [ensure_proper_class_name] *)







Lemma strip_prefix_app_lit (a b x r : string) :
  strip_prefix (a +:+ b) x = Some r -> strip_prefix a x = Some (b +:+ r).
Proof.
  intros H. apply strip_prefix_Some in H. apply strip_prefix_Some.
  by rewrite H, string_app_assoc.
Qed.

(** A text that does not contain the word [class], followed by one that
    starts with it: no way of reading the word starts inside the first. *)
Lemma strip_class_straddle (q s : string) :
  q <> "" -> strip_prefix "class" q = None ->
  strip_prefix "class" (q +:+ "class" +:+ s) = None.
Proof.
  intros Hq Hnone.
  destruct q as [|c1 q]; [done|]. rewrite app_cons. cbn [strip_prefix] in *.
  destruct (Ascii.eqb "c" c1); [|reflexivity].
  destruct q as [|c2 q]; [reflexivity|]. rewrite app_cons. cbn [strip_prefix] in *.
  destruct (Ascii.eqb "l" c2); [|reflexivity].
  destruct q as [|c3 q]; [reflexivity|]. rewrite app_cons. cbn [strip_prefix] in *.
  destruct (Ascii.eqb "a" c3); [|reflexivity].
  destruct q as [|c4 q]; [reflexivity|]. rewrite app_cons. cbn [strip_prefix] in *.
  destruct (Ascii.eqb "s" c4); [|reflexivity].
  destruct q as [|c5 q]; [reflexivity|]. rewrite app_cons. cbn [strip_prefix] in *.
  destruct (Ascii.eqb "s" c5); [discriminate|reflexivity].
Qed.

Lemma contains_false_cons (p : string) (c : ascii) (s : string) :
  contains p (String c s) = false ->
  strip_prefix p (String c s) = None /\ contains p s = false.
Proof.
  unfold contains. cbn [split_at_first].
  destruct (strip_prefix p (String c s)); [discriminate|].
  destruct (split_at_first p s) as [[? ?]|]; [discriminate|]. by split.
Qed.

Lemma search_class_after_prefix (pre s : string) :
  contains "class" pre = false ->
  search_class (pre +:+ "class" +:+ s) = search_class ("class" +:+ s).
Proof.
  induction pre as [|c pre IH]; intros Hpre; [by rewrite app_nil_l|].
  apply contains_false_cons in Hpre as [Hhere Hpre].
  rewrite app_cons. cbn [search_class]. rewrite <- app_cons.
  unfold match_class_here at 1.
  rewrite strip_class_straddle by (assumption || discriminate).
  cbn [mbind option_bind]. rewrite app_cons. by apply IH.
Qed.

Lemma replace_go_skip (old new a s : string) :
  replace_go old new (String.length a) (a +:+ s) = replace_go old new 0 s.
Proof.
  induction a as [|c a IH]; [by rewrite app_nil_l|].
  rewrite app_cons. cbn [String.length replace_go]. exact IH.
Qed.

Lemma replace_go_match (old new : string) (c : ascii) (s r : string) :
  strip_prefix old (String c s) = Some r ->
  replace_go old new 0 (String c s) = new +:+ replace_go old new (String.length old - 1) s.
Proof. intros H. cbn [replace_go]. by rewrite H. Qed.

Lemma replace_go_no_match (old new : string) (c : ascii) (s : string) :
  strip_prefix old (String c s) = None ->
  replace_go old new 0 (String c s) = String c (replace_go old new 0 s).
Proof. intros H. cbn [replace_go]. by rewrite H. Qed.

Lemma replace_go_here (a : ascii) (old1 new post : string) :
  replace_go (String a old1) new 0 (String a old1 +:+ post)
  = new +:+ replace_go (String a old1) new 0 post.
Proof.
  rewrite app_cons.
  rewrite (replace_go_match _ _ _ _ post) by (apply strip_prefix_Some; by rewrite app_cons).
  cbn [String.length]. rewrite Nat.sub_1_r. cbn [Nat.pred]. by rewrite replace_go_skip.
Qed.

Lemma replace_go_after_prefix (old' new pre post : string) :
  contains "class" pre = false ->
  replace_go ("class" +:+ old') new 0 (pre +:+ ("class" +:+ old') +:+ post)
  = pre +:+ new +:+ replace_go ("class" +:+ old') new 0 post.
Proof.
  intros Hpre. induction pre as [|c pre IH].
  - rewrite !app_nil_l. change ("class" +:+ old') with (String "c" ("lass" +:+ old')).
    apply replace_go_here.
  - apply contains_false_cons in Hpre as [Hhere Hpre].
    rewrite !(app_cons c pre). rewrite replace_go_no_match; [f_equal; by apply IH|].
    match goal with |- ?x = None => destruct x as [r|] eqn:Hr; [|reflexivity] end.
    apply strip_prefix_app_lit in Hr. rewrite <- app_cons, string_app_assoc in Hr.
    rewrite strip_class_straddle in Hr by (assumption || discriminate). discriminate.
Qed.

Lemma str_replace_canonical (pre name new post : string) :
  contains "class" pre = false ->
  str_replace ("class " +:+ name +:+ "(Scene)") new
    (pre +:+ "class " +:+ name +:+ "(Scene)" +:+ post)
  = pre +:+ new +:+ str_replace ("class " +:+ name +:+ "(Scene)") new post.
Proof.
  intros Hpre. unfold str_replace.
  pose proof (replace_go_after_prefix (" " +:+ name +:+ "(Scene)") new pre post Hpre) as Heq.
  rewrite !string_app_assoc in Heq. exact Heq.
Qed.

(** X12: the renaming works on a declaration in the form the generator
    asks for.  When the first occurrence of the word [class] in a program
    starts a declaration written [class Name(Scene)], with [Name] an
    identifier that does not contain [Scene{index+1}], then
    [ensure_proper_class_name] rewrites that declaration, and the class
    the renderer recognises in the result is [Scene{index+1}]. *)
Theorem ensure_proper_class_name_renames_canonical_declaration
    (pre name post : string) (index : Z) :
  (0 <= index)%Z ->
  contains "class" pre = false ->
  all_chars is_word name = true -> name <> "" ->
  contains ("Scene" +:+ pretty (index + 1)%Z) name = false ->
  let code := pre +:+ "class " +:+ name +:+ "(Scene)" +:+ post in
  let desired := "Scene" +:+ pretty (index + 1)%Z in
  extract_class_name code = Some name
  /\ ensure_proper_class_name code index
     = pre +:+ "class " +:+ desired +:+ "(Scene)"
       +:+ str_replace ("class " +:+ name +:+ "(Scene)") ("class " +:+ desired +:+ "(Scene)")
             post
  /\ extract_class_name (ensure_proper_class_name code index) = Some desired.
Proof.
  intros Hindex Hpre Hword Hne Hnot code desired. subst desired.
  assert (Hcur : search_class code = Some name).
  { unfold code. change ("class " +:+ name +:+ "(Scene)" +:+ post)
      with ("class" +:+ " " +:+ name +:+ "(Scene)" +:+ post).
    rewrite search_class_after_prefix by exact Hpre.
    apply search_class_here. by apply match_class_here_canonical. }
  assert (Hresult : ensure_proper_class_name code index
                    = pre +:+ "class " +:+ ("Scene" +:+ pretty (index + 1)%Z) +:+ "(Scene)"
                      +:+ str_replace ("class " +:+ name +:+ "(Scene)")
                            ("class " +:+ ("Scene" +:+ pretty (index + 1)%Z) +:+ "(Scene)")
                            post).
  { unfold ensure_proper_class_name. rewrite Hcur, Hnot. cbn [negb].
    unfold code. rewrite str_replace_canonical by exact Hpre.
    by rewrite !string_app_assoc. }
  split; [exact Hcur|]. split; [exact Hresult|].
  unfold extract_class_name. rewrite Hresult.
  match goal with
  | |- context [pre +:+ "class " +:+ ?d +:+ "(Scene)" +:+ ?r] =>
      change (pre +:+ "class " +:+ d +:+ "(Scene)" +:+ r)
        with (pre +:+ "class" +:+ " " +:+ d +:+ "(Scene)" +:+ r)
  end.
  rewrite search_class_after_prefix by exact Hpre.
  apply search_class_here. apply match_class_here_canonical; [|discriminate].
  apply scene_name_word. lia.
Qed.

Lemma ensure_proper_class_name_renames_canonical_declaration_witness :
  extract_class_name intro_program = Some "Intro"
  /\ extract_class_name (ensure_proper_class_name intro_program 1) = Some "Scene2".
Proof.
  destruct (ensure_proper_class_name_renames_canonical_declaration
              ("from manim import *" +:+ nl +:+ nl) "Intro"
              (":" +:+ nl +:+ "    def construct(self):" +:+ nl
               +:+ "        self.wait(1)" +:+ nl) 1)
    as (Hcur & _ & Hnew); [lia|reflexivity..|discriminate|reflexivity|].
  split; [exact Hcur | exact Hnew].
Defined.

(** ** Speech *)

Lemma touches_only_refl p d contents w : touches_only p d contents w w.
Proof. repeat split; auto. Qed.

Lemma touches_only_trans p d contents w w1 w2 :
  touches_only p d contents w w1 -> touches_only p d contents w1 w2 ->
  touches_only p d contents w w2.
Proof.
  intros (Hf & Hp & Ht & Hd) (Hf' & Hp' & Ht' & Hd'). repeat split.
  - intros q Hq. by rewrite Hf', Hf.
  - destruct Hp' as [->|[?|?]]; [assumption | right; by left | right; by right].
  - congruence.
  - intros q Hq. destruct (Hd' q Hq) as [?|?]; auto.
Qed.

Lemma touches_only_more p d contents contents' w w1 :
  contents ⊆ contents' -> touches_only p d contents w w1 -> touches_only p d contents' w w1.
Proof.
  intros Hsub (Hf & Hp & Ht & Hd). repeat split; try assumption.
  destruct Hp as [?|[?|(c & Hc & ?)]]; [by left | right; by left|].
  right. right. exists c. split; [by apply Hsub | assumption].
Qed.

Lemma store_touches_only (E : Env) (p : string) (content : bytes) (w w' : fs)
    (r : result string) :
  (os_makedirs E (dirname p) ;;; write_file E p content ;;; ret p) w = (r, w') ->
  touches_only p (dirname p) [content] w w'.
Proof.
  intros H.
  apply run_bind in H as [(e & Hm & _)|([] & w1 & Hm & H)];
    apply os_makedirs_effect in Hm as (Hf1 & Ht1 & _ & Hd1 & _).
  { repeat split; auto; [by rewrite Hf1 | left; by rewrite Hf1|].
    intros q Hq. destruct (Hd1 q Hq) as [?|[? _]]; auto. }
  assert (Hd1' : forall q, q ∈ dirs w1 -> q ∈ dirs w \/ starts_with q (dirname p)).
  { intros q Hq. destruct (Hd1 q Hq) as [?|[? _]]; auto. }
  apply run_bind in H as [(e & Hw & _)|([] & w2 & Hw & H)];
    apply write_file_effect in Hw as (Hd2 & Ht2 & Hf2 & Hok & Hfail).
  - specialize (Hfail ltac:(discriminate)). repeat split.
    + intros q Hq. by rewrite Hf2, Hf1.
    + destruct Hfail as [Hsame|Hempty]; [left; by rewrite Hsame, Hf1 | right; by left].
    + congruence.
    + intros q. rewrite Hd2. apply Hd1'.
  - injection H as _ <-. repeat split.
    + intros q Hq. by rewrite Hf2, Hf1.
    + right. right. exists content. split; [apply elem_of_cons; by left | by apply Hok].
    + congruence.
    + intros q. rewrite Hd2. apply Hd1'.
Qed.

Lemma generate_mock_audio_touches_only (E : Env) (output_path : string) (w w' : fs)
    (r : result string) :
  generate_mock_audio E output_path w = (r, w') ->
  r = Ok output_path /\ touches_only output_path (dirname output_path) [mock_mp3] w w'.
Proof.
  unfold generate_mock_audio, try_except.
  destruct ((os_makedirs E (dirname output_path) ;;;
             write_file E output_path mock_mp3 ;;; ret output_path) w) as [r1 w1] eqn:Hrun.
  pose proof (store_touches_only _ _ _ _ _ _ Hrun) as Htouch.
  destruct r1 as [p|e].
  - intros [= <- <-]. split; [|assumption].
    apply run_bind in Hrun as [(? & _ & [=])|(? & ? & _ & Hrun)].
    apply run_bind in Hrun as [(? & _ & [=])|(? & ? & _ & Hrun)].
    by injection Hrun as <- _.
  - intros [= <- <-]. by split.
Qed.

Lemma generate_speech_touches_only (E : Env) (text : json) (output_path : string)
    (voice : option string) (w : fs) :
  exists w',
    generate_speech E text output_path voice w = (Ok output_path, w')
    /\ touches_only output_path (dirname output_path) (speech_contents E text voice) w w'.
Proof.
  assert (Hmock : forall w0, exists w0',
             generate_mock_audio E output_path w0 = (Ok output_path, w0')
             /\ touches_only output_path (dirname output_path)
                  (speech_contents E text voice) w0 w0').
  { intros w0. destruct (generate_mock_audio E output_path w0) as [r w0'] eqn:Hrun.
    apply generate_mock_audio_touches_only in Hrun as [-> Htouch].
    exists w0'. split; [reflexivity|].
    eapply touches_only_more; [|exact Htouch].
    intros c Hc. apply elem_of_cons. left. by apply list_elem_of_singleton in Hc. }
  unfold generate_speech, try_except. unfold bind at 1, lift_result at 1.
  destruct (py_slice_check text) as [[]|e]; [|apply Hmock].
  destruct (negb (truthy (ELEVENLABS_API_KEY E))); [destruct (Hmock w) as (w' & -> & ?); eauto|].
  unfold bind at 1, lift_result at 1.
  change ("https://api.elevenlabs.io/v1/text-to-speech/" +:+ default "None" voice)
    with (speech_url voice).
  destruct (requests_post E (speech_url voice) text) as [response|e] eqn:Hpost;
    [|apply Hmock].
  destruct (resp_status_code response =? 200)%Z;
    [|destruct (Hmock w) as (w' & -> & ?); eauto].
  destruct ((os_makedirs E (dirname output_path) ;;;
             write_file E output_path (resp_content response) ;;; ret output_path) w)
    as [r1 w1] eqn:Hrun.
  pose proof (store_touches_only _ _ _ _ _ _ Hrun) as Htouch.
  assert (Htouch' : touches_only output_path (dirname output_path)
                      (speech_contents E text voice) w w1).
  { eapply touches_only_more; [|exact Htouch].
    intros c Hc%list_elem_of_singleton. subst c. unfold speech_contents. rewrite Hpost.
    apply elem_of_cons. right. apply elem_of_cons. by left. }
  destruct r1 as [p|e].
  - exists w1. split; [|assumption].
    apply run_bind in Hrun as [(? & _ & [=])|(? & ? & _ & Hrun)].
    apply run_bind in Hrun as [(? & _ & [=])|(? & ? & _ & Hrun)].
    by injection Hrun as <- _.
  - destruct (Hmock w1) as (w' & -> & Htouch2). exists w'. split; [reflexivity|].
    by eapply touches_only_trans.
Qed.



(** ** Concatenation of several clips *)

Lemma concat_cleanup_effect (E : Env) (list_file temp_dir : string) (w w' : fs)
    (r : result unit) :
  try_except (os_remove E list_file ;;; os_rmdir E temp_dir) (fun _ => ret tt) w = (r, w') ->
  r = Ok tt
  /\ (forall p, p <> list_file -> files w' !! p = files w !! p)
  /\ (os_refuses E (OpRemove list_file) = false -> files w' !! list_file = None).
Proof.
  unfold try_except, os_remove, os_rmdir, is_file. unfold_monad. intros H.
  repeat match type of H with
         | context [match ?x with _ => _ end] => destruct_innermost x
         end; simplify_eq; cbn [files set_files set_dirs];
    (split; [reflexivity|split]);
    try (intros p Hp; by rewrite ?lookup_delete_ne);
    try (intros _; by rewrite ?lookup_delete_eq); try done.
Qed.

(** X14: [concat_videos] on two or more clips.  Once the output
    directory, the temporary directory and the list file are there and the
    media tool has run, the list file is removed again (unless the
    operating system refuses) and no other file is touched by the clean-up.
    With exit code 0 the output path is returned and the output is what
    the tool left.  With another exit code the result is that of
    [fallback_copy] on the first clip alone: when that copy succeeds the
    output holds the bytes of the first clip, and the later clips are in
    it nowhere.  When the tool cannot be started the result is again that
    of [fallback_copy] on the first clip, with no clean-up before it. *)
Theorem concat_videos_several_clips
    (E : Env) (first second : string) (others : list string) (output_path temp_dir : string)
    (w w1 w2 w3 : fs) :
  let video_paths := first :: second :: others in
  let list_file := path_join temp_dir "video_list.txt" in
  os_makedirs E (dirname output_path) w = (Ok tt, w1) ->
  tempfile_mkdtemp E w1 = (Ok temp_dir, w2) ->
  write_file E list_file (list_byte_of_string (concat_manifest E video_paths)) w2
    = (Ok tt, w3) ->
  (forall process0 w4,
      subprocess_exec E (concat_cmd list_file output_path) w3 = (Ok process0, w4) ->
      let w5 := after_concat_cleanup E temp_dir w4 in
        (forall p, p <> list_file -> files w5 !! p = files w4 !! p)
        /\ (os_refuses E (OpRemove list_file) = false -> files w5 !! list_file = None)
        /\ (returncode process0 = 0%Z ->
            concat_videos E video_paths output_path w = (Ok output_path, w5))
        /\ (returncode process0 <> 0%Z ->
            concat_videos E video_paths output_path w = fallback_copy E first output_path w5)
        /\ (forall w6 w7,
            returncode process0 <> 0%Z ->
            os_makedirs E (dirname output_path) w5 = (Ok tt, w6) ->
            is_dir output_path w6 = false ->
            shutil_copy2 E first output_path w6 = (Ok tt, w7) ->
            concat_videos E video_paths output_path w = (Ok output_path, w7)
            /\ is_Some (files w5 !! first)
            /\ files w7 !! output_path = files w5 !! first))
  /\ (forall e w4,
      subprocess_exec E (concat_cmd list_file output_path) w3 = (Raise e, w4) ->
      concat_videos E video_paths output_path w = fallback_copy E first output_path w4).
Proof.
  intros video_paths list_file Hmk Htmp Hwrite.
  assert (Hfallback : forall w0 r w0',
             fallback_copy E first output_path w0 = (r, w0') -> exists p, r = Ok p).
  { intros w0 r w0' Hrun.
    destruct (fallback_copy_returns E first output_path w0) as (p & w' & Hp & _).
    rewrite Hp in Hrun. injection Hrun as <- _. by exists p. }
  assert (Hshape : forall w0,
             try_except (fallback_copy E first output_path)
               (fun _ => fallback_copy E first output_path) w0
             = fallback_copy E first output_path w0).
  { intros w0. unfold try_except.
    destruct (fallback_copy E first output_path w0) as [[p|e] w'] eqn:Hrun; [reflexivity|].
    by destruct (Hfallback _ _ _ Hrun). }
  split.
  - intros process0 w4 Hexec w5.
    destruct (try_except (os_remove E list_file ;;; os_rmdir E temp_dir) (fun _ => ret tt) w4)
      as [rc w5'] eqn:Hclean.
    assert (w5 = w5') as -> by (unfold w5, after_concat_cleanup; fold list_file; by rewrite Hclean).
    rename w5' into w5.
    destruct (concat_cleanup_effect _ _ _ _ _ _ Hclean) as (-> & Hkeep & Hgone).
    assert (Hrun : concat_videos E video_paths output_path w
                   = if (returncode process0 =? 0)%Z then (Ok output_path, w5)
                     else fallback_copy E first output_path w5).
    { unfold concat_videos, video_paths. cbn [length Nat.eqb].
      unfold try_except at 1. unfold bind at 1. rewrite Hmk.
      unfold try_except at 1. unfold bind at 1. rewrite Htmp.
      fold list_file. fold video_paths. unfold bind at 1. rewrite Hwrite.
      unfold bind at 1. rewrite Hexec.
      unfold bind at 1. rewrite Hclean.
      destruct (returncode process0 =? 0)%Z; [reflexivity|].
      unfold bind at 1, decode_stderr.
      destruct (stderr_decodes process0).
      - unfold ret at 1.
        destruct (fallback_copy E first output_path w5) as [[p|e] w'] eqn:Hcopy;
          [reflexivity | by destruct (Hfallback _ _ _ Hcopy)].
      - unfold raise at 1.
        destruct (fallback_copy E first output_path w5) as [[p|e] w'] eqn:Hcopy;
          [reflexivity | by destruct (Hfallback _ _ _ Hcopy)]. }
    split; [exact Hkeep|]. split; [exact Hgone|].
    split; [|split].
    + intros Hzero. rewrite Hrun. apply Z.eqb_eq in Hzero. by rewrite Hzero.
    + intros Hnonzero. rewrite Hrun. apply Z.eqb_neq in Hnonzero. by rewrite Hnonzero.
    + intros w6 w7 Hnonzero Hmk' Hnodir Hcopy. rewrite Hrun.
      apply Z.eqb_neq in Hnonzero. rewrite Hnonzero.
      rewrite (fallback_copy_succeeds _ _ _ _ _ _ Hmk' Hcopy).
      split; [reflexivity|].
      destruct (shutil_copy2_files _ _ _ _ _ Hcopy Hnodir) as (content & Hsrc & Hfiles).
      apply os_makedirs_files in Hmk'. rewrite Hmk' in Hsrc.
      rewrite Hfiles, lookup_insert_eq, Hsrc. split; [by eexists | reflexivity].
  - intros e w4 Hexec.
    unfold concat_videos, video_paths. cbn [length Nat.eqb].
    unfold try_except at 1. unfold bind at 1. rewrite Hmk.
    unfold try_except at 1. unfold bind at 1. rewrite Htmp.
    fold list_file. fold video_paths. unfold bind at 1. rewrite Hwrite.
    unfold bind at 1. rewrite Hexec.
    destruct (fallback_copy E first output_path w4) as [[p|e'] w'] eqn:Hcopy;
      [reflexivity | by destruct (Hfallback _ _ _ Hcopy)].
Qed.

Lemma concat_videos_several_clips_witness :
  exists w7,
    concat_videos broken_ffmpeg_env
      ["jobs/j1/output/combined_scene_1.mp4"; "jobs/j1/output/combined_scene_2.mp4"]
      "jobs/j1/output/final_video.mp4" two_clips_fs
    = (Ok "jobs/j1/output/final_video.mp4", w7)
    /\ files w7 !! "jobs/j1/output/final_video.mp4" = Some rendered_clip
    /\ files w7 !! "/tmp/tmp0/video_list.txt" = None.
Proof.
  pose (E := broken_ffmpeg_env).
  pose (w1 := (os_makedirs E "jobs/j1/output" two_clips_fs).2).
  pose (w2 := (tempfile_mkdtemp E w1).2).
  pose (w3 := (write_file E "/tmp/tmp0/video_list.txt"
                 (list_byte_of_string
                    (concat_manifest E ["jobs/j1/output/combined_scene_1.mp4";
                                        "jobs/j1/output/combined_scene_2.mp4"])) w2).2).
  destruct (concat_videos_several_clips E "jobs/j1/output/combined_scene_1.mp4"
              "jobs/j1/output/combined_scene_2.mp4" [] "jobs/j1/output/final_video.mp4"
              "/tmp/tmp0" two_clips_fs w1 w2 w3) as [Hran _];
    [vm_compute; reflexivity..|].
  destruct (Hran (mkProcess 1 true) w3 eq_refl) as (_ & Hgone & _ & _ & Hcopy).
  pose (w5 := after_concat_cleanup E "/tmp/tmp0" w3).
  pose (w6 := (os_makedirs E "jobs/j1/output" w5).2).
  pose (w7 := (shutil_copy2 E "jobs/j1/output/combined_scene_1.mp4"
                 "jobs/j1/output/final_video.mp4" w6).2).
  destruct (Hcopy w6 w7) as (Hrun & _ & Hbytes);
    [discriminate | vm_compute; reflexivity..|].
  exists w7. split; [exact Hrun|]. split.
  - rewrite Hbytes. vm_compute. reflexivity.
  - vm_compute. reflexivity.
Defined.

(** ** The placeholder clip *)

Lemma generate_mock_video_total (E : Env) (output_path : string) (w : fs) :
  try_except (generate_mock_video E output_path) (fun _ => generate_mock_video E output_path) w
  = generate_mock_video E output_path w.
Proof.
  unfold try_except at 1.
  destruct (generate_mock_video_returns E output_path w) as [w' ->]. reflexivity.
Qed.

(** X15: when [render_scene] degrades to the placeholder, and what the
    placeholder is.  When importing the rendering engine raises (whatever
    the exception), when no temporary directory can be created, and when no
    class name is recognised in the program, [render_scene] is exactly
    [generate_mock_video] on the output path.  [generate_mock_video]
    writes the 24-byte stub when the media tool cannot be started or exits
    with a code other than 0, writes nothing itself when the tool exits
    with code 0, and, like [generate_mock_audio], returns the output path
    without writing anything when the path has no directory part
    ([os.makedirs] of the empty path raises). *)
Theorem render_scene_degrades_to_placeholder
    (E : Env) (scene_code output_path quality0 : string) (w : fs) :
  (forall e,
      import_manim E = Raise e ->
      render_scene E scene_code output_path quality0 w = generate_mock_video E output_path w)
  /\ (forall e w1,
      import_manim E = Ok tt ->
      tempfile_mkdtemp E w = (Raise e, w1) ->
      render_scene E scene_code output_path quality0 w
      = generate_mock_video E output_path w1)
  /\ (forall temp_dir w1,
      import_manim E = Ok tt ->
      tempfile_mkdtemp E w = (Ok temp_dir, w1) ->
      extract_class_name scene_code = None ->
      render_scene E scene_code output_path quality0 w
      = generate_mock_video E output_path w1)
  /\ (forall w1 r w2 w3,
      os_makedirs E (dirname output_path) w = (Ok tt, w1) ->
      subprocess_exec E (mock_video_cmd output_path) w1 = (r, w2) ->
      (forall process0, r = Ok process0 -> returncode process0 <> 0%Z) ->
      write_file E output_path mock_mp4 w2 = (Ok tt, w3) ->
      generate_mock_video E output_path w = (Ok output_path, w3)
      /\ files w3 !! output_path = Some mock_mp4
      /\ forall p, p <> output_path -> files w3 !! p = files w2 !! p)
  /\ (forall w1 process0 w2,
      os_makedirs E (dirname output_path) w = (Ok tt, w1) ->
      subprocess_exec E (mock_video_cmd output_path) w1 = (Ok process0, w2) ->
      returncode process0 = 0%Z ->
      generate_mock_video E output_path w = (Ok output_path, w2))
  /\ (dirname output_path = "" ->
      generate_mock_video E output_path w = (Ok output_path, w)
      /\ generate_mock_audio E output_path w = (Ok output_path, w))
  /\ length mock_mp4 = 24%nat.
Proof.
  split; [|split; [|split; [|split; [|split; [|split]]]]].
  - intros e Himport. unfold render_scene. rewrite Himport.
    destruct (is_import_error e).
    + apply generate_mock_video_total.
    + unfold try_except, raise. reflexivity.
  - intros e w1 Himport Htmp. unfold render_scene. rewrite Himport.
    unfold try_except at 1, with_frame, render_with_manim.
    unfold bind at 1, in_fs at 1, zoom at 1. cbn [snd fst]. rewrite Htmp. reflexivity.
  - intros temp_dir w1. apply render_scene_without_class.
  - intros w1 r w2 w3 Hmk Hexec Hfail Hwrite.
    unfold generate_mock_video. unfold try_except at 1. unfold bind at 1. rewrite Hmk.
    unfold bind at 1. unfold try_except at 1. unfold bind at 1. rewrite Hexec.
    assert (Hnone : match r with
                    | Ok process0 =>
                        (if (returncode process0 =? 0)%Z then ret (Some output_path)
                         else ret None) w2
                    | Raise e => (Raise e, w2)
                    end = (Ok None, w2) \/ exists e, r = Raise e).
    { destruct r as [process0|e]; [left|right; by exists e].
      specialize (Hfail process0 eq_refl). apply Z.eqb_neq in Hfail. by rewrite Hfail. }
    destruct Hnone as [Hnone|[e ->]].
    + rewrite Hnone. unfold bind at 1. rewrite Hwrite. unfold ret.
      apply write_file_effect in Hwrite as (_ & _ & Hkeep & Hnew & _).
      split; [reflexivity|]. split; [by apply Hnew | exact Hkeep].
    + unfold ret at 1. unfold bind at 1. rewrite Hwrite. unfold ret.
      apply write_file_effect in Hwrite as (_ & _ & Hkeep & Hnew & _).
      split; [reflexivity|]. split; [by apply Hnew | exact Hkeep].
  - intros w1 process0 w2 Hmk Hexec Hzero.
    unfold generate_mock_video. unfold try_except at 1. unfold bind at 1. rewrite Hmk.
    unfold bind at 1. unfold try_except at 1. unfold bind at 1. rewrite Hexec.
    apply Z.eqb_eq in Hzero. rewrite Hzero. reflexivity.
  - intros Hdir. unfold generate_mock_video, generate_mock_audio, try_except.
    unfold bind at 1. unfold bind at 2. rewrite Hdir. unfold os_makedirs.
    rewrite bool_decide_eq_true_2 by reflexivity. split; reflexivity.
  - reflexivity.
Qed.

Lemma render_scene_degrades_to_placeholder_witness :
  exists w3,
    render_scene bare_env scene1_program "jobs/j1/video/scene_1.mp4" "low" fresh_fs
    = (Ok "jobs/j1/video/scene_1.mp4", w3)
    /\ files w3 !! "jobs/j1/video/scene_1.mp4" = Some mock_mp4.
Proof.
  pose (E := bare_env). pose (out := "jobs/j1/video/scene_1.mp4").
  pose (w1 := (os_makedirs E "jobs/j1/video" fresh_fs).2).
  pose (w3 := (write_file E out mock_mp4 w1).2).
  destruct (render_scene_degrades_to_placeholder E scene1_program out "low" fresh_fs)
    as (Himport & _ & _ & Hstub & _).
  destruct (Hstub w1 (Raise (FileNotFoundError "ffmpeg")) w1 w3) as (Hrun & Hbytes & _);
    [vm_compute; reflexivity | vm_compute; reflexivity | discriminate
    | vm_compute; reflexivity |].
  exists w3. split; [|exact Hbytes].
  transitivity (generate_mock_video E out fresh_fs); [|exact Hrun].
  exact (Himport (PyExc "ModuleNotFoundError" "No module named 'manim'") eq_refl).
Defined.

(** ** [utils/file_utils.py] *)

Lemma span_fst_all f (s : string) : all_chars f (fst (span f s)) = true.
Proof.
  induction s as [|c s IH]; [reflexivity|]. cbn [span].
  destruct (f c) eqn:Hc; [|reflexivity].
  destruct (span f s) as [a b]. cbn [fst all_chars] in *. by rewrite Hc, IH.
Qed.

Lemma span_all f (a : string) : all_chars f a = true -> span f a = (a, "").
Proof.
  induction a as [|c a IH]; [reflexivity|]. cbn [all_chars span].
  intros [Hc Ha]%andb_prop. by rewrite Hc, (IH Ha).
Qed.

Lemma span_app_all f (a s : string) :
  all_chars f a = true -> span f (a +:+ s) = (a +:+ fst (span f s), snd (span f s)).
Proof.
  induction a as [|c a IH]; intros Ha.
  - rewrite !app_nil_l. by destruct (span f s).
  - cbn [all_chars] in Ha. apply andb_prop in Ha as [Hc Ha].
    rewrite !app_cons. cbn [span]. by rewrite Hc, (IH Ha).
Qed.

Lemma all_chars_and f g (s : string) :
  all_chars (fun c => f c && g c) s = all_chars f s && all_chars g s.
Proof.
  induction s as [|c s IH]; [reflexivity|]. cbn [all_chars]. rewrite IH.
  destruct (f c), (g c), (all_chars f s), (all_chars g s); reflexivity.
Qed.

Lemma is_dot_not_slash (s : string) :
  all_chars is_dot s = true -> all_chars (fun c => negb (is_slash c)) s = true.
Proof.
  apply all_chars_impl. intros c Hc. unfold is_dot in Hc. apply Ascii.eqb_eq in Hc.
  by subst c.
Qed.

Lemma splitext_hidden (before_dir dots name : string) :
  all_chars is_dot dots = true ->
  all_chars (fun c => negb (is_dot c) && negb (is_slash c)) name = true ->
  (before_dir = "" \/ exists d, before_dir = d +:+ "/") ->
  get_file_extension (before_dir +:+ dots +:+ name) = "".
Proof.
  intros Hdots Hname Hdir. rewrite all_chars_and in Hname.
  apply andb_prop in Hname as [Hnodot Hnoslash].
  unfold get_file_extension, splitext.
  rewrite !rev_app_distr, string_app_assoc.
  rewrite span_app_all by (by rewrite all_chars_rev).
  assert (Hrdots : all_chars is_dot (String.rev dots) = true) by (by rewrite all_chars_rev).
  destruct (String.rev dots) as [|c rd] eqn:Hrd.
  - rewrite app_nil_l.
    destruct Hdir as [->|[d ->]]; [reflexivity|].
    rewrite rev_app_distr. change (String.rev "/") with "/".
    change ("/" +:+ String.rev d) with (String "/" (String.rev d)).
    cbn [span]. change (negb (is_dot "/")) with true. cbv iota.
    destruct (span (fun c => negb (is_dot c)) (String.rev d)) as [a b].
    cbn [fst snd]. destruct b as [|x before]; [reflexivity|].
    rewrite all_chars_app. cbn [all_chars]. change (negb (is_slash "/")) with false.
    cbn [andb]. rewrite andb_false_r. reflexivity.
  - cbn [all_chars] in Hrdots. apply andb_prop in Hrdots as [Hc Hrd'].
    rewrite app_cons. cbn [span]. rewrite Hc. cbn [negb fst snd].
    rewrite string_app_nil_r.
    assert (Hcomp : all_chars is_dot
                      (span (fun c0 => negb (is_slash c0)) (rd +:+ String.rev before_dir)).1
                    = true).
    { destruct Hdir as [->|[d ->]].
      - change (String.rev "") with "". rewrite string_app_nil_r.
        by rewrite span_all by (by apply is_dot_not_slash).
      - rewrite rev_app_distr. change (String.rev "/") with "/".
        change ("/" +:+ String.rev d) with (String "/" (String.rev d)).
        rewrite span_all_chars; [assumption|by apply is_dot_not_slash|reflexivity]. }
    rewrite Hcomp. cbn [negb]. by rewrite andb_false_r.
Qed.

(** X16: [get_file_extension].  The result contains neither a dot nor a
    slash.  For a path [stem.ext] whose extension has neither a dot nor a
    slash and whose last component has a character other than a dot before
    the last dot, the result is [ext]; a path without a dot, and a last
    component that is dots followed by a name (a hidden file), have no
    extension. *)
Theorem get_file_extension_cases :
  (forall p,
      all_chars (fun c => negb (is_dot c) && negb (is_slash c)) (get_file_extension p) = true)
  /\ (forall stem ext,
      all_chars (fun c => negb (is_dot c) && negb (is_slash c)) ext = true ->
      all_chars is_dot (basename stem) = false ->
      get_file_extension (stem +:+ "." +:+ ext) = ext)
  /\ (forall p, all_chars (fun c => negb (is_dot c)) p = true -> get_file_extension p = "")
  /\ (forall d dots name,
      all_chars is_dot dots = true ->
      all_chars (fun c => negb (is_dot c) && negb (is_slash c)) name = true ->
      get_file_extension (d +:+ "/" +:+ dots +:+ name) = ""
      /\ get_file_extension (dots +:+ name) = "")
  /\ get_file_extension "jobs/j1/output/final_video.mp4" = "mp4"
  /\ get_file_extension "archive.tar.gz" = "gz"
  /\ get_file_extension "jobs/v1.2/readme" = ""
  /\ get_file_extension ".env" = "".
Proof.
  split; [|split; [|split; [|split; [|repeat split; reflexivity]]]].
  - intros p. unfold get_file_extension, splitext.
    pose proof (span_fst_all (fun c => negb (is_dot c)) (String.rev p)) as Hafter.
    destruct (span (fun c => negb (is_dot c)) (String.rev p)) as [after rest].
    cbn [fst] in Hafter. destruct rest as [|c before]; [reflexivity|].
    destruct (all_chars (fun c0 => negb (is_slash c0)) after) eqn:Hslash; [|reflexivity].
    destruct (negb _); [|reflexivity].
    cbn [snd andb]. change ("." +:+ String.rev after) with (String "." (String.rev after)).
    cbn [drop_first]. by rewrite all_chars_and, !all_chars_rev, Hafter, Hslash.
  - intros stem ext Hext Hstem. rewrite all_chars_and in Hext.
    apply andb_prop in Hext as [Hnodot Hnoslash].
    unfold get_file_extension, splitext.
    rewrite rev_app_distr. change ("." +:+ ext) with (String "." ext).
    rewrite rev_cons, string_app_assoc.
    change (String "." "" +:+ String.rev stem) with (String "." (String.rev stem)).
    rewrite span_all_chars; [|by rewrite all_chars_rev|reflexivity].
    rewrite all_chars_rev, Hnoslash. unfold basename in Hstem.
    rewrite all_chars_rev in Hstem. rewrite Hstem. cbn [negb andb snd].
    by rewrite rev_involutive.
  - intros p Hp. unfold get_file_extension, splitext.
    by rewrite span_all by (by rewrite all_chars_rev).
  - intros d dots name Hdots Hname. split.
    + rewrite <- !string_app_assoc. rewrite (string_app_assoc _ dots name).
      apply splitext_hidden; [assumption..|]. right. by exists d.
    + rewrite <- (app_nil_l (dots +:+ name)). apply splitext_hidden; auto.
Qed.


(** ** [client.py]: waiting for a job *)

Section ClientProperties.

Context (elapsed : nat -> Q) (poll : nat -> result json)
        (progress_callback : option (json -> result unit)).

Lemma wait_loop_step (fuel : nat) (id : string) (timeout0 interval : Z) (k : nat) :
  wait_loop elapsed poll progress_callback (S fuel) id timeout0 interval k
  = if negb (Qle_bool (inject_Z timeout0) (elapsed k)) then
      match poll k with
      | Raise e => Some (Raise e)
      | Ok status0 =>
          match
            match progress_callback with
            | Some callback => callback status0
            | None => Ok tt
            end
          with
          | Raise e => Some (Raise e)
          | Ok _ =>
              match py_getitem status0 "status" with
              | Raise e => Some (Raise e)
              | Ok v =>
                  if is_final v then Some (Ok status0)
                  else
                    match time_sleep interval with
                    | Raise e => Some (Raise e)
                    | Ok _ =>
                        wait_loop elapsed poll progress_callback fuel id timeout0 interval
                          (S k)
                    end
              end
          end
      end
    else Some (Raise (timeout_error id timeout0)).
Proof. reflexivity. Qed.

Lemma wait_loop_more_fuel (fuel fuel' : nat) (id : string) (timeout0 interval : Z) (k : nat)
    (r : result json) :
  wait_loop elapsed poll progress_callback fuel id timeout0 interval k = Some r ->
  (fuel <= fuel')%nat ->
  wait_loop elapsed poll progress_callback fuel' id timeout0 interval k = Some r.
Proof.
  revert fuel' k. induction fuel as [|fuel IH]; intros fuel' k; [discriminate|].
  intros H Hle. destruct fuel' as [|fuel']; [lia|]. cbn [wait_loop] in *.
  repeat match type of H with
         | context [match ?x with _ => _ end] => destruct_innermost x
         end; try exact H.
  all: apply IH; [exact H | lia].
Qed.

Lemma wait_loop_returns_final (fuel : nat) (id : string) (timeout0 interval : Z) (k : nat)
    (status0 : json) :
  wait_loop elapsed poll progress_callback fuel id timeout0 interval k = Some (Ok status0) ->
  exists n v,
    (k <= n)%nat /\ poll n = Ok status0
    /\ (elapsed n < inject_Z timeout0)%Q
    /\ py_getitem status0 "status" = Ok v /\ is_final v = true
    /\ forall i, (k <= i < n)%nat ->
         exists s u, poll i = Ok s /\ py_getitem s "status" = Ok u /\ is_final u = false.
Proof.
  revert k. induction fuel as [|fuel IH]; intros k; [discriminate|].
  cbn [wait_loop].
  destruct (Qle_bool (inject_Z timeout0) (elapsed k)) eqn:Htime; [discriminate|].
  cbn [negb].
  destruct (poll k) as [s|e] eqn:Hpoll; [|discriminate].
  destruct (match progress_callback with Some callback => callback s | None => Ok tt end);
    [|discriminate].
  destruct (py_getitem s "status") as [v|e] eqn:Hv; [|discriminate].
  destruct (is_final v) eqn:Hfinal.
  - intros [= <-]. exists k, v. split; [lia|]. split; [exact Hpoll|].
    split.
    { apply Qnot_le_lt. intros Hle. apply Qle_bool_iff in Hle. congruence. }
    split; [exact Hv|]. split; [exact Hfinal|]. intros i Hi. lia.
  - destruct (time_sleep interval); [|discriminate].
    intros H. destruct (IH _ H) as (n & v' & Hn & Hpn & Hen & Hvn & Hfn & Hbefore).
    exists n, v'. split; [lia|]. repeat (split; [assumption|]).
    intros i Hi. destruct (decide (i = k)) as [->|Hne].
    + by exists s, v.
    + apply Hbefore. lia.
Qed.

Lemma wait_loop_ends (id : string) (timeout0 interval : Z) (n : nat) :
  (inject_Z timeout0 <= elapsed n)%Q ->
  forall k, (k <= n)%nat ->
    exists r,
      wait_loop elapsed poll progress_callback (S (n - k)) id timeout0 interval k = Some r.
Proof.
  intros Hn k Hk. remember (n - k)%nat as m eqn:Hm. revert k Hk Hm.
  induction m as [|m IH]; intros k Hk Hm.
  - assert (k = n) as -> by lia. cbn [wait_loop].
    apply Qle_bool_iff in Hn. rewrite Hn. by eexists.
  - rewrite wait_loop_step.
    repeat match goal with
           | |- context [match ?x with _ => _ end] => destruct_innermost x
           end; try by eexists.
    all: apply IH; lia.
Qed.

Lemma wait_loop_times_out (id : string) (timeout0 interval : Z) (n : nat) :
  (inject_Z timeout0 <= elapsed n)%Q ->
  (0 <= interval)%Z ->
  (forall i, (i < n)%nat ->
     (elapsed i < inject_Z timeout0)%Q
     /\ exists s u,
         poll i = Ok s
         /\ match progress_callback with Some callback => callback s | None => Ok tt end
            = Ok tt
         /\ py_getitem s "status" = Ok u /\ is_final u = false) ->
  forall k, (k <= n)%nat ->
    wait_loop elapsed poll progress_callback (S (n - k)) id timeout0 interval k
    = Some (Raise (timeout_error id timeout0)).
Proof.
  intros Hn Hinterval Hbefore k Hk. remember (n - k)%nat as m eqn:Hm. revert k Hk Hm.
  induction m as [|m IH]; intros k Hk Hm.
  - assert (k = n) as -> by lia. cbn [wait_loop].
    apply Qle_bool_iff in Hn. by rewrite Hn.
  - destruct (Hbefore k) as (Hlt & s & u & Hpoll & Hcb & Hu & Hfinal); [lia|].
    rewrite wait_loop_step.
    assert (Htime : Qle_bool (inject_Z timeout0) (elapsed k) = false).
    { apply not_true_is_false. intros Hle%Qle_bool_iff. by apply Qlt_not_le in Hlt. }
    rewrite Htime, Hpoll, Hcb, Hu, Hfinal. cbn [negb]. unfold time_sleep.
    apply Z.ltb_ge in Hinterval. rewrite Hinterval. apply IH; lia.
Qed.

End ClientProperties.

(** X18: [wait_for_job_completion] of the client.  A status it returns is
    the answer of the last request it made, obtained before the time-out
    had elapsed, and its [status] field is [completed] or [failed]; every
    earlier request was answered with a status that is neither.  Once the
    elapsed time read by the loop reaches the time-out at its n-th test,
    the method ends within n+1 iterations: it returns or raises; and when
    until then every request was answered with a status that is not final,
    the callback returned and the polling interval is not negative, it
    raises [TimeoutError] with the message of the source.  In particular a
    time-out that has elapsed at the first test ends the method without a
    single request. *)
Theorem wait_for_job_completion_outcomes
    (elapsed : nat -> Q) (poll : nat -> result json)
    (progress_callback : option (json -> result unit))
    (id : string) (timeout0 interval : Z) :
  (forall fuel status0,
      wait_for_job_completion elapsed poll progress_callback fuel id timeout0 interval
      = Some (Ok status0) ->
      exists n v,
        poll n = Ok status0
        /\ (elapsed n < inject_Z timeout0)%Q
        /\ py_getitem status0 "status" = Ok v
        /\ (v = JStr "completed" \/ v = JStr "failed")
        /\ forall i, (i < n)%nat ->
             exists s u, poll i = Ok s /\ py_getitem s "status" = Ok u /\ is_final u = false)
  /\ (forall n fuel,
      (inject_Z timeout0 <= elapsed n)%Q -> (n < fuel)%nat ->
      exists r,
        wait_for_job_completion elapsed poll progress_callback fuel id timeout0 interval
        = Some r)
  /\ (forall n fuel,
      (inject_Z timeout0 <= elapsed n)%Q -> (n < fuel)%nat ->
      (0 <= interval)%Z ->
      (forall i, (i < n)%nat ->
         (elapsed i < inject_Z timeout0)%Q
         /\ exists s u,
             poll i = Ok s
             /\ match progress_callback with Some callback => callback s | None => Ok tt end
                = Ok tt
             /\ py_getitem s "status" = Ok u /\ is_final u = false) ->
      wait_for_job_completion elapsed poll progress_callback fuel id timeout0 interval
      = Some (Raise (timeout_error id timeout0)))
  /\ (forall fuel,
      (inject_Z timeout0 <= elapsed 0%nat)%Q -> (0 < fuel)%nat ->
      wait_for_job_completion elapsed poll progress_callback fuel id timeout0 interval
      = Some (Raise (timeout_error id timeout0))).
Proof.
  unfold wait_for_job_completion.
  assert (Htimeout : forall n fuel,
             (inject_Z timeout0 <= elapsed n)%Q -> (n < fuel)%nat ->
             (0 <= interval)%Z ->
             (forall i, (i < n)%nat ->
                (elapsed i < inject_Z timeout0)%Q
                /\ exists s u,
                    poll i = Ok s
                    /\ match progress_callback with
                       | Some callback => callback s
                       | None => Ok tt
                       end = Ok tt
                    /\ py_getitem s "status" = Ok u /\ is_final u = false) ->
             wait_loop elapsed poll progress_callback fuel id timeout0 interval 0
             = Some (Raise (timeout_error id timeout0))).
  { intros n fuel Hn Hfuel Hinterval Hbefore.
    apply (wait_loop_more_fuel _ _ _ (S (n - 0))); [|lia].
    apply wait_loop_times_out; [assumption..|lia]. }
  split; [|split; [|split]].
  - intros fuel status0 H.
    destruct (wait_loop_returns_final _ _ _ _ _ _ _ _ _ H)
      as (n & v & _ & Hpoll & Htime & Hv & Hfinal & Hbefore).
    exists n, v. repeat (split; [assumption|]). split.
    + destruct v as [| | |s| |]; try discriminate. cbn [is_final] in Hfinal.
      apply orb_prop in Hfinal as [Hs|Hs]; apply bool_decide_eq_true in Hs; subst s; auto.
    + intros i Hi. apply Hbefore. lia.
  - intros n fuel Hn Hfuel.
    destruct (wait_loop_ends elapsed poll progress_callback id timeout0 interval n Hn 0)
      as [r Hr]; [lia|].
    exists r. apply (wait_loop_more_fuel _ _ _ (S (n - 0))); [exact Hr | lia].
  - exact Htimeout.
  - intros fuel H0 Hfuel.
    destruct (decide (0 <= interval)%Z) as [Hinterval|Hinterval].
    + apply (Htimeout 0%nat); [assumption..|]. intros i Hi. lia.
    + destruct fuel as [|fuel]; [lia|]. cbn [wait_loop].
      apply Qle_bool_iff in H0. by rewrite H0.
Qed.

(** A job that stays queued, asked every 5 seconds with a time-out of 12
    seconds: three requests, then [TimeoutError]. *)
Lemma wait_for_job_completion_outcomes_witness :
  wait_for_job_completion (fun k => inject_Z (5 * Z.of_nat k))
    (fun _ => Ok (status_body "queued")) None 10 "j1" 12 5
  = Some (Raise (PyExc "TimeoutError" "Job j1 did not complete within 12 seconds")).
Proof.
  apply (proj1 (proj2 (proj2
           (wait_for_job_completion_outcomes (fun k => inject_Z (5 * Z.of_nat k))
              (fun _ => Ok (status_body "queued")) None "j1" 12 5))) 3%nat 10%nat).
  - vm_compute. discriminate.
  - lia.
  - lia.
  - intros i Hi. split.
    + destruct i as [|[|[|i]]]; [reflexivity..|lia].
    + exists (status_body "queued"), (JStr "queued"). by repeat split.
Defined.

(** ** When the workspace cannot be set up *)

Lemma path_mkdir_files (E : Env) (d : string) (w w' : fs) (r : result unit) :
  path_mkdir E d w = (r, w') -> files w' = files w.
Proof.
  unfold path_mkdir. intros H.
  repeat match type of H with
         | context [match ?x with _ => _ end] => destruct_innermost x
         end; by simplify_eq.
Qed.

Lemma mkdir_loop_files (E : Env) (ds : list string) (a0 a1 : server)
    (r : result (list unit)) :
  for_each (fun dir_path => on_fs (path_mkdir E dir_path)) ds a0 = (r, a1) ->
  files (fsys a1) = files (fsys a0).
Proof.
  revert a0 a1 r. induction ds as [|d ds IH]; intros a0 a1 r; cbn [for_each].
  - by intros [= _ <-].
  - intros H. apply run_bind in H as [(e & [Hm _]%on_fs_run & _)|(y & s1 & [Hm _]%on_fs_run & H)];
      apply path_mkdir_files in Hm; [assumption|].
    apply run_bind in H as [(e & Hloop & _)|(ys & s2 & Hloop & H)];
      apply IH in Hloop; [congruence|].
    injection H as _ <-. congruence.
Qed.

(** X19: when creating a workspace directory raises, the exception leaves
    [generate_video_task]: the directory loop stands before [try].  The
    task ends with that exception, no record of the registry is changed
    (the job stays as it was, [queued] after an acceptance), nothing is
    logged and no file is written. *)
Theorem workspace_setup_failure_escapes
    (E : Env) (id : string) (request : VideoRequest) (a0 a1 : server) (e : exn) :
  for_each (fun dir_path => on_fs (path_mkdir E dir_path)) (workspace_dirs id) a0
    = (Raise e, a1) ->
  generate_video_task E id request a0 = (Raise e, a1)
  /\ job_statuses a1 = job_statuses a0
  /\ history a1 = history a0
  /\ logged a1 = logged a0
  /\ files (fsys a1) = files (fsys a0).
Proof.
  intros Hsetup.
  destruct (workspace_setup_frame _ _ _ _ _ Hsetup) as (Hreg & Hhist & Hlog).
  pose proof (mkdir_loop_files _ _ _ _ _ Hsetup) as Hfiles.
  split; [|by repeat split].
  unfold generate_video_task. unfold bind at 1.
  change (for_each _ _ a0) with
    (for_each (fun dir_path => on_fs (path_mkdir E dir_path)) (workspace_dirs id) a0).
  by rewrite Hsetup.
Qed.

Lemma workspace_setup_failure_escapes_witness :
  generate_video_task quota_env "j1" example_request queued_server
  = (Raise (OSError "jobs/j1/script"), queued_server).
Proof.
  apply (workspace_setup_failure_escapes quota_env "j1" example_request queued_server
           queued_server (OSError "jobs/j1/script")).
  vm_compute. reflexivity.
Defined.

(** ** Composition without an output directory, or without the media tool *)



(** ** What [concat_videos] leaves behind *)

Lemma fallback_copy_keeps (E : Env) (source_path dest_path : string) (w w' : fs)
    (r : result string) :
  fallback_copy E source_path dest_path w = (r, w') ->
  (forall p, is_Some (files w !! p) -> is_Some (files w' !! p))
  /\ (forall d, d ∈ dirs w -> d ∈ dirs w')
  /\ tmp_count w' = tmp_count w.
Proof.
  unfold fallback_copy, try_except. unfold bind at 1.
  destruct (os_makedirs E (dirname dest_path) w) as [[[]|e] w1] eqn:Hmk;
    pose proof (os_makedirs_effect _ _ _ _ _ Hmk) as (Hf & Ht & Hd & _).
  - unfold bind at 1.
    destruct (shutil_copy2 E source_path dest_path w1) as [[[]|e] w2] eqn:Hcp;
      pose proof (shutil_copy2_keeps _ _ _ _ _ _ Hcp) as (Hd2 & Ht2 & Hf2);
      unfold ret; intros [= <- <-];
      (split; [intros p Hp; apply Hf2; by rewrite Hf|]);
      (split; [intros d Hin; rewrite Hd2; by apply Hd | by rewrite Ht2]).
  - unfold ret. intros [= <- <-]. split; [intros p Hp; by rewrite Hf|]. by split.
Qed.

(** X21: [concat_videos] does not clean up when the media tool cannot be
    started.  On two or more clips it creates a temporary directory and
    writes the list file into it; when starting the tool raises (the tool
    is not installed) and leaves the file system as it was, the method
    goes to the copy fallback without the clean-up: the temporary
    directory and the list file are still there when it returns, whatever
    the fallback does. *)
Theorem concat_videos_leaves_list_file_when_tool_cannot_start
    (E : Env) (first second : string) (others : list string) (output_path temp_dir : string)
    (w w1 w2 w3 : fs) (e : exn) :
  let video_paths := first :: second :: others in
  let list_file := path_join temp_dir "video_list.txt" in
  os_makedirs E (dirname output_path) w = (Ok tt, w1) ->
  tempfile_mkdtemp E w1 = (Ok temp_dir, w2) ->
  write_file E list_file (list_byte_of_string (concat_manifest E video_paths)) w2
    = (Ok tt, w3) ->
  subprocess_exec E (concat_cmd list_file output_path) w3 = (Raise e, w3) ->
  exists r w',
    concat_videos E video_paths output_path w = (Ok r, w')
    /\ is_dir temp_dir w = false
    /\ is_dir temp_dir w' = true
    /\ is_Some (files w' !! list_file)
    /\ tmp_count w' = S (tmp_count w).
Proof.
  intros video_paths list_file Hmk Htmp Hwrite Hexec.
  destruct (fallback_copy E first output_path w3) as [r0 w'] eqn:Hcopy.
  destruct (fallback_copy_returns E first output_path w3) as (r & w'' & Hr & _).
  rewrite Hcopy in Hr. injection Hr as -> <-.
  destruct (fallback_copy_keeps _ _ _ _ _ _ Hcopy) as (Hfiles & Hdirs & Hcount).
  exists r, w'.
  assert (Hrun : concat_videos E video_paths output_path w = (Ok r, w')).
  { unfold concat_videos, video_paths. cbn [length Nat.eqb].
    unfold try_except at 1. unfold bind at 1. rewrite Hmk.
    unfold try_except at 1. unfold bind at 1. rewrite Htmp.
    fold list_file. fold video_paths. unfold bind at 1. rewrite Hwrite.
    unfold bind at 1. rewrite Hexec. by rewrite Hcopy. }
  split; [exact Hrun|].
  pose proof (os_makedirs_effect _ _ _ _ _ Hmk) as (_ & Hcount1 & Hdirs1 & _).
  apply write_file_effect in Hwrite as (Hdirs3 & Hcount3 & _ & Hnew & _).
  unfold tempfile_mkdtemp in Htmp.
  destruct (os_refuses E OpMkdtemp); [discriminate|].
  destruct (path_exists _ w1) eqn:Hexists; [discriminate|].
  injection Htmp as <- <-. cbn [dirs tmp_count] in *.
  split; [|split; [|split]].
  - apply orb_false_elim in Hexists as [Hnodir _]. unfold is_dir in *.
    apply bool_decide_eq_false. apply bool_decide_eq_false in Hnodir.
    intros Hin. by apply Hnodir, Hdirs1.
  - unfold is_dir. apply bool_decide_eq_true, Hdirs. rewrite Hdirs3.
    apply elem_of_union. left. by apply elem_of_singleton.
  - apply Hfiles. rewrite (Hnew eq_refl). by eexists.
  - rewrite Hcount, Hcount3. by rewrite Hcount1.
Qed.

Lemma concat_videos_leaves_list_file_when_tool_cannot_start_witness :
  exists r w',
    concat_videos bare_env
      ["jobs/j1/output/combined_scene_1.mp4"; "jobs/j1/output/combined_scene_2.mp4"]
      "jobs/j1/output/final_video.mp4" two_clips_fs = (Ok r, w')
    /\ is_dir "/tmp/tmp0" two_clips_fs = false
    /\ is_dir "/tmp/tmp0" w' = true
    /\ is_Some (files w' !! "/tmp/tmp0/video_list.txt").
Proof.
  pose (E := bare_env).
  pose (w1 := (os_makedirs E "jobs/j1/output" two_clips_fs).2).
  pose (w2 := (tempfile_mkdtemp E w1).2).
  pose (w3 := (write_file E "/tmp/tmp0/video_list.txt"
                 (list_byte_of_string
                    (concat_manifest E ["jobs/j1/output/combined_scene_1.mp4";
                                        "jobs/j1/output/combined_scene_2.mp4"])) w2).2).
  destruct (concat_videos_leaves_list_file_when_tool_cannot_start E
              "jobs/j1/output/combined_scene_1.mp4" "jobs/j1/output/combined_scene_2.mp4" []
              "jobs/j1/output/final_video.mp4" "/tmp/tmp0" two_clips_fs w1 w2 w3
              (FileNotFoundError "ffmpeg"))
    as (r & w' & Hrun & Hbefore & Hafter & Hlist & _); [vm_compute; reflexivity..|].
  exists r, w'. by repeat split.
Defined.

(** ** A completed job need not have a video *)

Lemma for_each_invariant {S A B} (I : S -> Prop) (body : A -> M S B) (xs : list A) :
  (forall x s r s', x ∈ xs -> I s -> body x s = (r, s') -> I s') ->
  forall s r s', I s -> for_each body xs s = (r, s') -> I s'.
Proof.
  induction xs as [|x xs IH]; intros Hbody s r s' HI; cbn [for_each].
  - by intros [= _ <-].
  - assert (Hhead : x ∈ x :: xs) by (apply elem_of_cons; by left).
    assert (Htail : forall x0 s0 r0 s0', x0 ∈ xs -> I s0 -> body x0 s0 = (r0, s0') -> I s0').
    { intros x0 s0 r0 s0' Hin. apply Hbody, elem_of_cons. by right. }
    intros H. apply run_bind in H as [(e & Hm & _)|(y & s1 & Hm & H)];
      [by eapply Hbody|].
    pose proof (Hbody _ _ _ _ Hhead HI Hm) as HI1.
    apply run_bind in H as [(e & Hm' & _)|(ys & s2 & Hm' & H)];
      [by eapply IH|].
    injection H as _ <-. by eapply IH.
Qed.

(** The paths of the [script], [audio] and [video] directories of a job
    do not lie below its [output] directory. *)
Lemma not_under_output (id name : string) :
  under (path_div (path_div JOBS_DIR id) "output")
    (path_div (path_div (path_div JOBS_DIR id) "script") name) = false
  /\ under (path_div (path_div JOBS_DIR id) "output")
       (path_div (path_div (path_div JOBS_DIR id) "audio") name) = false
  /\ under (path_div (path_div JOBS_DIR id) "output")
       (path_div (path_div (path_div JOBS_DIR id) "video") name) = false.
Proof.
  unfold under, path_div.
  repeat split; apply orb_false_intro;
    try (apply bool_decide_eq_false; intros H; rewrite !string_app_assoc in H;
         apply (inj (String.app JOBS_DIR)), (inj (String.app "/")),
           (inj (String.app id)) in H;
         vm_compute in H; discriminate H).
  all: match goal with |- match ?x with _ => _ end = false => destruct x as [r|] eqn:H end;
    [|reflexivity];
    apply strip_prefix_Some in H; rewrite !string_app_assoc in H;
    apply (inj (String.app JOBS_DIR)), (inj (String.app "/")), (inj (String.app id)) in H;
    vm_compute in H; discriminate H.
Qed.

Lemma under_output_starts (id p : string) :
  under (path_div (path_div JOBS_DIR id) "output") p = true -> exists p', p = String "j" p'.
Proof.
  unfold under, path_div. intros [H|H]%orb_prop.
  - apply bool_decide_eq_true in H. subst p. by eexists.
  - destruct (strip_prefix _ p) as [r|] eqn:Hp; [|discriminate].
    apply strip_prefix_Some in Hp. subst p. by eexists.
Qed.

Lemma not_under_tmp (t p' : string) : under (String "/" t) (String "j" p') = false.
Proof. reflexivity. Qed.

Lemma path_join_starts (t b : string) :
  strip_prefix "/" b = None -> exists x, path_join (String "/" t) b = String "/" x.
Proof.
  intros Hb. unfold path_join. rewrite Hb.
  destruct (_ || _); rewrite app_cons; by eexists.
Qed.

Lemma write_file_keeps (E : Env) (q : string) (content : bytes) (w w' : fs)
    (r : result unit) (p : string) :
  write_file E q content w = (r, w') -> p <> q -> files w' !! p = files w !! p.
Proof. intros (_ & _ & Hkeep & _)%write_file_effect Hne. by apply Hkeep. Qed.

Lemma generate_mock_video_silent (E : Env) (output_path : string) (w w' : fs)
    (r : result string) :
  silent_tool E ->
  generate_mock_video E output_path w = (r, w') -> files w' = files w.
Proof.
  intros Hsilent. unfold generate_mock_video. unfold try_except at 1. unfold bind at 1.
  destruct (os_makedirs E (dirname output_path) w) as [[[]|e] w1] eqn:Hmk;
    apply os_makedirs_files in Hmk; [|intros [= _ <-]; exact Hmk].
  unfold bind at 1. unfold try_except at 1. unfold bind at 1.
  destruct (Hsilent (mock_video_cmd output_path) w1) as (process0 & -> & Hcode).
  apply Z.eqb_eq in Hcode. rewrite Hcode. unfold ret. by intros [= _ <-].
Qed.

Lemma combine_audio_video_silent (E : Env) (video_path audio_path output_path : string)
    (w w' : fs) (r : result string) :
  silent_tool E ->
  combine_audio_video E video_path audio_path output_path w = (r, w') -> files w' = files w.
Proof.
  intros Hsilent.
  destruct (os_makedirs E (dirname output_path) w) as [[[]|e] w1] eqn:Hmk.
  - unfold combine_audio_video. unfold try_except at 1. unfold bind at 1. rewrite Hmk.
    apply os_makedirs_files in Hmk.
    unfold try_except at 1. unfold bind at 1.
    destruct (Hsilent (combine_cmd video_path audio_path output_path) w1)
      as (process0 & -> & Hcode).
    apply Z.eqb_eq in Hcode. rewrite Hcode. unfold ret. by intros [= _ <-].
  - rewrite (combine_audio_video_without_directory _ _ _ _ _ _ _ Hmk).
    intros [= _ <-]. by eapply os_makedirs_files.
Qed.

Lemma fallback_copy_missing (E : Env) (source_path dest_path : string) (w w' : fs)
    (r : result string) :
  files w !! source_path = None ->
  fallback_copy E source_path dest_path w = (r, w') -> files w' = files w.
Proof.
  intros Hmissing. unfold fallback_copy, try_except. unfold bind at 1.
  destruct (os_makedirs E (dirname dest_path) w) as [[[]|e] w1] eqn:Hmk;
    apply os_makedirs_files in Hmk; [|by intros [= _ <-]].
  unfold bind at 1. unfold shutil_copy2. rewrite Hmk, Hmissing. by intros [= _ <-].
Qed.

Lemma concat_videos_silent (E : Env) (video_paths : list string) (output_path : string)
    (w w' : fs) (r : result string) :
  silent_tool E ->
  (forall first,
      head video_paths = Some first ->
      files w !! first = None /\ exists f', first = String "j" f') ->
  concat_videos E video_paths output_path w = (r, w') ->
  forall p', files w' !! String "j" p' = files w !! String "j" p'.
Proof.
  intros Hsilent Hfirst Hrun p'. destruct video_paths as [|first others].
  { unfold concat_videos, try_except, ret in Hrun. by injection Hrun as _ <-. }
  destruct (Hfirst first eq_refl) as [Hmissing [f' ->]]. clear Hfirst.
  unfold concat_videos in Hrun. unfold try_except at 1 in Hrun. unfold bind at 1 in Hrun.
  destruct (os_makedirs E (dirname output_path) w) as [[[]|e] w1] eqn:Hmk;
    pose proof (os_makedirs_files _ _ _ _ _ Hmk) as Hfiles1; cycle 1.
  { apply fallback_copy_missing in Hrun; congruence. }
  assert (Hdirect : forall w0 r0 w0',
             files w0 !! String "j" f' = None ->
             (let (r1, s') := fallback_copy E (String "j" f') output_path w0 in
              match r1 with
              | Ok a => (Ok a, s')
              | Raise _ => fallback_copy E (String "j" f') output_path s'
              end) = (r0, w0') -> files w0' = files w0).
  { intros w0 r0 w0' Hw0.
    destruct (fallback_copy E (String "j" f') output_path w0) as [r1 s'] eqn:Hc.
    apply fallback_copy_missing in Hc; [|assumption].
    destruct r1; [intros [= _ <-]; congruence|].
    intros Hc'. apply fallback_copy_missing in Hc'; congruence. }
  destruct (length (String "j" f' :: others) =? 1)%nat.
  { apply Hdirect in Hrun; [by rewrite Hrun, Hfiles1 | by rewrite Hfiles1]. }
  unfold try_except at 1 in Hrun. unfold bind at 1 in Hrun.
  destruct (tempfile_mkdtemp E w1) as [[temp_dir|e] w2] eqn:Htmp.
  2: { unfold tempfile_mkdtemp in Htmp.
       repeat match type of Htmp with
              | context [if ?x then _ else _] => destruct x
              end; simplify_eq;
         (apply Hdirect in Hrun; [by rewrite Hrun, Hfiles1 | by rewrite Hfiles1]). }
  assert (Htemp : exists t, temp_dir = String "/" t /\ files w2 = files w1).
  { unfold tempfile_mkdtemp in Htmp.
    repeat match type of Htmp with
           | context [if ?x then _ else _] => destruct x
           end; simplify_eq. by eexists. }
  destruct Htemp as (t & -> & Hfiles2).
  destruct (path_join_starts t "video_list.txt" eq_refl) as [x Hx].
  rewrite Hx in Hrun. unfold bind at 1 in Hrun.
  destruct (write_file E (String "/" x) _ w2) as [[[]|e] w3] eqn:Hwrite.
  2: { apply Hdirect in Hrun.
       - rewrite Hrun, (write_file_keeps _ _ _ _ _ _ _ Hwrite) by discriminate.
         by rewrite Hfiles2, Hfiles1.
       - rewrite (write_file_keeps _ _ _ _ _ _ _ Hwrite) by discriminate.
         by rewrite Hfiles2, Hfiles1. }
  unfold bind at 1 in Hrun.
  destruct (Hsilent (concat_cmd (String "/" x) output_path) w3) as (process0 & Hexec & Hcode).
  rewrite Hexec in Hrun. unfold bind at 1 in Hrun.
  destruct (try_except (os_remove E (String "/" x) ;;; os_rmdir E (String "/" t))
              (fun _ => ret tt) w3) as [rc w5] eqn:Hclean.
  apply concat_cleanup_effect in Hclean as (-> & Hkeep & _).
  apply Z.eqb_eq in Hcode. rewrite Hcode in Hrun. unfold ret in Hrun.
  injection Hrun as _ <-.
  rewrite Hkeep by discriminate.
  rewrite (write_file_keeps _ _ _ _ _ _ _ Hwrite) by discriminate.
  by rewrite Hfiles2, Hfiles1.
Qed.

Lemma shutil_rmtree_keeps (E : Env) (t p' : string) (w w' : fs) (r : result unit) :
  shutil_rmtree E (String "/" t) w = (r, w') ->
  files w' !! String "j" p' = files w !! String "j" p'.
Proof.
  destruct r as [[]|e].
  - intros [_ Hkeep]%shutil_rmtree_effect. apply Hkeep, not_under_tmp.
  - unfold shutil_rmtree.
    repeat match goal with |- context [if ?x then _ else _] => destruct x end;
      intros H; by simplify_eq.
Qed.

Lemma tempfile_mkdtemp_effect (E : Env) (w w' : fs) (r : result string) :
  tempfile_mkdtemp E w = (r, w') ->
  files w' = files w /\ forall d, r = Ok d -> exists t, d = String "/" t.
Proof.
  unfold tempfile_mkdtemp. intros H.
  repeat match type of H with
         | context [if ?x then _ else _] => destruct x
         end; simplify_eq; (split; [reflexivity|]); intros d [= <-]. by eexists.
Qed.

Lemma try_except_run {S A} (m : M S A) (h : exn -> M S A) (s s' : S) (r : result A) :
  try_except m h s = (r, s') ->
  (exists x, m s = (Ok x, s') /\ r = Ok x)
  \/ (exists e s1, m s = (Raise e, s1) /\ h e s1 = (r, s')).
Proof.
  unfold try_except. destruct (m s) as [[x|e] s1].
  - intros [= <- <-]. left. by exists x.
  - intros H. right. by exists e, s1.
Qed.

Lemma try_finally_run {S A} (body : M S A) (cleanup : M S unit) (s s' : S) (r : result A) :
  try_finally body cleanup s = (r, s') ->
  exists rb s1 rc, body s = (rb, s1) /\ cleanup s1 = (rc, s').
Proof.
  unfold try_finally. destruct (body s) as [rb s1]. destruct (cleanup s1) as [[[]|e] s2] eqn:Hc;
    intros [= _ <-]; by eexists _, _, _.
Qed.

Lemma in_fs_run {A} (m : M fs A) (s s' : frame * fs) (r : result A) :
  in_fs m s = (r, s') -> m s.2 = (r, s'.2) /\ s'.1 = s.1.
Proof. unfold in_fs, zoom. destruct (m s.2) as [r' w']. by intros [= <- <-]. Qed.

(** What [render_scene] does after [import manim] has succeeded, when the
    tool exits with code 0 whatever it is asked: files are written and
    removed in the temporary directory only. *)
Lemma render_with_manim_silent (E : Env) (scene_code output_path quality : string)
    (w : fs) (r : result string) (s' : frame * fs) (p' : string) :
  silent_tool E ->
  render_with_manim E scene_code output_path quality (mkFrame false, w) = (r, s') ->
  files s'.2 !! String "j" p' = files w !! String "j" p'.
Proof.
  intros Hsilent Hrun.
  assert (Hmock : forall s0 r0 s1,
             in_fs (generate_mock_video E output_path) s0 = (r0, s1) ->
             files s1.2 = files s0.2).
  { intros s0 r0 s1 [Hm _]%in_fs_run. by eapply generate_mock_video_silent. }
  unfold render_with_manim in Hrun.
  apply run_bind in Hrun as [(e & [Hm _]%in_fs_run & _)|(temp_dir & s1 & [Hm Hf1]%in_fs_run & Hrun)];
    apply tempfile_mkdtemp_effect in Hm as [Hfiles1 Hname]; [by rewrite Hfiles1|].
  destruct (Hname _ eq_refl) as [t ->]. clear Hname. cbn [fst snd] in Hf1, Hfiles1.
  destruct (extract_class_name scene_code) as [class_name|];
    [|apply Hmock in Hrun; by rewrite Hrun, Hfiles1].
  destruct (bool_decide (class_name = ""));
    [apply Hmock in Hrun; by rewrite Hrun, Hfiles1|].
  destruct (path_join_starts t "scene.py" eq_refl) as [x Hx]. rewrite Hx in Hrun.
  assert (Hfiles2 : forall s2 r2,
             in_fs (write_file E (String "/" x) (list_byte_of_string scene_code)) s1 = (r2, s2) ->
             files s2.2 !! String "j" p' = files w !! String "j" p' /\ s2.1 = mkFrame false).
  { intros s2 r2 [Hm Hf]%in_fs_run. split; [|congruence].
    rewrite (write_file_keeps _ _ _ _ _ _ _ Hm) by discriminate. by rewrite Hfiles1. }
  apply run_bind in Hrun as [(e & Hm & _)|([] & s2 & Hm & Hrun)];
    apply Hfiles2 in Hm as [Hkeep2 Hf2]; [assumption|].
  apply run_bind in Hrun as [(e & [Hmk _]%in_fs_run & _)|([] & s3 & [Hmk Hf3]%in_fs_run & Hrun)];
    apply os_makedirs_files in Hmk; [by rewrite Hmk|].
  apply try_finally_run in Hrun as (rb & s4 & rc & Hbody & Hclean).
  assert (Hfiles4 : files s4.2 = files s3.2).
  { assert (Hinner : forall rb' s4',
               (process0 <-
                  in_fs (subprocess_exec E
                           (manim_cmd E (String "/" x) class_name quality output_path
                              (String "/" t))) ;;
                if negb (returncode process0 =? 0)%Z then
                  decode_stderr process0 ;;;
                  in_fs (generate_mock_video E output_path)
                else
                  s <- get_store ;;
                  match find_mp4 (path_join (String "/" t) "videos") s.2 with
                  | None => in_fs (generate_mock_video E output_path)
                  | Some scene_video =>
                      load_shutil ;;;
                      in_fs (shutil_copy2 E scene_video output_path) ;;;
                      ret output_path
                  end) s3 = (rb', s4') ->
               files s4'.2 = files s3.2).
    { intros rb' s4'. unfold bind at 1. unfold in_fs at 1, zoom.
      destruct (Hsilent (manim_cmd E (String "/" x) class_name quality output_path
                           (String "/" t)) s3.2) as (process0 & -> & Hcode).
      apply Z.eqb_eq in Hcode. rewrite Hcode. cbn [negb].
      unfold bind at 1, get_store. cbn [fst snd].
      destruct (find_mp4 _ s3.2) as [scene_video|]; [|by intros ->%Hmock].
      unfold bind at 1, load_shutil. cbn [fst snd]. rewrite Hf3, Hf2. cbn [shutil_bound].
      by intros [= _ <-]. }
    apply try_except_run in Hbody as [(v & Hm & _)|(e & s3' & Hm & Hh)].
    - by eapply Hinner.
    - apply Hinner in Hm. apply Hmock in Hh. congruence. }
  assert (Hfiles5 : files s'.2 !! String "j" p' = files s4.2 !! String "j" p').
  { apply try_except_run in Hclean as [([] & Hm & _)|(e & s4' & Hm & Hh)].
    - unfold bind at 1, import_shutil, modify in Hm.
      unfold bind at 1, load_shutil in Hm. cbn [fst snd shutil_bound] in Hm.
      apply in_fs_run in Hm as [Hm _]. by eapply shutil_rmtree_keeps.
    - injection Hh as _ <-.
      unfold bind at 1, import_shutil, modify in Hm.
      unfold bind at 1, load_shutil in Hm. cbn [fst snd shutil_bound] in Hm.
      apply in_fs_run in Hm as [Hm _]. by eapply shutil_rmtree_keeps. }
  rewrite Hfiles5, Hfiles4, Hmk. exact Hkeep2.
Qed.

Lemma render_scene_silent (E : Env) (scene_code output_path quality : string)
    (w w' : fs) (r : result string) (p' : string) :
  silent_tool E ->
  render_scene E scene_code output_path quality w = (r, w') ->
  files w' !! String "j" p' = files w !! String "j" p'.
Proof.
  intros Hsilent Hrun.
  assert (Hmock : forall w0 r0 w1,
             generate_mock_video E output_path w0 = (r0, w1) -> files w1 = files w0).
  { intros w0 r0 w1. by apply generate_mock_video_silent. }
  unfold render_scene in Hrun.
  assert (Hbody : forall rb w1,
             match import_manim E with
             | Ok _ => with_frame (render_with_manim E scene_code output_path quality)
             | Raise e =>
                 if is_import_error e then generate_mock_video E output_path else raise e
             end w = (rb, w1) ->
             files w1 !! String "j" p' = files w !! String "j" p').
  { intros rb w1. destruct (import_manim E) as [[]|e].
    - unfold with_frame.
      destruct (render_with_manim _ _ _ _ _) as [r1 s1] eqn:Hm. intros [= _ <-].
      by eapply render_with_manim_silent.
    - destruct (is_import_error e); [by intros ->%Hmock|]. by intros [= _ <-]. }
  apply try_except_run in Hrun as [(v & Hm & _)|(e & w1 & Hm & Hh)].
  - by eapply Hbody.
  - apply Hbody in Hm. apply Hmock in Hh. by rewrite Hh.
Qed.

Lemma preserves_bind_post {S A B} (I : S -> Prop) (Q : A -> Prop) (m : M S A)
    (k : A -> M S B) :
  preserves I m -> (forall s x s', m s = (Ok x, s') -> Q x) ->
  (forall x, Q x -> preserves I (k x)) -> preserves I (bind m k).
Proof.
  intros Hm HQ Hk s r s' HI [(e & Hrun & _)|(x & s1 & Hrun & Hrest)]%run_bind.
  - by eapply Hm.
  - eapply (Hk x); [by eapply HQ| |exact Hrest]. by eapply Hm.
Qed.

Lemma preserves_bind {S A B} (I : S -> Prop) (m : M S A) (k : A -> M S B) :
  preserves I m -> (forall x, preserves I (k x)) -> preserves I (bind m k).
Proof.
  intros Hm Hk. apply (preserves_bind_post I (fun _ => True)); [assumption|done|].
  intros x _. apply Hk.
Qed.

Lemma preserves_ret {S A} (I : S -> Prop) (x : A) : preserves I (ret x).
Proof. by intros s r s' HI [= _ <-]. Qed.

Lemma preserves_lift_result {S A} (I : S -> Prop) (x : result A) :
  preserves I (lift_result x).
Proof. by intros s r s' HI [= _ <-]. Qed.

Lemma preserves_list_getitem {S A} (I : S -> Prop) (xs : list A) (i : nat) :
  preserves I (list_getitem (S := S) xs i).
Proof. unfold list_getitem. destruct (xs !! i); by intros s r s' HI [= _ <-]. Qed.

Lemma preserves_try_except {S A} (I : S -> Prop) (m : M S A) (h : exn -> M S A) :
  preserves I m -> (forall e, preserves I (h e)) -> preserves I (try_except m h).
Proof.
  intros Hm Hh s r s' HI [(x & Hrun & _)|(e & s1 & Hrun & Hrest)]%try_except_run.
  - by eapply Hm.
  - eapply (Hh e); [|exact Hrest]. by eapply Hm.
Qed.

Lemma preserves_for_each {S A B} (I : S -> Prop) (body : A -> M S B) (xs : list A) :
  (forall x, preserves I (body x)) -> preserves I (for_each body xs).
Proof.
  intros Hbody s r s'. apply for_each_invariant. intros x s0 r0 s0' _. apply Hbody.
Qed.

Lemma for_each_results {S A B} (P : B -> Prop) (body : A -> M S B) (xs : list A) :
  (forall x s y s', body x s = (Ok y, s') -> P y) ->
  forall s ys s', for_each body xs s = (Ok ys, s') -> Forall P ys.
Proof.
  intros Hbody. induction xs as [|x xs IH]; intros s ys s'; cbn [for_each].
  - intros [= <- _]. constructor.
  - intros [(e & _ & [=])|(y & s1 & Hm & H)]%run_bind.
    apply run_bind in H as [(e & _ & [=])|(ys' & s2 & Hm' & H)].
    injection H as <- _. constructor; [by eapply Hbody | by eapply IH].
Qed.

Lemma preserves_on_fs {A} (I : fs -> Prop) (m : M fs A) :
  preserves I m -> preserves (fun a => I (fsys a)) (on_fs m).
Proof. intros Hm a r a' HI [Hrun _]%on_fs_run. by eapply Hm. Qed.

Lemma preserves_update_job (I : fs -> Prop) (id : string) (f : JobStatus -> JobStatus) :
  preserves (fun a => I (fsys a)) (update_job id f).
Proof.
  intros a r a' HI. unfold update_job.
  destruct (job_statuses a !! id); by intros [= _ <-].
Qed.

Lemma preserves_set_job (I : fs -> Prop) (id : string) (j : JobStatus) :
  preserves (fun a => I (fsys a)) (set_job id j).
Proof. by intros a r a' HI [= _ <-]. Qed.

Lemma preserves_logger_exception (I : fs -> Prop) (line : string) :
  preserves (fun a => I (fsys a)) (logger_exception line).
Proof. by intros a r a' HI [= _ <-]. Qed.

(** Steps that leave the files at paths beginning with the first
    character of [jobs] alone keep the [output] directory of a job empty. *)
Lemma preserves_output_empty {A} (id : string) (m : M fs A) :
  (forall w r w' p', m w = (r, w') -> files w' !! String "j" p' = files w !! String "j" p') ->
  preserves (output_empty id) m.
Proof.
  intros Hm w r w' HI Hrun p Hp.
  destruct (under_output_starts _ _ Hp) as [p' ->].
  rewrite (Hm _ _ _ _ Hrun). by apply HI.
Qed.

Lemma under_output (id name : string) :
  under (path_div (path_div JOBS_DIR id) "output")
    (path_div (path_div (path_div JOBS_DIR id) "output") name) = true.
Proof.
  unfold under. apply orb_true_intro. right.
  assert (Hpath : strip_prefix (path_div (path_div JOBS_DIR id) "output" +:+ "/")
                    (path_div (path_div (path_div JOBS_DIR id) "output") name) = Some name).
  { apply strip_prefix_Some. unfold path_div. by rewrite !string_app_assoc. }
  by rewrite Hpath.
Qed.

Lemma generate_manim_code_pure (E : Env) (scene : json) (index : Z) (w w' : fs)
    (r : result string) :
  generate_manim_code E scene index w = (r, w') -> w' = w.
Proof.
  assert (Hmock : forall w0 r0 w1, generate_mock_code E scene index w0 = (r0, w1) -> w1 = w0).
  { intros w0 r0 w1. unfold generate_mock_code. unfold_monad.
    repeat match goal with
           | |- context [match ?x with _ => _ end] => destruct_innermost x
           end; by intros [= _ <-]. }
  intros [(x & Hm & _)|(e & w1 & Hm & Hh)]%try_except_run.
  - destruct (negb _); [by eapply Hmock|].
    revert Hm. unfold_monad.
    repeat match goal with
           | |- context [match ?x with _ => _ end] => destruct_innermost x
           end; by intros [= _ <-].
  - apply Hmock in Hh. subst w'.
    destruct (negb _); [by eapply Hmock|].
    revert Hm. unfold_monad.
    repeat match goal with
           | |- context [match ?x with _ => _ end] => destruct_innermost x
           end; by intros [= _ <-].
Qed.

Lemma write_keeps_output_empty (E : Env) (id name top : string) (content : bytes) :
  top = "script" \/ top = "audio" \/ top = "video" ->
  preserves (output_empty id)
    (write_file E (path_div (path_div (path_div JOBS_DIR id) top) name) content).
Proof.
  intros Htop w r w' HI Hrun p Hp.
  rewrite (write_file_keeps _ _ _ _ _ _ p Hrun); [by apply HI|].
  intros ->. destruct (not_under_output id name) as (H1 & H2 & H3).
  destruct Htop as [-> | [-> | ->]]; congruence.
Qed.

(** With a tool that exits with code 0 and writes nothing, the steps
    inside [try] keep the [output] directory of the job empty. *)
Lemma pipeline_keeps_output_empty (E : Env) (id : string) (request : VideoRequest) :
  silent_tool E ->
  preserves (fun a => output_empty id (fsys a))
    (pipeline E id request (path_div (path_div JOBS_DIR id) "script")
       (path_div (path_div JOBS_DIR id) "audio") (path_div (path_div JOBS_DIR id) "video")
       (path_div (path_div JOBS_DIR id) "output")).
Proof.
  intros Hsilent. unfold pipeline.
  apply preserves_bind; [apply preserves_set_job|intros _].
  apply preserves_bind; [|intros script0].
  { apply preserves_on_fs. intros w r w' HI Hrun.
    destruct (generate_script_valid E (prompt request) w) as (s0 & Hgen & _).
    rewrite Hgen in Hrun. by injection Hrun as _ <-. }
  apply preserves_bind; [|intros _].
  { apply preserves_on_fs, write_keeps_output_empty. by left. }
  do 3 (apply preserves_bind; [apply preserves_update_job|intros _]).
  apply preserves_bind; [apply preserves_lift_result|intros scenes].
  apply preserves_bind; [|intros scene_codes].
  { apply preserves_for_each. intros [i scene].
    apply preserves_bind; [|intros code].
    { apply preserves_on_fs. intros w r w' HI Hrun.
      by rewrite (generate_manim_code_pure _ _ _ _ _ _ Hrun). }
    apply preserves_bind; [|intros _; apply preserves_ret].
    apply preserves_on_fs, write_keeps_output_empty. by left. }
  do 2 (apply preserves_bind; [apply preserves_update_job|intros _]).
  apply preserves_bind; [|intros audio_paths].
  { apply preserves_for_each. intros [i scene].
    apply preserves_bind; [apply preserves_lift_result|intros narration].
    apply preserves_bind; [|intros _; apply preserves_ret].
    apply preserves_on_fs. intros w r w' HI Hrun p Hp.
    destruct (generate_speech_touches_only E narration
                (path_div (path_div (path_div JOBS_DIR id) "audio") (scene_file i ".mp3"))
                (voice_id request) w) as (w1 & Hspeech & Hkeep & _).
    rewrite Hspeech in Hrun. injection Hrun as _ <-.
    rewrite Hkeep; [by apply HI|].
    intros ->. destruct (not_under_output id (scene_file i ".mp3")) as (_ & H2 & _).
    congruence. }
  do 2 (apply preserves_bind; [apply preserves_update_job|intros _]).
  apply preserves_bind; [|intros video_paths].
  { apply preserves_for_each. intros [i code].
    apply preserves_bind; [|intros _; apply preserves_ret].
    apply preserves_on_fs, preserves_output_empty. intros w r w' p' Hrun.
    by eapply render_scene_silent. }
  do 2 (apply preserves_bind; [apply preserves_update_job|intros _]).
  apply (preserves_bind_post _
           (Forall (fun p => under (path_div (path_div JOBS_DIR id) "output") p = true))).
  { apply preserves_for_each. intros i.
    do 2 (apply preserves_bind; [apply preserves_list_getitem|intros ?]).
    apply preserves_bind; [|intros _; apply preserves_ret].
    apply preserves_on_fs. intros w r w' HI Hrun p Hp.
    rewrite (combine_audio_video_silent _ _ _ _ _ _ _ Hsilent Hrun). by apply HI. }
  { intros a combined_paths a'. apply for_each_results. intros i a3 y a4 Hbody.
    apply run_bind in Hbody as [(e & _ & [=])|(video_path & a5 & _ & Hbody)].
    apply run_bind in Hbody as [(e & _ & [=])|(audio_path & a6 & _ & Hbody)].
    apply run_bind in Hbody as [(e & _ & [=])|(combined & a7 & _ & Hbody)].
    injection Hbody as <- _. apply under_output. }
  intros combined_paths Hcombined.
  apply preserves_bind; [|intros _].
  { apply preserves_on_fs. intros w r w' HI Hrun p Hp.
    destruct (under_output_starts _ _ Hp) as [p' ->].
    assert (Hfirst : forall first,
               head combined_paths = Some first ->
               files w !! first = None /\ exists f', first = String "j" f').
    { intros first Hfirst.
      destruct combined_paths as [|c cs]; [discriminate|]. injection Hfirst as ->.
      apply Forall_cons in Hcombined as [Hunder _].
      split; [by apply HI | by eapply under_output_starts]. }
    rewrite (concat_videos_silent _ _ _ _ _ _ Hsilent Hfirst Hrun). by apply HI. }
  do 3 (apply preserves_bind; [apply preserves_update_job|intros _]).
  apply preserves_update_job.
Qed.

(** X22: a completed job need not have a video.  [generate_video_task]
    judges the media tool by its exit code and does not look at what its
    services return or leave on disk.  With a tool that exits with code 0
    whatever it is asked and writes nothing, a job whose [output]
    directory starts empty and whose [script] directory accepts the files
    written to it (every scene of the script being an object, as in the
    mock script used without the credential of the generative endpoint)
    ends as [completed], with progress 1 and the address of
    [final_video.mp4] in its record, although nothing is stored at or
    below its [output] directory: the file the address names does not
    exist. *)
Theorem completed_job_may_have_no_video
    (E : Env) (id : string) (request : VideoRequest) (a0 a1 : server) (made : list unit) :
  silent_tool E ->
  output_empty id (fsys a0) ->
  for_each (fun dir_path => on_fs (path_mkdir E dir_path)) (workspace_dirs id) a0
    = (Ok made, a1) ->
  (forall name,
      os_refuses E (OpWrite (path_div (path_div (path_div JOBS_DIR id) "script") name))
      = false) ->
  (forall name,
      is_dir (path_div (path_div (path_div JOBS_DIR id) "script") name) (fsys a1) = false) ->
  truthy (GEMINI_API_KEY E) = false
  \/ (forall script0 scene,
        generate_script E (prompt request) (fsys a1) = (Ok script0, fsys a1) ->
        scene ∈ scenes_of script0 -> exists fields, scene = JObj fields) ->
  exists script0 a2,
    generate_video_task E id request a0 = (Ok tt, a2)
    /\ job_statuses a2 !! id
       = Some (mkJobStatus id "completed" 1.0 "Video generation completed" (Some script0)
                 (Some ("/jobs/" +:+ id +:+ "/output/final_video.mp4")) None)
    /\ output_empty id (fsys a2)
    /\ files (fsys a2)
         !! path_div (path_div (path_div JOBS_DIR id) "output") "final_video.mp4" = None.
Proof.
  intros Hsilent Hempty Hsetup Hos Hnodir Hscenes.
  rewrite (generate_video_task_after_setup _ _ _ _ _ _ Hsetup).
  destruct (workspace_setup_dirs _ _ _ _ _ Hsetup) as [Hdir Hfiles].
  assert (Hempty1 : output_empty id (fsys a1)).
  { intros p Hp. rewrite Hfiles. by apply Hempty. }
  unfold try_except.
  destruct (pipeline _ _ _ _ _ _ _ a1) as [r a2] eqn:Hrun.
  pose proof (pipeline_keeps_output_empty E id request Hsilent a1 r a2 Hempty1 Hrun)
    as Hempty2.
  destruct (pipeline_outcome_script _ _ _ _ _ _ _ _ _ _ Hrun)
    as (script0 & Hgen & Hvalid & trace & j & _ & Hst & Hcase).
  assert (Hobj : forall scene, scene ∈ scenes_of script0 -> exists fields, scene = JObj fields).
  { destruct Hscenes as [Hkey|Hobj];
      [|intros scene Hin; exact (Hobj script0 scene Hgen Hin)].
    rewrite (generate_script_without_credential _ _ _ Hkey) in Hgen. injection Hgen as <-.
    apply mock_scenes_are_objects. }
  destruct Hcase as [(-> & ->)|(e & -> & _)].
  - exists script0, a2. destruct Hst as (Hreg & _ & _ & [= <-]).
    split; [reflexivity|]. split; [rewrite Hreg; apply lookup_insert_eq|].
    split; [exact Hempty2|]. apply Hempty2, under_output.
  - by eapply pipeline_does_not_raise in Hrun.
Qed.

Lemma completed_job_may_have_no_video_witness :
  exists script0 a2,
    generate_video_task silent_tool_env "j1" example_request queued_server = (Ok tt, a2)
    /\ job_statuses a2 !! "j1"
       = Some (mkJobStatus "j1" "completed" 1.0 "Video generation completed" (Some script0)
                 (Some "/jobs/j1/output/final_video.mp4") None)
    /\ files (fsys a2) !! "jobs/j1/output/final_video.mp4" = None.
Proof.
  pose (a1 := (for_each (fun dir_path => on_fs (path_mkdir silent_tool_env dir_path))
                 (workspace_dirs "j1") queued_server).2).
  assert (Hsetup : for_each (fun dir_path => on_fs (path_mkdir silent_tool_env dir_path))
                     (workspace_dirs "j1") queued_server = (Ok [tt; tt; tt; tt], a1))
    by (vm_compute; reflexivity).
  assert (Hsilent : silent_tool silent_tool_env).
  { intros cmd w. eexists. split; reflexivity. }
  assert (Hempty : output_empty "j1" (fsys queued_server)).
  { intros p _. apply lookup_empty. }
  destruct (completed_job_may_have_no_video silent_tool_env "j1" example_request
              queued_server a1 [tt; tt; tt; tt] Hsilent Hempty Hsetup)
    as (script0 & a2 & Hrun & Hrecord & _ & Hfinal).
  - reflexivity.
  - intros name. apply bool_decide_eq_false.
    destruct (mkdir_loop_dirs _ _ _ _ _ Hsetup) as [_ Hdirs]. rewrite Hdirs.
    unfold workspace_dirs. cbn [fsys queued_server dirs].
    rewrite !elem_of_cons, elem_of_nil, !elem_of_union, !elem_of_singleton.
    intros [[H|[H|[H|[H|[]]]]]|[H|H]]; vm_compute in H; discriminate H.
  - left. reflexivity.
  - exists script0, a2. split; [exact Hrun|]. split; [exact Hrecord|exact Hfinal].
Defined.
